(** * Jira workflow scripts: a shallow embedding and its properties

  The development follows the scripts under [work-on-ticket/scripts]:
  - [jira_config.py]     (credential resolution),
  - [fetch-ticket.py]    (read-only client and formatters),
  - [start-work.py]      (client, branch naming, git control, orchestrator),
  - [create-ticket.py]   (the branch name it builds),
  - [test-connection.py] (the three tests of the connection).

  Python values are modelled as the code sees them: a [str] is a sequence
  of code points (here the code points below 256, one [ascii] each), a
  decoded JSON document is a tree of dicts, lists and scalars, [os.environ]
  and the options of a configuration section are finite maps, and every
  function with an effect runs in a small monad that threads the outside
  world (tracker, git, environment) and records what was printed, requested
  over HTTP and run as a subprocess. The tracker and git are taken as they
  answer: nothing is assumed about what they reply to a request or to a
  command. *)

From Stdlib Require Import ZArith Lia Bool Ascii String.
From stdpp Require Import base option list strings gmap.

Set Warnings "-register-all".

Local Open Scope string_scope.
Local Open Scope list_scope.

(** ** Python strings *)

Module PyStr.

Definition code (c : ascii) : N := N_of_ascii c.

Definition between (lo hi : N) (c : ascii) : bool :=
  ((lo <=? code c) && (code c <=? hi))%N.

Definition hyphen : ascii := "-"%char.

Definition is_hyphen (c : ascii) : bool := Ascii.eqb c hyphen.

(** [str.lower()] on one code point: A-Z, and in the Latin-1 block the
    capitals U+00C0..U+00DE without the multiplication sign U+00D7, move up
    by 32; every other code point below 256 is left alone. *)
Definition is_upper (c : ascii) : bool :=
  between 65 90 c || between 192 214 c || between 216 222 c.

Definition lower_char (c : ascii) : ascii :=
  if is_upper c then ascii_of_N (code c + 32) else c.

(** The class [\w] of [re] on a [str] pattern: alphanumeric code points
    and the underscore. *)
Definition is_word (c : ascii) : bool :=
  between 48 57 c || between 65 90 c || Ascii.eqb c "_"%char
  || between 97 122 c
  || between 170 170 c || between 178 179 c || between 181 181 c
  || between 185 186 c || between 188 190 c
  || between 192 214 c || between 216 246 c || between 248 255 c.

(** The class [\s] of [re] on a [str] pattern. *)
Definition is_space (c : ascii) : bool :=
  between 9 13 c || between 28 32 c || between 133 133 c
  || between 160 160 c.

Definition chars (s : string) : list ascii := list_ascii_of_string s.
Definition str (l : list ascii) : string := string_of_list_ascii l.

(** [s.lower()] *)
Definition lower (l : list ascii) : list ascii := map lower_char l.

(** [s.lstrip(cs)], [s.rstrip(cs)] and [s.strip(cs)], the set of stripped
    characters given as a predicate. *)
Fixpoint lstrip (p : ascii -> bool) (l : list ascii) : list ascii :=
  match l with
  | [] => []
  | c :: r => if p c then lstrip p r else l
  end.

Fixpoint rstrip (p : ascii -> bool) (l : list ascii) : list ascii :=
  match l with
  | [] => []
  | c :: r =>
      match rstrip p r with
      | [] => if p c then [] else [c]
      | r' => c :: r'
      end
  end.

Definition strip (p : ascii -> bool) (l : list ascii) : list ascii :=
  rstrip p (lstrip p l).

(** [re.sub(r'[^...]', '', s)] for a negated one-character class: the
    characters of the class are kept. *)
Definition re_sub_delete_outside (keep : ascii -> bool) (l : list ascii)
  : list ascii := List.filter keep l.

(** [re.sub(r'[...]+', r, s)] for a one-character class and a
    one-character replacement: every maximal run of class members becomes
    one [r]. [in_run] says that the previous character was in the class. *)
Fixpoint re_sub_runs (cls : ascii -> bool) (r : ascii) (in_run : bool)
         (l : list ascii) : list ascii :=
  match l with
  | [] => []
  | c :: l' =>
      if cls c
      then (if in_run then re_sub_runs cls r true l'
            else r :: re_sub_runs cls r true l')
      else c :: re_sub_runs cls r false l'
  end.

End PyStr.

(** ** start-work.py: [slugify] *)

Module Slug.
Import PyStr.

(** [[^\w\s-]] is deleted: what stays is in [\w], [\s] or is a hyphen. *)
Definition kept (c : ascii) : bool := is_word c || is_space c || is_hyphen c.

(** [[-\s]] *)
Definition separator (c : ascii) : bool := is_hyphen c || is_space c.

Definition remove_special (l : list ascii) : list ascii :=
  re_sub_delete_outside kept (lower l).

Definition hyphenate (l : list ascii) : list ascii :=
  re_sub_runs separator hyphen false l.

Definition trimmed (l : list ascii) : list ascii :=
  strip is_hyphen (hyphenate (remove_special l)).

Definition slug_chars (l : list ascii) : list ascii := firstn 50 (trimmed l).

Definition slugify (text : string) : string := str (slug_chars (chars text)).

End Slug.

(** ** Python values, exceptions and the world the scripts run in *)

(** A decoded JSON document ([response.json()]). A dict is kept as its list of
    items; a key occurs once, and lookup takes the first occurrence. Numbers
    are the integers. *)
Inductive json : Type :=
| JNull
| JBool (b : bool)
| JNum (n : Z)
| JStr (s : string)
| JList (items : list json)
| JDict (fields : list (string * json)).

(** The exceptions the scripts can meet; all of them derive from
    [Exception]. [HTTPError], [ConnectionError] and [JSONDecodeError] derive
    from [requests.exceptions.RequestException]. [ConfigParserError] is what
    [ConfigParser.read] raises on a file it cannot parse; the three
    interpolation errors are what [get] raises on a value it cannot
    interpolate. [OSError] is what [subprocess.run] raises when the program
    cannot be started ([FileNotFoundError] when there is no [git]). *)
Inductive exn : Type :=
| HTTPError (status : Z)
| ConnectionError
| JSONDecodeError
| KeyError (key : string)
| AttributeError
| TypeError
| CalledProcessError (cmd : list string) (returncode : Z)
| OSError
| ConfigParserError
| InterpolationSyntaxError
| InterpolationMissingOptionError
| InterpolationDepthError.

Definition is_HTTPError (e : exn) : bool :=
  match e with HTTPError _ => true | _ => false end.

Definition is_RequestException (e : exn) : bool :=
  match e with
  | HTTPError _ | ConnectionError | JSONDecodeError => true
  | _ => false
  end.

Definition is_CalledProcessError (e : exn) : bool :=
  match e with CalledProcessError _ _ => true | _ => false end.

Definition is_InterpolationError (e : exn) : bool :=
  match e with
  | InterpolationSyntaxError | InterpolationMissingOptionError
  | InterpolationDepthError => true
  | _ => false
  end.

(** How a computation ends: with a value, with an exception on its way up,
    or with [SystemExit] ([sys.exit(code)]), which no [except Exception]
    stops. *)
Inductive outcome (A : Type) : Type :=
| Ret (a : A)
| Raise (e : exn)
| Exit (code : Z).
Arguments Ret {A} a.
Arguments Raise {A} e.
Arguments Exit {A} code.

(** Where a [.jira-config] is looked for: the working directory, then the
    directory above the scripts. *)
Inductive location : Type := InCwd | InScriptDir.

(** A printed line: the literal parts of an f-string and the values
    formatted into it. Literals are copied from the source with their bytes;
    they are printed and never inspected. *)
Inductive piece : Type :=
| Lit (s : string)
| Val (v : json)
| Err (e : exn)
| ConfigPath (l : location).

Inductive http_method : Type := GET | POST.

Record request : Type := mkRequest {
  req_method : http_method;
  req_url : string;
  req_params : list (string * string);
  req_json : option json
}.

(** [body] is [None] when the payload is not JSON. *)
Record response : Type := mkResponse {
  status_code : Z;
  body : option json
}.

Inductive reply : Type :=
| Answer (r : response)
| NoAnswer.

Inductive event : Type :=
| Print (line : list piece)
| Http (r : request)
| Subprocess (argv : list string).

(** The git commands the scripts run. *)
Inductive git_command : Type :=
| RevParseGitDir
| BranchList (pattern : string)
| Checkout (branch : string)
| CheckoutNew (branch : string).

(** How [subprocess.run] ends: the program ran and exited with a return
    code and its standard output, or it could not be started. *)
Inductive completed : Type :=
| Exited (returncode : Z) (stdout : string)
| NotStarted.

(** Git and the local repository, as the scripts meet them: what a command
    comes to, given the commands that ran before it (most recent first).
    Nothing is assumed about the answers. *)
Record git_state : Type := mkGit {
  respond : list git_command -> git_command -> completed;
  ran : list git_command
}.

(** A [.jira-config] file as [ConfigParser.read] leaves it: the options
    of the [DEFAULT] section and the named sections in the order of the
    file, each with its own options. Option names are lowercase, section
    names are distinct and none is [DEFAULT] (the parser sees to that);
    values are the raw text, before interpolation. *)
Record parsed_config : Type := mkConfig {
  defaults : gmap string string;
  sections : list (string * gmap string string)
}.

Inductive file_state : Type :=
| NoFile
| Malformed
| Parsed (c : parsed_config).

(** The tracker answers a request knowing the requests sent before it (most
    recent first). *)
Record world : Type := mkWorld {
  environ : gmap string string;
  cwd_config : file_state;
  script_config : file_state;
  tracker : list request -> request -> reply;
  sent : list request;
  git : git_state
}.

Definition with_sent (w : world) (l : list request) : world :=
  mkWorld (environ w) (cwd_config w) (script_config w) (tracker w) l (git w).

Definition with_git (w : world) (g : git_state) : world :=
  mkWorld (environ w) (cwd_config w) (script_config w) (tracker w) (sent w) g.

(** ** The monad of the scripts: world passing, a trace, and exceptions *)

Definition M (A : Type) : Type := world -> outcome A * world * list event.

Definition ret {A} (a : A) : M A := fun w => (Ret a, w, []).

Definition raise {A} (e : exn) : M A := fun w => (Raise e, w, []).

Definition sys_exit {A} (code : Z) : M A := fun w => (Exit code, w, []).

Definition lift {A} (o : outcome A) : M A := fun w => (o, w, []).

Definition bind {A B} (m : M A) (k : A -> M B) : M B :=
  fun w =>
    match m w with
    | (Ret a, w1, t1) =>
        match k a w1 with
        | (o, w2, t2) => (o, w2, t1 ++ t2)
        end
    | (Raise e, w1, t1) => (Raise e, w1, t1)
    | (Exit c, w1, t1) => (Exit c, w1, t1)
    end.

Declare Scope py_scope.
Delimit Scope py_scope with py.
Notation "'let!' x ':=' m 'in' k" := (bind m (fun x => k))
  (at level 10, x name, m at level 100, k at level 200,
   format "'[v' 'let!'  x  ':='  m  'in' '/' k ']'") : py_scope.
Notation "'do!' m 'in' k" := (bind m (fun _ => k))
  (at level 10, m at level 100, k at level 200,
   format "'[v' 'do!'  m  'in' '/' k ']'") : py_scope.
Local Open Scope py_scope.

(** [try: m except E as e: h e], where [handles] tells the instances of [E]. *)
Definition try_except {A} (m : M A) (handles : exn -> bool) (h : exn -> M A)
  : M A :=
  fun w =>
    match m w with
    | (Raise e, w1, t1) =>
        if handles e
        then match h e w1 with
             | (o, w2, t2) => (o, w2, t1 ++ t2)
             end
        else (Raise e, w1, t1)
    | r => r
    end.

Definition Exception (e : exn) : bool := true.

Definition print (line : list piece) : M unit := fun w => (Ret tt, w, [Print line]).

(** What the interpreter makes of a script: the exit status is 0 when the
    script runs to its end, the argument of [sys.exit], and 1 after an
    exception nobody caught. *)
Definition exit_status {A} (o : outcome A) : Z :=
  match o with
  | Ret _ => 0
  | Raise _ => 1
  | Exit c => c
  end.

(** ** Exceptions in pure code *)

Definition o_bind {A B} (o : outcome A) (k : A -> outcome B) : outcome B :=
  match o with
  | Ret a => k a
  | Raise e => Raise e
  | Exit c => Exit c
  end.

(** ** Dynamic operations on Python values *)

Fixpoint assoc (k : string) (kvs : list (string * json)) : option json :=
  match kvs with
  | [] => None
  | (k', v) :: r => if String.eqb k' k then Some v else assoc k r
  end.

(** [v[k]] for a [str] key *)
Definition py_getitem (v : json) (k : string) : outcome json :=
  match v with
  | JDict kvs =>
      match assoc k kvs with
      | Some x => Ret x
      | None => Raise (KeyError k)
      end
  | _ => Raise TypeError
  end.

(** [v.get(k, d)] *)
Definition py_get (v : json) (k : string) (d : json) : outcome json :=
  match v with
  | JDict kvs => Ret (default d (assoc k kvs))
  | _ => Raise AttributeError
  end.

(** [bool(v)] *)
Definition truthy (v : json) : bool :=
  match v with
  | JNull => false
  | JBool b => b
  | JNum n => negb (n =? 0)%Z
  | JStr s => negb (String.eqb s "")
  | JList l => match l with [] => false | _ => true end
  | JDict kvs => match kvs with [] => false | _ => true end
  end.

(** [v.lower()] *)
Definition py_lower (v : json) : outcome string :=
  match v with
  | JStr s => Ret (PyStr.str (PyStr.lower (PyStr.chars s)))
  | _ => Raise AttributeError
  end.

(** The items of [for x in v]: the elements of a list, the keys of a dict,
    the characters of a string. *)
Definition py_iter (v : json) : outcome (list json) :=
  match v with
  | JList l => Ret l
  | JDict kvs => Ret (map (fun kv => JStr (fst kv)) kvs)
  | JStr s => Ret (map (fun c => JStr (String c EmptyString)) (PyStr.chars s))
  | _ => Raise TypeError
  end.

Definition str_lower (s : string) : string :=
  PyStr.str (PyStr.lower (PyStr.chars s)).

Definition get_world : M world := fun w => (Ret w, w, []).

(** ** configparser: what [get] makes of a raw value *)

Module Interpolation.

Definition is_percent (c : ascii) : bool := Ascii.eqb c "%"%char.
Definition is_open (c : ascii) : bool := Ascii.eqb c "("%char.
Definition is_close (c : ascii) : bool := Ascii.eqb c ")"%char.
Definition is_s (c : ascii) : bool := Ascii.eqb c "s"%char.

(** ["%" in v] *)
Definition has_percent (v : string) : bool :=
  existsb is_percent (PyStr.chars v).

(** The loop of [BasicInterpolation._interpolate_some], the interpolation
    of a [ConfigParser()]: [%%] gives a percent sign; [%(name)s] gives the
    value of the option [name] (lowercased, looked up in [map]), which
    [deeper] interpolates in its turn when it holds a percent sign; any
    other use of a percent sign is an [InterpolationSyntaxError]. [key] is
    [None] outside a reference and [Some name] after [%(], while the
    characters of the name are read up to the closing parenthesis
    ([_KEYCRE] is [%\(([^)]+)\)s]). *)
Fixpoint scan (deeper : list ascii -> outcome (list ascii))
         (map : string -> option string) (key : option (list ascii))
         (rest : list ascii) {struct rest} : outcome (list ascii) :=
  match key, rest with
  | None, [] => Ret []
  | None, c :: r =>
      if is_percent c then
        match r with
        | [] => Raise InterpolationSyntaxError
        | c2 :: r2 =>
            if is_percent c2 then
              o_bind (scan deeper map None r2) (fun out => Ret (c2 :: out))
            else if is_open c2 then scan deeper map (Some []) r2
            else Raise InterpolationSyntaxError
        end
      else o_bind (scan deeper map None r) (fun out => Ret (c :: out))
  | Some _, [] => Raise InterpolationSyntaxError
  | Some name, c :: r =>
      if is_close c then
        match name, r with
        | _ :: _, c2 :: r2 =>
            if is_s c2 then
              match map (PyStr.str (PyStr.lower name)) with
              | None => Raise InterpolationMissingOptionError
              | Some v =>
                  o_bind (if has_percent v then deeper (PyStr.chars v)
                          else Ret (PyStr.chars v)) (fun a =>
                  o_bind (scan deeper map None r2) (fun b => Ret (a ++ b)))
              end
            else Raise InterpolationSyntaxError
        | _, _ => Raise InterpolationSyntaxError
        end
      else scan deeper map (Some (name ++ [c])) r
  end.

(** [_interpolate_some] at the depths 1 to 10 ([MAX_INTERPOLATION_DEPTH]):
    [depths_left] is 10 at the top and one less in each value referred
    to; beyond, [InterpolationDepthError]. *)
Fixpoint interpolate_some (map : string -> option string) (depths_left : nat)
         (rest : list ascii) {struct depths_left} : outcome (list ascii) :=
  match depths_left with
  | O => Raise InterpolationDepthError
  | S deeper => scan (interpolate_some map deeper) map None rest
  end.

(** [BasicInterpolation.before_get] *)
Definition before_get (map : string -> option string) (value : string)
  : outcome string :=
  o_bind (interpolate_some map 10 (PyStr.chars value)) (fun l =>
  Ret (PyStr.str l)).

End Interpolation.

(** ** jira_config.py *)

Module JiraConfig.

(** The dict of [get_profile]: its three keys, each a [str] or [None]. *)
Record credentials : Type := mkCredentials {
  url : option string;
  email : option string;
  token : option string
}.

(** [credentials.get(key)] *)
Definition cred_get (c : credentials) (key : string) : option string :=
  if String.eqb key "url" then url c
  else if String.eqb key "email" then email c
  else if String.eqb key "token" then token c
  else None.

(** The instance: which file [__init__] settled on, whether it exists, and
    the parser (empty when nothing was read). *)
Record t : Type := mk {
  config_file : location;
  config_file_exists : bool;
  config : parsed_config
}.

Definition file_exists (f : file_state) : bool :=
  match f with NoFile => false | _ => true end.

(** The options of the section of that name. *)
Definition section_of (c : parsed_config) (name : string)
  : option (gmap string string) :=
  snd <$> List.find (fun section => String.eqb (fst section) name) (sections c).

(** [_unify_values(name)]: the section's own options before those of
    [DEFAULT]. *)
Definition unify_values (c : parsed_config) (name key : string)
  : option string :=
  if String.eqb name "DEFAULT" then defaults c !! key
  else match section_of c name ≫= (fun sec => sec !! key) with
       | Some v => Some v
       | None => defaults c !! key
       end.

(** [config.get(name, key, fallback=None)] for a section that is there:
    [None] when the option is nowhere, else its value, interpolated. *)
Definition config_get (c : parsed_config) (name key : string)
  : outcome (option string) :=
  match unify_values c name key with
  | None => Ret None
  | Some value =>
      o_bind (Interpolation.before_get (unify_values c name) value) (fun v =>
      Ret (Some v))
  end.

(** [config.get('DEFAULT', key, fallback=d)] *)
Definition get_default (c : parsed_config) (key d : string) : outcome string :=
  o_bind (config_get c "DEFAULT" key) (fun v => Ret (default d v)).

(** [name in config] *)
Definition has_profile (c : parsed_config) (name : string) : bool :=
  String.eqb name "DEFAULT" || bool_decide (is_Some (section_of c name)).

(** [config[name].get(key)] *)
Definition section_get (c : parsed_config) (name key : string)
  : outcome (option string) := config_get c name key.

(** The file [__init__] settles on: [.jira-config] in the working directory,
    else the one next to the scripts. *)
Definition chosen_location (w : world) : location :=
  if file_exists (cwd_config w) then InCwd else InScriptDir.

Definition chosen_file (w : world) : file_state :=
  if file_exists (cwd_config w) then cwd_config w else script_config w.

(** [JiraConfig.__init__] without an explicit file. *)
Definition init : M t :=
  let! w := get_world in
  match chosen_file w with
  | Parsed c => ret (mk (chosen_location w) true c)
  | Malformed => raise ConfigParserError
  | NoFile =>
      do! print [Lit "⚠️  Config file not found: ";
                 ConfigPath (chosen_location w)] in
      do! print [Lit "    Using environment variables instead"] in
      ret (mk (chosen_location w) false (mkConfig ∅ []))
  end.

Definition default_url : string := "https://ihkreddy.atlassian.net".

(** The dict built from a section of the file, its values in the order
    they are read. *)
Definition section_credentials (c : parsed_config) (name : string)
  : outcome credentials :=
  o_bind (section_get c name "url") (fun url =>
  o_bind (section_get c name "email") (fun email =>
  o_bind (section_get c name "token") (fun token =>
  Ret (mkCredentials url email token)))).

(** The dict built from [os.environ]. *)
Definition environment_credentials (env : gmap string string) : credentials :=
  mkCredentials (Some (default default_url (env !! "JIRA_URL")))
                (env !! "JIRA_EMAIL") (env !! "JIRA_API_TOKEN").

(** The profile [get_profile] looks for. *)
Definition wanted_profile (c : parsed_config) (profile_name : option string)
  : outcome string :=
  match profile_name with
  | None => get_default c "default_profile" "ihkreddy"
  | Some n => Ret n
  end.

Definition get_profile (self : t) (profile_name : option string)
  : M credentials :=
  if config_file_exists self then
    let! profile_name := lift (wanted_profile (config self) profile_name) in
    if has_profile (config self) profile_name then
      lift (section_credentials (config self) profile_name)
    else
      do! print [Lit "⚠️  Profile '"; Lit profile_name;
                 Lit "' not found in config"] in
      let! w := get_world in
      ret (environment_credentials (environ w))
  else
    let! w := get_world in
    ret (environment_credentials (environ w)).

(** [not credentials.get(key)] *)
Definition is_missing (c : credentials) (key : string) : bool :=
  match cred_get c key with
  | None => true
  | Some v => String.eqb v ""
  end.

Definition missing_line (key : string) : list piece :=
  [Lit "❌ Missing "; Lit key; Lit " in configuration"].

Fixpoint validate_keys (c : credentials) (required : list string) : M bool :=
  match required with
  | [] => ret true
  | key :: rest =>
      if is_missing c key then
        do! print (missing_line key) in
        ret false
      else validate_keys c rest
  end.

Definition validate_profile (c : credentials) : M bool :=
  validate_keys c ["url"; "email"; "token"].

Definition get_config (profile : option string) : M credentials :=
  let! config := init in
  let! credentials := get_profile config profile in
  let! ok := validate_profile credentials in
  if negb ok then
    do! print [Lit "
📝 Set up credentials either:"] in
    do! print [Lit "1. In work-on-ticket/.jira-config file"] in
    do! print [Lit "2. As environment variables (JIRA_URL, JIRA_EMAIL, JIRA_API_TOKEN)"] in
    sys_exit 1
  else ret credentials.

End JiraConfig.

(** ** The [requests] session *)

Definition send (r : request) : M response :=
  fun w =>
    match tracker w (sent w) r with
    | Answer resp => (Ret resp, with_sent w (r :: sent w), [Http r])
    | NoAnswer => (Raise ConnectionError, with_sent w (r :: sent w), [Http r])
    end.

Definition session_get (url : string) (params : list (string * string))
  : M response := send (mkRequest GET url params None).

Definition session_post (url : string) (data : json) : M response :=
  send (mkRequest POST url [] (Some data)).

(** [response.raise_for_status()]: the statuses 400 to 599 raise. *)
Definition is_error_status (code : Z) : bool :=
  ((400 <=? code) && (code <? 600))%Z.

Definition raise_for_status (r : response) : M unit :=
  if is_error_status (status_code r) then raise (HTTPError (status_code r))
  else ret tt.

(** [response.json()] *)
Definition response_json (r : response) : M json :=
  match body r with
  | Some j => ret j
  | None => raise JSONDecodeError
  end.

(** The object both scripts call [JiraClient]: [__init__] is the same in
    both but for the session headers. *)
Record client : Type := mkClient {
  base_url : string;
  client_email : string;
  api_token : string
}.

Definition is_slash (c : ascii) : bool := Ascii.eqb c "/"%char.

(** [s.rstrip('/')]; [None.rstrip] raises [AttributeError]. *)
Definition rstrip_slash (s : option string) : outcome string :=
  match s with
  | Some s => Ret (PyStr.str (PyStr.rstrip is_slash (PyStr.chars s)))
  | None => Raise AttributeError
  end.

(** The attributes [__init__] sets from the credentials. *)
Definition client_of (credentials : JiraConfig.credentials) : outcome client :=
  match rstrip_slash (JiraConfig.url credentials) with
  | Ret base =>
      Ret (mkClient base
             (default "" (JiraConfig.email credentials))
             (default "" (JiraConfig.token credentials)))
  | Raise e => Raise e
  | Exit c => Exit c
  end.

Definition client_init (profile : option string) : M client :=
  let! credentials := JiraConfig.get_config profile in
  lift (client_of credentials).

Definition issue_url (self : client) (issue_key : string) : string :=
  base_url self +:+ "/rest/api/3/issue/" +:+ issue_key.

Definition transitions_url (self : client) (issue_key : string) : string :=
  base_url self +:+ "/rest/api/3/issue/" +:+ issue_key +:+ "/transitions".

Definition comment_url (self : client) (issue_key : string) : string :=
  base_url self +:+ "/rest/api/3/issue/" +:+ issue_key +:+ "/comment".

(** ** Joining strings *)

(** [sep.join(parts)]: every part has to be a [str]. *)
Fixpoint all_str (parts : list json) : outcome (list string) :=
  match parts with
  | [] => Ret []
  | JStr s :: r => o_bind (all_str r) (fun l => Ret (s :: l))
  | _ :: _ => Raise TypeError
  end.

Definition py_join (sep : string) (parts : list json) : outcome string :=
  o_bind (all_str parts) (fun l => Ret (String.concat sep l)).

(** [v == 'text'] for the result of [node.get('type')] *)
Definition is_text_type (v : option json) : bool :=
  match v with
  | Some (JStr s) => String.eqb s "text"
  | _ => false
  end.

(** ** fetch-ticket.py *)

Module FetchTicket.

Definition field_projection : string :=
  "summary,description,status,priority,assignee,reporter,issuetype,created,updated,comment,subtasks,parent".

(** The handler of [except requests.exceptions.HTTPError as e]: the line it
    prints, by [e.response.status_code]. *)
Definition http_error_line (issue_key : string) (status : Z) : list piece :=
  if (status =? 401)%Z then
    [Lit "‚ùå Authentication failed. Check your JIRA_EMAIL and JIRA_API_TOKEN"]
  else if (status =? 404)%Z then
    [Lit "‚ùå Ticket "; Lit issue_key; Lit " not found"]
  else [Lit "‚ùå HTTP Error: "; Err (HTTPError status)].

Definition get_issue (self : client) (issue_key : string) : M json :=
  let url := issue_url self issue_key in
  let params := [("fields", field_projection)] in
  try_except
    (try_except
       (let! response := session_get url params in
        do! raise_for_status response in
        response_json response)
       is_HTTPError
       (fun e =>
          do! match e with
              | HTTPError status => print (http_error_line issue_key status)
              | _ => ret tt
              end in
          sys_exit 1))
    is_RequestException
    (fun e =>
       do! print [Lit "‚ùå Error connecting to Jira: "; Err e] in
       sys_exit 1).

(** The bare [except:] stops every exception. *)
Definition get_transitions (self : client) (issue_key : string) : M json :=
  let url := transitions_url self issue_key in
  try_except
    (let! response := session_get url [] in
     do! raise_for_status response in
     let! doc := response_json response in
     lift (py_get doc "transitions" (JList [])))
    Exception
    (fun _ => ret (JList [])).

(** The result of [extract_text_from_adf]: a string built by [join], or
    [str(adf)] of an argument that is no dict. *)
Inductive text : Type :=
| Joined (s : string)
| StrOf (v : json).

Fixpoint extract (node : json) : outcome (list json) :=
  let fix each (l : list json) : outcome (list json) :=
    match l with
    | [] => Ret []
    | item :: r =>
        o_bind (extract item) (fun a => o_bind (each r) (fun b => Ret (a ++ b)))
    end in
  match node with
  | JDict kvs =>
      if is_text_type (assoc "type" kvs)
      then Ret [default (JStr "") (assoc "text" kvs)]
      else
        (fix content_of (l : list (string * json)) : outcome (list json) :=
           match l with
           | [] => Ret []
           | (k, v) :: r =>
               if String.eqb k "content" then
                 match v with
                 | JList children => each children
                 | JDict _ | JStr _ => Ret []
                 | _ => Raise TypeError
                 end
               else content_of r
           end) kvs
  | JList items => each items
  | _ => Ret []
  end.

Definition extract_text_from_adf (adf : json) : outcome text :=
  match adf with
  | JDict _ =>
      o_bind (extract adf) (fun text_parts =>
      o_bind (py_join " " text_parts) (fun s => Ret (Joined s)))
  | _ => Ret (StrOf adf)
  end.

(** [main], the block under [if args.show_transitions]: the lines appended
    to the output. *)
Fixpoint transition_lines (transitions : list json) : outcome (list (list piece)) :=
  match transitions with
  | [] => Ret []
  | trans :: r =>
      o_bind (py_getitem trans "name") (fun name =>
      o_bind (py_getitem trans "id") (fun id =>
      o_bind (transition_lines r) (fun rest =>
      Ret ([Lit "- "; Val name; Lit " (ID: "; Val id; Lit ")
"] :: rest))))
  end.

Definition show_transitions (self : client) (ticket : string)
  : M (list (list piece)) :=
  let! transitions := get_transitions self ticket in
  let! items := lift (py_iter transitions) in
  let! lines := lift (transition_lines items) in
  ret ([Lit "

## Available Transitions

"] :: lines).

End FetchTicket.

(** ** Git, as [subprocess.run] sees it *)

Definition argv (c : git_command) : list string :=
  match c with
  | RevParseGitDir => ["git"; "rev-parse"; "--git-dir"]
  | BranchList p => ["git"; "branch"; "--list"; p]
  | Checkout b => ["git"; "checkout"; b]
  | CheckoutNew b => ["git"; "checkout"; "-b"; b]
  end.

(** What git answers to the next command. *)
Definition answer (g : git_state) (c : git_command) : completed :=
  respond g (ran g) c.

(** Git after a command that ran. *)
Definition after_command (g : git_state) (c : git_command) : git_state :=
  mkGit (respond g) (c :: ran g).

(** [subprocess.run(argv, check=check, ...)]: [OSError] when the program
    cannot be started, [CalledProcessError] under [check=True] when the
    return code is not 0. *)
Definition subprocess_run (c : git_command) (check : bool) : M (Z * string) :=
  fun w =>
    match answer (git w) c with
    | NotStarted => (Raise OSError, w, [Subprocess (argv c)])
    | Exited rc out =>
        if check && negb (rc =? 0)%Z
        then (Raise (CalledProcessError (argv c) rc),
              with_git w (after_command (git w) c), [Subprocess (argv c)])
        else (Ret (rc, out),
              with_git w (after_command (git w) c), [Subprocess (argv c)])
    end.

(** [s.strip()] is truthy *)
Definition strip_nonempty (s : string) : bool :=
  match PyStr.strip PyStr.is_space (PyStr.chars s) with
  | [] => false
  | _ => true
  end.

(** ** start-work.py *)

Module StartWork.

Definition get_issue (self : client) (issue_key : string) : M json :=
  let url := issue_url self issue_key in
  let! response := session_get url [] in
  do! raise_for_status response in
  response_json response.

Definition get_transitions (self : client) (issue_key : string) : M json :=
  let url := transitions_url self issue_key in
  let! response := session_get url [] in
  do! raise_for_status response in
  let! doc := response_json response in
  lift (py_get doc "transitions" (JList [])).

(** The loop of [transition_issue]: the id of the first transition whose
    name matches, [None] when there is none. *)
Fixpoint find_transition (transitions : list json) (wanted : string)
  : outcome json :=
  match transitions with
  | [] => Ret JNull
  | trans :: r =>
      o_bind (py_getitem trans "name") (fun name =>
      o_bind (py_lower name) (fun lname =>
      if String.eqb lname wanted then py_getitem trans "id"
      else find_transition r wanted))
  end.

Definition transition_issue (self : client) (issue_key transition_name : string)
  : M bool :=
  let! transitions := get_transitions self issue_key in
  let! items := lift (py_iter transitions) in
  let! transition_id := lift (find_transition items (str_lower transition_name)) in
  if negb (truthy transition_id) then
    do! print [Lit "⚠️  Transition '"; Lit transition_name;
               Lit "' not available"] in
    ret false
  else
    let url := transitions_url self issue_key in
    let data := JDict [("transition", JDict [("id", transition_id)])] in
    let! response := session_post url data in
    do! raise_for_status response in
    ret true.

Definition comment_body (comment : string) : json :=
  JDict [("body",
    JDict [("type", JStr "doc");
           ("version", JNum 1);
           ("content",
             JList [JDict [("type", JStr "paragraph");
                           ("content",
                             JList [JDict [("type", JStr "text");
                                           ("text", JStr comment)]])]])])].

Definition add_comment (self : client) (issue_key comment : string) : M bool :=
  let url := comment_url self issue_key in
  let! response := session_post url (comment_body comment) in
  do! raise_for_status response in
  ret true.

Definition slugify : string -> string := Slug.slugify.

(** [slugify(summary)] for whatever [fields.get('summary', ...)] gave:
    [text.lower()] needs a [str]. *)
Definition slugify_value (summary : json) : outcome string :=
  match summary with
  | JStr s => Ret (slugify s)
  | _ => Raise AttributeError
  end.

Definition branch_name_of (ticket_key slug branch_type : string) : string :=
  branch_type +:+ "/" +:+ str_lower ticket_key +:+ "-" +:+ slug.

Definition create_branch (ticket_key : string) (summary : json)
           (branch_type : string) : M (option string) :=
  let! slug := lift (slugify_value summary) in
  let branch_name := branch_name_of ticket_key slug branch_type in
  try_except
    (do! subprocess_run RevParseGitDir true in
     let! result := subprocess_run (BranchList branch_name) false in
     if strip_nonempty (snd result) then
       do! print [Lit "⚠️  Branch '"; Lit branch_name; Lit "' already exists"] in
       do! subprocess_run (Checkout branch_name) true in
       ret (Some branch_name)
     else
       do! subprocess_run (CheckoutNew branch_name) true in
       do! print [Lit "✓ Created and checked out branch: "; Lit branch_name] in
       ret (Some branch_name))
    is_CalledProcessError
    (fun e =>
       do! print [Lit "❌ Git error: "; Err e] in
       ret None).

Fixpoint extract (node : json) : outcome (list json) :=
  match node with
  | JDict kvs =>
      if is_text_type (assoc "type" kvs)
      then Ret [default (JStr "") (assoc "text" kvs)]
      else
        (fix content_of (l : list (string * json)) : outcome (list json) :=
           match l with
           | [] => Ret []
           | (k, v) :: r =>
               if String.eqb k "content" then
                 match v with
                 | JList children =>
                     (fix each (l : list json) : outcome (list json) :=
                        match l with
                        | [] => Ret []
                        | child :: r =>
                            o_bind (extract child) (fun a =>
                            o_bind (each r) (fun b => Ret (a ++ b)))
                        end) children
                 | JDict _ | JStr _ => Ret []
                 | _ => Raise TypeError
                 end
               else content_of r
           end) kvs
  | _ => Ret []
  end.

Definition extract_text_from_adf (adf : json) : outcome string :=
  o_bind (extract adf) (fun text_parts => py_join " " text_parts).

Definition rule : string := PyStr.str (repeat "="%char 60).

(** [desc_text[:200] + ('...' if len(desc_text) > 200 else '')] *)
Definition shorten (desc_text : json) : outcome string :=
  match desc_text with
  | JStr s =>
      Ret (PyStr.str (firstn 200 (PyStr.chars s))
           +:+ (if (200 <? String.length s)%nat then "..." else ""))
  | _ => Raise TypeError
  end.

Definition display_ticket_info (issue_data : json) : M unit :=
  let! fields := lift (py_getitem issue_data "fields") in
  let! issue_key := lift (py_getitem issue_data "key") in
  let! summary := lift (py_get fields "summary" (JStr "No summary")) in
  let! issuetype := lift (py_get fields "issuetype" (JDict [])) in
  let! issue_type := lift (py_get issuetype "name" (JStr "Unknown")) in
  let! status_field := lift (py_get fields "status" (JDict [])) in
  let! status := lift (py_get status_field "name" (JStr "Unknown")) in
  let! priority_field := lift (py_get fields "priority" (JDict [])) in
  let! priority := lift (py_get priority_field "name" (JStr "None")) in
  let! assignee := lift (py_get fields "assignee" JNull) in
  let! assignee_name :=
    (if truthy assignee
     then lift (py_get assignee "displayName" (JStr "Unassigned"))
     else ret (JStr "Unassigned")) in
  let! description := lift (py_get fields "description" (JStr "")) in
  let! desc_text :=
    match description with
    | JDict _ =>
        let! s := lift (extract_text_from_adf description) in ret (JStr s)
    | _ => ret (if truthy description then description
                else JStr "No description")
    end in
  do! print [Lit "
"; Lit rule] in
  do! print [Lit "📋 ["; Val issue_key; Lit "] "; Val summary] in
  do! print [Lit rule] in
  do! print [Lit "Type: "; Val issue_type] in
  do! print [Lit "Status: "; Val status] in
  do! print [Lit "Priority: "; Val priority] in
  do! print [Lit "Assignee: "; Val assignee_name] in
  do! print [Lit "
Description:"] in
  let! shown := lift (shorten desc_text) in
  do! print [Lit shown] in
  print [Lit rule; Lit "
"].

Definition type_map : list (string * string) :=
  [("bug", "bugfix"); ("story", "feature"); ("task", "feature");
   ("epic", "feature"); ("subtask", "feature"); ("improvement", "feature")].

Fixpoint map_get (k : string) (m : list (string * string)) (d : string)
  : string :=
  match m with
  | [] => d
  | (k', v) :: r => if String.eqb k' k then v else map_get k r d
  end.

Definition determine_branch_type (issue_type : json) : outcome string :=
  o_bind (py_lower issue_type) (fun t => Ret (map_get t type_map "feature")).

(** [args]: the attributes the statements of [main] read. *)
Record arguments : Type := mkArgs {
  ticket : string;
  branch_type : option string;
  no_status_update : bool;
  no_comment : bool;
  profile : option string
}.

(** [x or y] and [if x] on an optional [str]. *)
Definition given (x : option string) : bool :=
  match x with
  | Some s => negb (String.eqb s "")
  | None => false
  end.

(** [main], "Fetch ticket". *)
Definition fetch_ticket (args : arguments) (client : client) : M json :=
  try_except
    (do! print [Lit "📥 Fetching ticket details..."] in
     let! issue_data := get_issue client (ticket args) in
     do! print [Lit "✓ Fetched ticket"] in
     ret issue_data)
    Exception
    (fun e =>
       do! print [Lit "❌ Failed to fetch ticket: "; Err e] in
       sys_exit 1).

(** [main], "Determine branch type" and the summary read under "Create
    branch": what [create_branch] is called with. *)
Definition branch_inputs (args : arguments) (issue_data : json)
  : outcome (json * string) :=
  o_bind (py_getitem issue_data "fields") (fun fields =>
  o_bind (py_get fields "issuetype" (JDict [])) (fun issuetype =>
  o_bind (py_get issuetype "name" (JStr "Story")) (fun issue_type =>
  o_bind (if given (branch_type args) then Ret (default "" (branch_type args))
          else determine_branch_type issue_type) (fun branch_type =>
  o_bind (py_get fields "summary" (JStr "no-summary")) (fun summary =>
  Ret (summary, branch_type)))))).

(** [main], "Create branch": the name of the branch that is checked out. *)
Definition branch_step (args : arguments) (issue_data : json) : M string :=
  let! inputs := lift (branch_inputs args issue_data) in
  let! branch_name := create_branch (ticket args) (fst inputs) (snd inputs) in
  match branch_name with
  | Some b =>
      if String.eqb b "" then
        do! print [Lit "❌ Failed to create branch"] in sys_exit 1
      else ret b
  | None =>
      do! print [Lit "❌ Failed to create branch"] in sys_exit 1
  end.

(** [main], "Update ticket status". *)
Definition update_status (args : arguments) (client : client) : M unit :=
  if negb (no_status_update args) then
    try_except
      (do! print [Lit "🔄 Updating ticket status..."] in
       let! moved := transition_issue client (ticket args) "In Progress" in
       if moved then print [Lit "✓ Updated status to 'In Progress'"]
       else print [Lit "⚠️  Could not update status (may already be in progress)"])
      Exception
      (fun e => print [Lit "⚠️  Status update failed: "; Err e])
  else ret tt.

Definition started_comment (branch_name : string) : string :=
  "Started working on this ticket in branch: " +:+ branch_name.

(** [main], "Add comment". *)
Definition post_comment (args : arguments) (client : client)
           (branch_name : string) : M unit :=
  if negb (no_comment args) then
    try_except
      (do! print [Lit "💬 Adding comment to ticket..."] in
       do! add_comment client (ticket args) (started_comment branch_name) in
       print [Lit "✓ Added comment"])
      Exception
      (fun e => print [Lit "⚠️  Failed to add comment: "; Err e])
  else ret tt.

Definition ready_line (args : arguments) : list piece :=
  [Lit "✅ Ready to work on "; Lit (ticket args); Lit "!"].

(** [main], "Success summary". *)
Definition success_summary (args : arguments) (branch_name : string) : M unit :=
  do! print [Lit "
"; Lit rule] in
  do! print (ready_line args) in
  do! print [Lit rule] in
  do! print [Lit "Branch: "; Lit branch_name] in
  do! print [Lit "
Next steps:"] in
  do! print [Lit "  1. Start coding"] in
  do! print [Lit "  2. Commit with: git commit -m '"; Lit (ticket args);
             Lit ": your message'"] in
  do! print [Lit "  3. Push when ready: git push origin "; Lit branch_name] in
  print [Lit rule; Lit "
"].

(** The steps of [main] after the branch is there. *)
Definition after_branch (args : arguments) (client : client)
           (branch_name : string) : M unit :=
  do! update_status args client in
  do! post_comment args client branch_name in
  success_summary args branch_name.

(** [main] from "Fetch ticket" up to the branch, lines 241 to 264. *)
Definition prepare (args : arguments) (client : client) : M string :=
  let! issue_data := fetch_ticket args client in
  do! display_ticket_info issue_data in
  branch_step args issue_data.

(** [main] from "Fetch ticket" to its end, lines 241 to 296: the statements
    that follow the construction of the client. The lines of [main] before
    them are not embedded: two calls there are left unclosed (the
    [add_argument] of line 224 and the [JiraClient(] of line 235), so that
    start-work.py does not compile as it stands. [args] and [client] are
    the two names of those lines that the statements below read; they are
    taken as they come. *)
Definition main_from_fetch (args : arguments) (client : client) : M unit :=
  let! branch_name := prepare args client in
  after_branch args client branch_name.

End StartWork.

(** Running a script: exit status, the world afterwards, the trace. *)
Definition run {A} (m : M A) (w : world) : Z * world * list event :=
  match m w with
  | (o, w', t) => (exit_status o, w', t)
  end.

(** The loops of [extract] on their own: [for child in node['content']]
    and the search for the [content] key. *)
Fixpoint extract_each (extract : json -> outcome (list json)) (l : list json)
  : outcome (list json) :=
  match l with
  | [] => Ret []
  | child :: r =>
      o_bind (extract child) (fun a =>
      o_bind (extract_each extract r) (fun b => Ret (a ++ b)))
  end.

Definition iterate_content (extract : json -> outcome (list json)) (v : json)
  : outcome (list json) :=
  match v with
  | JList children => extract_each extract children
  | JDict _ | JStr _ => Ret []
  | _ => Raise TypeError
  end.

Definition visit_dict (extract : json -> outcome (list json))
           (kvs : list (string * json)) : outcome (list json) :=
  if is_text_type (assoc "type" kvs)
  then Ret [default (JStr "") (assoc "text" kvs)]
  else match assoc "content" kvs with
       | Some v => iterate_content extract v
       | None => Ret []
       end.

(** ** ADF documents

    A node of the Atlassian Document Format: its type, its text when it has
    one, its children when it has a [content] list, and its other
    attributes ([version], [attrs], [marks], ...). *)
Inductive adf : Type :=
| Node (type : string) (text : option string) (content : option (list adf))
       (extra : list (string * json)).

Definition reserved (k : string) : bool :=
  String.eqb k "type" || String.eqb k "text" || String.eqb k "content".

Definition other_attributes (extra : list (string * json))
  : list (string * json) :=
  List.filter (fun kv => negb (reserved (fst kv))) extra.

Definition text_field (t : option string) : list (string * json) :=
  match t with
  | Some s => [("text", JStr s)]
  | None => []
  end.

Definition content_field (c : option json) : list (string * json) :=
  match c with
  | Some v => [("content", v)]
  | None => []
  end.

Definition node_fields (ty : string) (t : option string) (c : option json)
           (extra : list (string * json)) : list (string * json) :=
  ("type", JStr ty) :: text_field t ++ content_field c
  ++ other_attributes extra.

(** The dict the tracker sends for a node. *)
Fixpoint adf_json (n : adf) : json :=
  match n with
  | Node ty t c extra =>
      JDict (node_fields ty t
               match c with
               | Some children => Some (JList (map adf_json children))
               | None => None
               end
               extra)
  end.

(** What a slug is made of: [a-z], [0-9], underscore and hyphen, and the
    word characters above U+007F that [lower] leaves alone. *)
Definition ascii_slug_char (c : ascii) : bool :=
  PyStr.between 97 122 c || PyStr.between 48 57 c
  || Ascii.eqb c "_"%char || PyStr.is_hyphen c.

Definition is_ascii (c : ascii) : bool := PyStr.between 0 127 c.

Definition slug_char (c : ascii) : bool :=
  ascii_slug_char c
  || (PyStr.between 128 255 c && PyStr.is_word c && negb (PyStr.is_upper c)).

(** All three credentials are there. *)
Definition complete (c : JiraConfig.credentials) : Prop :=
  (exists u, JiraConfig.url c = Some u /\ u <> "")
  /\ (exists e, JiraConfig.email c = Some e /\ e <> "")
  /\ (exists t, JiraConfig.token c = Some t /\ t <> "").

Definition is_post (e : event) : bool :=
  match e with
  | Http r => match req_method r with POST => true | GET => false end
  | _ => false
  end.

Definition is_subprocess (e : event) : bool :=
  match e with Subprocess _ => true | _ => false end.

(** Separators stand alone in [l] and are hyphens; after a separator
    ([after_sep]) [l] does not start with one. This is what [re.sub] of
    [[-\s]+] leaves behind. *)
Fixpoint no_runs (after_sep : bool) (l : list ascii) : Prop :=
  match l with
  | [] => True
  | c :: r =>
      if Slug.separator c
      then after_sep = false /\ c = PyStr.hyphen /\ no_runs true r
      else no_runs false r
  end.

(** Sample documents. *)
Definition sample_doc : adf :=
  Node "doc" None
    (Some [Node "paragraph" None
             (Some [Node "text" (Some "Login fails") None
                      [("marks", JList [JDict [("type", JStr "strong")]])];
                    Node "hardBreak" None None [];
                    Node "text" (Some "on Safari")
                      (Some [Node "text" (Some "hidden") None []]) []])
             [];
           Node "paragraph" None (Some [Node "text" None None []]) []])
    [("version", JNum 1)].

Definition blank_doc : adf :=
  Node "doc" None (Some [Node "paragraph" None (Some []) []; Node "rule" None None []])
    [("version", JNum 1)].

(** ** Credential resolution, read off [get_profile] *)

(** The environment is consulted when there is no file, or when the file
    has no section of the wanted name. *)
Definition from_environment (profile : option string) (w : world) : bool :=
  match JiraConfig.chosen_file w with
  | NoFile => true
  | Malformed => false
  | Parsed c =>
      match JiraConfig.wanted_profile c profile with
      | Ret name => negb (JiraConfig.has_profile c name)
      | _ => false
      end
  end.

(** The one source all three fields are taken from: the wanted section of
    the file, its values interpolated, or the environment. It is an error
    when the interpolation of [default_profile] or of one of the three
    values fails. *)
Definition selected (profile : option string) (w : world)
  : outcome JiraConfig.credentials :=
  match JiraConfig.chosen_file w with
  | Parsed c =>
      o_bind (JiraConfig.wanted_profile c profile) (fun name =>
      if JiraConfig.has_profile c name
      then JiraConfig.section_credentials c name
      else Ret (JiraConfig.environment_credentials (environ w)))
  | _ => Ret (JiraConfig.environment_credentials (environ w))
  end.

(** The first of [url], [email], [token] that is [None] or empty. *)
Definition first_missing (c : JiraConfig.credentials) : option string :=
  List.find (JiraConfig.is_missing c) ["url"; "email"; "token"].

(** ** Git, in three places

    In a directory that is no repository every command fails. *)
Definition outside : list git_command -> git_command -> completed :=
  fun _ _ => Exited 128 "".

Definition no_repository : git_state := mkGit outside [].

(** In a repository without commits [checkout -b] succeeds and leaves no
    branch behind: no branch is ever listed, none can be checked out. *)
Definition unborn : list git_command -> git_command -> completed :=
  fun _ c =>
    match c with
    | RevParseGitDir => Exited 0 ".git
"
    | BranchList _ => Exited 0 ""
    | Checkout _ => Exited 1 ""
    | CheckoutNew _ => Exited 0 ""
    end.

Definition empty_repository : git_state := mkGit unborn [].

(** In a repository with commits, and for names git takes: the branches
    are those the repository had and those [checkout -b] has created
    since; [checkout -b] refuses a name that is taken, [checkout] one that
    is unknown; [branch --list] prints the branch of that name. *)
Definition known (b : string) (branches : list string) : bool :=
  existsb (String.eqb b) branches.

Fixpoint branches_after (branches : list string) (history : list git_command)
  : list string :=
  match history with
  | [] => branches
  | c :: earlier =>
      match c with
      | CheckoutNew b =>
          if known b (branches_after branches earlier)
          then branches_after branches earlier
          else b :: branches_after branches earlier
      | _ => branches_after branches earlier
      end
  end.

Fixpoint current_after (branches : list string) (current : string)
         (history : list git_command) : string :=
  match history with
  | [] => current
  | c :: earlier =>
      match c with
      | Checkout b =>
          if known b (branches_after branches earlier) then b
          else current_after branches current earlier
      | CheckoutNew b =>
          if known b (branches_after branches earlier)
          then current_after branches current earlier
          else b
      | _ => current_after branches current earlier
      end
  end.

Definition repository (branches : list string) (current : string)
  : list git_command -> git_command -> completed :=
  fun history c =>
    match c with
    | RevParseGitDir => Exited 0 ".git
"
    | BranchList p =>
        Exited 0
          (if known p (branches_after branches history)
           then (if String.eqb (current_after branches current history) p
                 then "* " else "  ") +:+ p +:+ "
"
           else "")
    | Checkout b =>
        if known b (branches_after branches history)
        then Exited 0 "" else Exited 1 ""
    | CheckoutNew b =>
        if known b (branches_after branches history)
        then Exited 128 "" else Exited 0 ""
    end.

Definition fresh_repo : git_state := mkGit (repository ["main"] "main") [].

(** A profile section without a token, and a token in the environment. *)
Definition acme_config : parsed_config :=
  mkConfig ∅
    [("acme", {[ "url" := "https://acme.atlassian.net";
                 "email" := "dev@acme.example" ]})].

Definition no_tracker : list request -> request -> reply := fun _ _ => NoAnswer.

Definition acme_world : world :=
  mkWorld {[ "JIRA_API_TOKEN" := "s3cr3t" ]} (Parsed acme_config) NoFile
          no_tracker [] no_repository.

(** No file anywhere, and only the e-mail address in the environment. *)
Definition bare_world : world :=
  mkWorld {[ "JIRA_EMAIL" := "dev@acme.example" ]} NoFile NoFile
          no_tracker [] no_repository.

(** What [get_config] prints after the missing field, before it exits. *)
Definition setup_help : list event :=
  [Print [Lit "
📝 Set up credentials either:"];
   Print [Lit "1. In work-on-ticket/.jira-config file"];
   Print [Lit "2. As environment variables (JIRA_URL, JIRA_EMAIL, JIRA_API_TOKEN)"]].

(** The section of [acme_config], as [get_profile] reads it. *)
Definition acme_section : JiraConfig.credentials :=
  JiraConfig.mkCredentials (Some "https://acme.atlassian.net")
                           (Some "dev@acme.example") None.

(** What interpolation can end in. *)
Definition interpolated {A} (o : outcome A) : Prop :=
  match o with
  | Ret _ => True
  | Raise e => is_InterpolationError e = true
  | Exit _ => False
  end.

(** How [get_config] ends, read off the configuration. *)
Definition resolved (profile : option string) (w : world) (t : list event)
  : outcome JiraConfig.credentials * world * list event :=
  match JiraConfig.chosen_file w with
  | Malformed => (Raise ConfigParserError, w, t)
  | _ =>
      match selected profile w with
      | Ret c =>
          match first_missing c with
          | None => (Ret c, w, t)
          | Some key =>
              (Exit 1, w, t ++ Print (JiraConfig.missing_line key) :: setup_help)
          end
      | Raise e => (Raise e, w, t)
      | Exit code => (Exit code, w, t)
      end
  end.

Definition reports_missing (e : event) : Prop :=
  exists key, e = Print (JiraConfig.missing_line key).

Definition is_print (e : event) : bool :=
  match e with Print _ => true | _ => false end.

(** A printed line that is not the report of a missing field. *)
Definition quiet (e : event) : Prop :=
  is_print e = true /\ ~ reports_missing e.

(** ** Requests and replies *)

(** The request did not go through: no answer at all, or a status that
    [raise_for_status] turns into an exception. *)
Definition request_failed (r : reply) : bool :=
  match r with
  | NoAnswer => true
  | Answer resp => is_error_status (status_code resp)
  end.

(** The exception a failed request ends in. *)
Definition failure (r : reply) : exn :=
  match r with
  | NoAnswer => ConnectionError
  | Answer resp => HTTPError (status_code resp)
  end.

Definition plain_get (url : string) : request := mkRequest GET url [] None.

(** The world after one more request. *)
Definition after_request (w : world) (r : request) : world :=
  with_sent w (r :: sent w).

(** A tracker that answers every request with the same status and no
    body, and one that knows a single ticket. *)
Definition always (status : Z) : list request -> request -> reply :=
  fun _ _ => Answer (mkResponse status None).

Definition acme : client := mkClient "https://acme.atlassian.net" "dev@acme.example" "s3cr3t".

Definition world_of (tr : list request -> request -> reply) : world :=
  mkWorld ∅ NoFile NoFile tr [] no_repository.

(** ** What a computation may touch *)

Definition no_exit {A} (o : outcome A) : Prop :=
  match o with
  | Exit _ => False
  | _ => True
  end.

(** Talks to the tracker and prints, at most: the repository stays as it
    is, no subprocess is run, the process is not ended. *)
Definition calm {A} (m : M A) : Prop :=
  forall w,
    git (snd (fst (m w))) = git w
    /\ Forall (fun e => is_subprocess e = false) (snd (m w))
    /\ no_exit (fst (fst (m w))).

(** Does and prints the same in every world. *)
Definition constant {A} (m : M A) : Prop :=
  exists o t,
    Forall (fun e => is_print e = true) t /\ forall w, m w = (o, w, t).

(** The request of [get_issue] in start-work.py. *)
Definition ticket_request (self : client) (args : StartWork.arguments)
  : request := plain_get (issue_url self (StartWork.ticket args)).

(** The git commands in a trace. *)
Definition git_commands (t : list event) : list event :=
  List.filter is_subprocess t.

(** What [create_branch] prints when a command run with [check=True]
    fails. *)
Definition git_error (c : git_command) (rc : Z) : event :=
  Print [Lit "❌ Git error: "; Err (CalledProcessError (argv c) rc)].

(** The last step of [create_branch]: the checkout [c] of the branch,
    after the events [t]; [done] is what is printed after it. *)
Definition checked_out_by (c : git_command) (b : string) (w : world)
           (t done : list event)
  : outcome (option string) * world * list event :=
  match answer (git w) c with
  | NotStarted => (Raise OSError, w, t ++ [Subprocess (argv c)])
  | Exited rc _ =>
      if negb (rc =? 0)%Z
      then (Ret None, with_git w (after_command (git w) c),
            t ++ [Subprocess (argv c); git_error c rc])
      else (Ret (Some b), with_git w (after_command (git w) c),
            t ++ Subprocess (argv c) :: done)
  end.

(** How [create_branch] ends for the branch name [b], read off what git
    answers. *)
Definition created (b : string) (w : world)
  : outcome (option string) * world * list event :=
  match answer (git w) RevParseGitDir with
  | NotStarted => (Raise OSError, w, [Subprocess (argv RevParseGitDir)])
  | Exited rc _ =>
      let w1 := with_git w (after_command (git w) RevParseGitDir) in
      if negb (rc =? 0)%Z
      then (Ret None, w1,
            [Subprocess (argv RevParseGitDir); git_error RevParseGitDir rc])
      else
        match answer (git w1) (BranchList b) with
        | NotStarted =>
            (Raise OSError, w1,
             [Subprocess (argv RevParseGitDir); Subprocess (argv (BranchList b))])
        | Exited _ out =>
            let w2 := with_git w1 (after_command (git w1) (BranchList b)) in
            if strip_nonempty out then
              checked_out_by (Checkout b) b w2
                [Subprocess (argv RevParseGitDir);
                 Subprocess (argv (BranchList b));
                 Print [Lit "⚠️  Branch '"; Lit b; Lit "' already exists"]]
                []
            else
              checked_out_by (CheckoutNew b) b w2
                [Subprocess (argv RevParseGitDir);
                 Subprocess (argv (BranchList b))]
                [Print [Lit "✓ Created and checked out branch: "; Lit b]]
        end
  end.

(** The command is one of the two checkouts of the branch. *)
Definition checks_out (c : git_command) (b : string) : Prop :=
  c = Checkout b \/ c = CheckoutNew b.

(** Git after a call of [create_branch] that returned [b]: the check for
    a repository, the listing of the branch, and a checkout of [b] that git
    answered with the return code 0. *)
Definition branch_checked_out (g g' : git_state) (b : string) : Prop :=
  exists c out,
    checks_out c b
    /\ g' = after_command
              (after_command (after_command g RevParseGitDir) (BranchList b)) c
    /\ answer (after_command (after_command g RevParseGitDir) (BranchList b)) c
       = Exited 0 out.

(** The command is one [create_branch] runs with [check=True]. *)
Definition checked (c : git_command) : bool :=
  match c with
  | BranchList _ => false
  | _ => true
  end.

(** ** A ticket, a tracker that serves it, and a tracker that serves it
    and fails on everything else *)

Definition ticket_in (status : string) : json :=
  JDict [("key", JStr "PROJ-7");
         ("fields",
           JDict [("summary", JStr "Login page crashes on Safari");
                  ("issuetype", JDict [("name", JStr "Bug")]);
                  ("status", JDict [("name", JStr status)]);
                  ("priority", JDict [("name", JStr "High")]);
                  ("assignee", JNull);
                  ("description", JNull)])].

Definition login_ticket : json := ticket_in "To Do".

Definition serves (doc : json) (otherwise : Z) : list request -> request -> reply :=
  fun _ r =>
    if String.eqb (req_url r) "https://acme.atlassian.net/rest/api/3/issue/PROJ-7"
    then Answer (mkResponse 200 (Some doc))
    else Answer (mkResponse otherwise None).

Definition serves_ticket (otherwise : Z) : list request -> request -> reply :=
  serves login_ticket otherwise.

Definition acme_environ : gmap string string :=
  {[ "JIRA_URL" := "https://acme.atlassian.net/";
     "JIRA_EMAIL" := "dev@acme.example";
     "JIRA_API_TOKEN" := "s3cr3t" ]}.

Definition office (tr : list request -> request -> reply) (g : git_state)
  : world := mkWorld acme_environ NoFile NoFile tr [] g.

Definition work_on (key : string) : StartWork.arguments :=
  StartWork.mkArgs key None false false None.

(** What [get] followed by [raise_for_status] and [json()] comes to. *)
Definition fetched (r : reply) : outcome json :=
  match r with
  | NoAnswer => Raise ConnectionError
  | Answer resp =>
      if is_error_status (status_code resp)
      then Raise (HTTPError (status_code resp))
      else match body resp with
           | Some doc => Ret doc
           | None => Raise JSONDecodeError
           end
  end.

Module Spec.

(** The text nodes of a document in depth-first document order; below a
    text node nothing is looked at. *)
Fixpoint text_nodes (n : adf) : list adf :=
  match n with
  | Node ty _ c _ =>
      if String.eqb ty "text" then [n]
      else match c with
           | Some children => concat (map text_nodes children)
           | None => []
           end
  end.

Definition own_text (n : adf) : string :=
  match n with
  | Node _ t _ _ => default "" t
  end.

Definition document_text (n : adf) : string :=
  String.concat " " (map own_text (text_nodes n)).

(** The shape section 8 of the specification gives a slug: lowercase, only
    [a-z0-9-], no hyphen at either end, at most 50 characters. *)
Definition plain_slug_char (c : ascii) : bool :=
  PyStr.between 97 122 c || PyStr.between 48 57 c || PyStr.is_hyphen c.

Definition claimed_slug_shape (s : string) : Prop :=
  str_lower s = s
  /\ forallb plain_slug_char (PyStr.chars s) = true
  /\ head (PyStr.chars s) <> Some PyStr.hyphen
  /\ last (PyStr.chars s) <> Some PyStr.hyphen
  /\ (String.length s <= 50)%nat.

(** Section 4.1 of the specification: a field comes from the profile
    section, and from the environment when the section leaves it unset. *)
Definition unset (v : option string) : bool :=
  match v with
  | Some s => String.eqb s ""
  | None => true
  end.

Definition per_field (from_file from_env : option string) : option string :=
  if unset from_file then from_env else from_file.

Definition claimed_credentials (file env : JiraConfig.credentials)
  : JiraConfig.credentials :=
  JiraConfig.mkCredentials
    (per_field (JiraConfig.url file) (JiraConfig.url env))
    (per_field (JiraConfig.email file) (JiraConfig.email env))
    (per_field (JiraConfig.token file) (JiraConfig.token env)).

(** Section 4.1, as a statement about [get_config]: what it returns is
    the field-by-field resolution, and it exits, with a status that is not
    0, only when that resolution leaves a field empty. *)
Definition resolves_per_field (get_config : option string -> M JiraConfig.credentials)
           (profile : option string) (w : world)
           (file env : JiraConfig.credentials) : Prop :=
  match fst (fst (get_config profile w)) with
  | Ret c => c = claimed_credentials file env
  | Exit code => code <> 0%Z /\ ~ complete (claimed_credentials file env)
  | Raise _ => False
  end.

(** Section 4.3, on a second run: after a call of [create_branch] that
    returned a name, the same call finds the branch, says so, checks it
    out and returns the same name. *)
Definition finds_its_branch
           (create_branch : string -> json -> string -> M (option string))
           (key : string) (summary : json) (branch_type : string) (w : world)
  : Prop :=
  forall b w1 t1,
    create_branch key summary branch_type w = (Ret (Some b), w1, t1) ->
    exists w2 t2,
      create_branch key summary branch_type w1 = (Ret (Some b), w2, t2)
      /\ In (Print [Lit "⚠️  Branch '"; Lit b; Lit "' already exists"]) t2
      /\ In (Subprocess ["git"; "checkout"; b]) t2.

(** Section 4.2, [get_issue]: one GET with a fixed field list; an error
    status is reported and ends the process; a good answer is returned as
    it came. *)
Definition get_issue_contract (get_issue : client -> string -> M json) : Prop :=
  exists fields,
  forall self key w,
    let req := mkRequest GET (issue_url self key) [("fields", fields)] None in
    head (snd (get_issue self key w)) = Some (Http req)
    /\ match tracker w (sent w) req with
       | Answer resp =>
           if is_error_status (status_code resp) then
             (exists code, fst (fst (get_issue self key w)) = Exit code
                           /\ code <> 0%Z)
             /\ exists line, In (Print line) (snd (get_issue self key w))
           else
             forall doc, body resp = Some doc ->
                         fst (fst (get_issue self key w)) = Ret doc
       | NoAnswer => True
       end.

(** Section 4.2, [get_transitions]: the empty list on any failure. *)
Definition get_transitions_contract (get_transitions : client -> string -> M json)
  : Prop :=
  forall self key w,
    request_failed (tracker w (sent w) (plain_get (transitions_url self key)))
    = true ->
    fst (fst (get_transitions self key w)) = Ret (JList []).

End Spec.

(** What [extract] collects on a document. *)
Definition texts_of (n : adf) : list json :=
  map (fun m => JStr (Spec.own_text m)) (Spec.text_nodes n).

(** ** Transitions *)

(** A transition as the tracker lists it: a dict with its name and id among
    its keys. *)
Definition is_transition (j : json) (name : string) (id : json) : Prop :=
  py_getitem j "name" = Ret (JStr name) /\ py_getitem j "id" = Ret id.

(** The request [transition_issue] posts for an id. *)
Definition transition_post (self : client) (issue_key : string) (id : json)
  : request :=
  mkRequest POST (transitions_url self issue_key) []
    (Some (JDict [("transition", JDict [("id", id)])])).

(** The transitions a reply lists, as [transition_issue] iterates them. *)
Definition listed (r : reply) : outcome (list json) :=
  o_bind (fetched r) (fun doc =>
  o_bind (py_get doc "transitions" (JList [])) py_iter).

(** ** fetch-ticket.py: [extract_acceptance_criteria] *)

Module AcceptanceCriteria.

(** [hay.startswith(needle)] *)
Fixpoint starts_with (needle hay : list ascii) : bool :=
  match needle, hay with
  | [], _ => true
  | _ :: _, [] => false
  | c :: n, d :: h => Ascii.eqb c d && starts_with n h
  end.

(** [hay.find(needle)]: the lowest index at which [needle] starts; [None]
    when [needle in hay] is false. *)
Fixpoint find_index (needle hay : list ascii) {struct hay} : option nat :=
  if starts_with needle hay then Some 0%nat
  else match hay with
       | [] => None
       | _ :: h => option_map S (find_index needle h)
       end.

Definition markers : list string :=
  ["acceptance criteria"; "ac:"; "acceptance:"; "criteria:"].

(** The loop over the markers: the description from the first occurrence
    of the first marker that occurs in its lowercase. *)
Fixpoint from_marker (ms : list string) (description : list ascii)
  : option (list ascii) :=
  match ms with
  | [] => None
  | marker :: rest =>
      match find_index (PyStr.chars marker) (PyStr.lower description) with
      | Some idx => Some (skipn idx description)
      | None => from_marker rest description
      end
  end.

Definition extract_acceptance_criteria (description : string) : option string :=
  if String.eqb description "" then None
  else option_map PyStr.str (from_marker markers (PyStr.chars description)).

End AcceptanceCriteria.

(** ** create-ticket.py: [create_branch] *)

Module CreateTicket.

(** [[^a-z0-9\s-]] is deleted. *)
Definition allowed (c : ascii) : bool :=
  PyStr.between 97 122 c || PyStr.between 48 57 c
  || PyStr.is_space c || PyStr.is_hyphen c.

(** The three substitutions and the cut: lowercase, delete what is not
    allowed, one hyphen for each run of whitespace, 50 characters. *)
Definition sanitize (summary : list ascii) : list ascii :=
  firstn 50
    (PyStr.re_sub_runs PyStr.is_space PyStr.hyphen false
       (PyStr.re_sub_delete_outside allowed (PyStr.lower summary))).

End CreateTicket.

(** ** jira_config.py: [list_profiles] *)

Module Profiles.

(** [config.sections()] gives the names of the sections in the order of
    the file. *)
Definition list_profiles (self : JiraConfig.t) : list string :=
  List.filter (fun section => negb (String.eqb section "DEFAULT"))
    (map fst (sections (JiraConfig.config self))).

End Profiles.

(** ** test-connection.py *)

(** [len(v)] *)
Definition py_len (v : json) : outcome Z :=
  match v with
  | JList l => Ret (Z.of_nat (length l))
  | JDict kvs => Ret (Z.of_nat (length kvs))
  | JStr s => Ret (Z.of_nat (String.length s))
  | _ => Raise TypeError
  end.

(** [for x in items: body(x)] *)
Fixpoint for_each (items : list json) (body : json -> M unit) : M unit :=
  match items with
  | [] => ret tt
  | x :: rest =>
      do! body x in
      for_each rest body
  end.

(** [f"{v}"] for a value of the credentials dict *)
Definition format_value (v : option string) : string := default "None" v.

Module TestConnection.

(** [requests.get(url, auth=auth, params=params)] *)
Definition requests_get (url : string) (params : list (string * string))
  : M response := send (mkRequest GET url params None).

Definition test_1 (base_url : string) : M unit :=
  do! print [Lit "Test 1: Authenticating..."] in
  try_except
    (let url := base_url +:+ "/rest/api/3/myself" in
     let! response := requests_get url [] in
     do! raise_for_status response in
     let! user_data := response_json response in
     do! print [Lit "✓ Authentication successful!"] in
     let! display_name := lift (py_get user_data "displayName" JNull) in
     do! print [Lit "  User: "; Val display_name] in
     let! account_id := lift (py_get user_data "accountId" JNull) in
     print [Lit "  Account ID: "; Val account_id; Lit "
"])
    Exception
    (fun e =>
       do! print [Lit "❌ Authentication failed: "; Err e; Lit "
"] in
       sys_exit 1).

Definition test_2 (base_url : string) : M unit :=
  do! print [Lit "Test 2: Fetching projects..."] in
  try_except
    (let url := base_url +:+ "/rest/api/3/project" in
     let! response := requests_get url [] in
     do! raise_for_status response in
     let! projects := response_json response in
     if truthy projects then
       let! count := lift (py_len projects) in
       do! print [Lit "✓ Found "; Val (JNum count); Lit " project(s):"] in
       let! items := lift (py_iter projects) in
       do! for_each items (fun proj =>
             let! key := lift (py_getitem proj "key") in
             let! name := lift (py_getitem proj "name") in
             print [Lit "  - "; Val key; Lit ": "; Val name]) in
       print []
     else
       print [Lit "⚠️  No projects found
"])
    Exception
    (fun e =>
       print [Lit "❌ Error fetching projects: "; Err e; Lit "
"]).

Definition search_params : list (string * string) :=
  [("jql", "order by created DESC");
   ("maxResults", "5");
   ("fields", "summary,status,issuetype,key")].

Definition test_3 (base_url : string) : M unit :=
  do! print [Lit "Test 3: Searching for recent issues..."] in
  try_except
    (let url := base_url +:+ "/rest/api/3/search" in
     let! response := requests_get url search_params in
     if (status_code response =? 200)%Z then
       let! data := response_json response in
       let! total := lift (py_getitem data "total") in
       do! print [Lit "✓ Search successful! Found "; Val total;
                  Lit " total issue(s)"] in
       let! issues := lift (py_getitem data "issues") in
       if truthy issues then
         do! print [Lit "
Recent issues:"] in
         let! issues := lift (py_getitem data "issues") in
         let! items := lift (py_iter issues) in
         for_each items (fun issue =>
           let! key := lift (py_getitem issue "key") in
           let! summary :=
             lift (o_bind (py_getitem issue "fields") (fun fields =>
                   py_getitem fields "summary")) in
           let! status :=
             lift (o_bind (py_getitem issue "fields") (fun fields =>
                   o_bind (py_getitem fields "status") (fun status =>
                   py_getitem status "name"))) in
           let! issue_type :=
             lift (o_bind (py_getitem issue "fields") (fun fields =>
                   o_bind (py_getitem fields "issuetype") (fun issuetype =>
                   py_getitem issuetype "name"))) in
           do! print [Lit "  ["; Val key; Lit "] "; Val summary] in
           print [Lit "      Type: "; Val issue_type;
                  Lit ", Status: "; Val status])
       else
         print [Lit "
No issues found. Create your first ticket in Jira!"]
     else
       do! print [Lit "⚠️  Search returned status ";
                  Val (JNum (status_code response))] in
       print [Lit "    This might mean no issues exist yet"])
    Exception
    (fun e =>
       do! print [Lit "ℹ️  Could not search issues: "; Err e] in
       print [Lit "    This is OK if your Jira is empty"]).

(** The script, top to bottom. *)
Definition script : M unit :=
  let! config := JiraConfig.get_config None in
  let base_url := format_value (JiraConfig.url config) in
  let email := format_value (JiraConfig.email config) in
  do! print [Lit "Testing connection to: "; Lit base_url] in
  do! print [Lit "Using email: "; Lit email; Lit "
"] in
  do! test_1 base_url in
  do! test_2 base_url in
  do! test_3 base_url in
  do! print [Lit ("
" +:+ PyStr.str (repeat "="%char 60))] in
  do! print [Lit "✅ Connection test complete!"] in
  print [Lit (PyStr.str (repeat "="%char 60))].

End TestConnection.

(** The requests of the connection test, and what makes its first test
    pass: an answer below status 400 whose body is a JSON object. *)
Definition is_http (e : event) : bool :=
  match e with Http _ => true | _ => false end.

Definition requests_in (t : list event) : list event := List.filter is_http t.

Definition myself (base_url : string) : request :=
  plain_get (base_url +:+ "/rest/api/3/myself").

Definition projects (base_url : string) : request :=
  plain_get (base_url +:+ "/rest/api/3/project").

Definition search (base_url : string) : request :=
  mkRequest GET (base_url +:+ "/rest/api/3/search")
            TestConnection.search_params None.

Definition authenticated (r : reply) : bool :=
  match fetched r with
  | Ret (JDict _) => true
  | _ => false
  end.

Definition probes (base_url : string) (passed : bool) : list request :=
  if passed then [myself base_url; projects base_url; search base_url]
  else [myself base_url].

(** A tracker that knows the user of the credentials and nothing else. The
    address has the slash of [JIRA_URL] in it: the connection test does not
    strip it. *)
Definition knows_user : list request -> request -> reply :=
  fun _ r =>
    if String.eqb (req_url r) "https://acme.atlassian.net//rest/api/3/myself"
    then Answer (mkResponse 200
                   (Some (JDict [("displayName", JStr "Dev");
                                 ("accountId", JStr "5b10a2844c20165700ede21g")])))
    else Answer (mkResponse 404 None).

(** * Properties *)

(** ** Characters *)

Ltac each_char c :=
  destruct c as [[] [] [] [] [] [] [] []]; vm_compute; try reflexivity;
  try discriminate; try (intros; discriminate); try (intros; reflexivity).

Lemma lower_kept_slug_char (c : ascii) :
  Slug.kept (PyStr.lower_char c) = true ->
  Slug.separator (PyStr.lower_char c) = false ->
  slug_char (PyStr.lower_char c) = true.
Proof. each_char c. Qed.

Lemma slug_char_lower (c : ascii) :
  slug_char c = true -> PyStr.lower_char c = c.
Proof. each_char c. Qed.

Lemma slug_char_kept (c : ascii) : slug_char c = true -> Slug.kept c = true.
Proof. each_char c. Qed.

Lemma slug_char_separator (c : ascii) :
  slug_char c = true -> Slug.separator c = PyStr.is_hyphen c.
Proof. each_char c. Qed.

Lemma plain_is_slug_char (c : ascii) :
  Spec.plain_slug_char c = true -> slug_char c = true.
Proof. each_char c. Qed.

Lemma ascii_slug_char_iff (c : ascii) :
  is_ascii c = true -> slug_char c = ascii_slug_char c.
Proof. each_char c. Qed.

Lemma is_ascii_lower (c : ascii) :
  is_ascii c = true -> is_ascii (PyStr.lower_char c) = true.
Proof. each_char c. Qed.

Lemma is_hyphen_true (c : ascii) :
  PyStr.is_hyphen c = true <-> c = PyStr.hyphen.
Proof. unfold PyStr.is_hyphen. apply Ascii.eqb_eq. Qed.

(** ** Stripping, cutting and collapsing *)

Section Stripping.
Variable p : ascii -> bool.

Lemma lstrip_Forall (P : ascii -> Prop) (l : list ascii) :
  Forall P l -> Forall P (PyStr.lstrip p l).
Proof.
  induction 1 as [|c l Hc Hl IH]; simpl; [constructor|].
  destruct (p c); [exact IH | constructor; assumption].
Qed.

Lemma rstrip_Forall (P : ascii -> Prop) (l : list ascii) :
  Forall P l -> Forall P (PyStr.rstrip p l).
Proof.
  induction 1 as [|c l Hc Hl IH]; simpl; [constructor|].
  destruct (PyStr.rstrip p l) as [|d r].
  - destruct (p c); repeat constructor; assumption.
  - constructor; assumption.
Qed.

Lemma strip_Forall (P : ascii -> Prop) (l : list ascii) :
  Forall P l -> Forall P (PyStr.strip p l).
Proof. intros H. apply rstrip_Forall, lstrip_Forall, H. Qed.

Lemma head_lstrip (l : list ascii) (c : ascii) :
  head (PyStr.lstrip p l) = Some c -> p c = false.
Proof.
  induction l as [|d l IH]; simpl; [discriminate|].
  destruct (p d) eqn:E; [exact IH|].
  simpl. intros [= <-]. exact E.
Qed.

Lemma head_rstrip (l : list ascii) (c : ascii) :
  head (PyStr.rstrip p l) = Some c -> head l = Some c.
Proof.
  destruct l as [|d l]; simpl; [discriminate|].
  destruct (PyStr.rstrip p l); [destruct (p d)|]; simpl; congruence.
Qed.

Lemma last_rstrip (l : list ascii) (c : ascii) :
  last (PyStr.rstrip p l) = Some c -> p c = false.
Proof.
  induction l as [|d l IH]; simpl; [discriminate|].
  destruct (PyStr.rstrip p l) as [|e r].
  - destruct (p d) eqn:E; simpl; [discriminate|].
    intros [= <-]. exact E.
  - intros H. apply IH. exact H.
Qed.

Lemma lstrip_id (l : list ascii) :
  (forall c, head l = Some c -> p c = false) -> PyStr.lstrip p l = l.
Proof.
  destruct l as [|d l]; simpl; [reflexivity|].
  intros H. rewrite (H d eq_refl). reflexivity.
Qed.

Lemma rstrip_id (l : list ascii) :
  (forall c, last l = Some c -> p c = false) -> PyStr.rstrip p l = l.
Proof.
  induction l as [|d l IH]; simpl; [reflexivity|].
  intros H. destruct l as [|e r].
  - simpl. rewrite (H d eq_refl). reflexivity.
  - rewrite IH by (intros c Hc; apply H; exact Hc).
    reflexivity.
Qed.

Lemma strip_empty_iff (l : list ascii) :
  PyStr.strip p l = [] <-> forallb p l = true.
Proof.
  unfold PyStr.strip. induction l as [|d l IH]; simpl; [tauto|].
  destruct (p d) eqn:E; simpl; [exact IH|].
  split; [|discriminate].
  destruct (PyStr.rstrip p l); [rewrite E|]; discriminate.
Qed.

End Stripping.

Lemma head_firstn (n : nat) (l : list ascii) (c : ascii) :
  head (firstn n l) = Some c -> head l = Some c.
Proof. destruct n, l; simpl; congruence. Qed.

Lemma re_sub_runs_Forall (cls : ascii -> bool) (r : ascii)
      (P : ascii -> Prop) (l : list ascii) (b : bool) :
  P r -> Forall (fun c => cls c = false -> P c) l ->
  Forall P (PyStr.re_sub_runs cls r b l).
Proof.
  intros Hr H. revert b.
  induction H as [|c l Hc Hl IH]; intros b; simpl; [constructor|].
  destruct (cls c) eqn:E.
  - destruct b; [apply IH | constructor; [exact Hr | apply IH]].
  - constructor; [apply Hc; reflexivity | apply IH].
Qed.

(** ** [slugify] *)

Lemma chars_str (l : list ascii) : PyStr.chars (PyStr.str l) = l.
Proof. apply list_ascii_of_string_of_list_ascii. Qed.

Lemma str_chars (s : string) : PyStr.str (PyStr.chars s) = s.
Proof. apply string_of_list_ascii_of_string. Qed.

Lemma length_str (l : list ascii) : String.length (PyStr.str l) = length l.
Proof. induction l; simpl; congruence. Qed.

Lemma remove_special_kept (l : list ascii) :
  Forall (fun c => Slug.separator c = false -> slug_char c = true)
         (Slug.remove_special l).
Proof.
  unfold Slug.remove_special, PyStr.re_sub_delete_outside, PyStr.lower.
  induction l as [|c l IH]; simpl; [constructor|].
  destruct (Slug.kept (PyStr.lower_char c)) eqn:E; [|exact IH].
  constructor; [|exact IH].
  intros Hs. apply lower_kept_slug_char; assumption.
Qed.

Lemma trimmed_slug_chars (l : list ascii) :
  Forall (fun c => slug_char c = true) (Slug.trimmed l).
Proof.
  unfold Slug.trimmed, Slug.hyphenate.
  apply strip_Forall, re_sub_runs_Forall; [reflexivity|].
  apply remove_special_kept.
Qed.

Lemma slug_chars_slug_chars (l : list ascii) :
  Forall (fun c => slug_char c = true) (Slug.slug_chars l).
Proof. unfold Slug.slug_chars. apply Forall_take, trimmed_slug_chars. Qed.

Lemma lower_slug_chars (l : list ascii) :
  Forall (fun c => slug_char c = true) l -> PyStr.lower l = l.
Proof.
  unfold PyStr.lower. induction 1 as [|c l Hc Hl IH]; simpl; [reflexivity|].
  rewrite IH, (slug_char_lower c Hc). reflexivity.
Qed.

Lemma trimmed_head (l : list ascii) :
  head (Slug.trimmed l) <> Some PyStr.hyphen.
Proof.
  unfold Slug.trimmed, PyStr.strip. intros H.
  apply head_rstrip, head_lstrip in H. discriminate.
Qed.

Lemma trimmed_last (l : list ascii) :
  last (Slug.trimmed l) <> Some PyStr.hyphen.
Proof.
  unfold Slug.trimmed, PyStr.strip. intros H.
  apply last_rstrip in H. discriminate.
Qed.

Lemma slug_chars_ascii (l : list ascii) :
  Forall (fun c => is_ascii c = true) l ->
  Forall (fun c => is_ascii c = true) (Slug.slug_chars l).
Proof.
  intros H. unfold Slug.slug_chars, Slug.trimmed, Slug.hyphenate.
  apply Forall_take, strip_Forall, re_sub_runs_Forall; [reflexivity|].
  unfold Slug.remove_special, PyStr.re_sub_delete_outside, PyStr.lower.
  induction H as [|c l Hc Hl IH]; simpl; [constructor|].
  destruct (Slug.kept (PyStr.lower_char c)); [|exact IH].
  constructor; [|exact IH]. intros _. apply is_ascii_lower, Hc.
Qed.

(** C3 (as amended): for every input string, the slug is unchanged by
    [lower], is made of [a-z], [0-9], underscore, hyphen and the lowercase
    word characters above U+007F (of [a-z0-9_-] alone when the input is
    ASCII), does not start with a hyphen, has at most 50 characters, and
    does not end with a hyphen unless the trimmed text was longer than 50
    characters and had to be cut. *)
Theorem slugify_shape (S : string) :
  str_lower (Slug.slugify S) = Slug.slugify S
  /\ forallb slug_char (PyStr.chars (Slug.slugify S)) = true
  /\ (forallb is_ascii (PyStr.chars S) = true ->
      forallb ascii_slug_char (PyStr.chars (Slug.slugify S)) = true)
  /\ head (PyStr.chars (Slug.slugify S)) <> Some PyStr.hyphen
  /\ (String.length (Slug.slugify S) <= 50)%nat
  /\ (last (PyStr.chars (Slug.slugify S)) <> Some PyStr.hyphen
      \/ (50 < length (Slug.trimmed (PyStr.chars S)))%nat).
Proof.
  unfold Slug.slugify, str_lower. rewrite !chars_str.
  pose proof (slug_chars_slug_chars (PyStr.chars S)) as Hall.
  split; [|split; [|split; [|split; [|split]]]].
  - rewrite (lower_slug_chars _ Hall). reflexivity.
  - apply forallb_forall. intros c Hc.
    rewrite Forall_forall in Hall. apply Hall, list_elem_of_In, Hc.
  - intros Hascii. apply forallb_forall. intros c Hc.
    apply list_elem_of_In in Hc.
    assert (Hin : Forall (fun c => is_ascii c = true) (PyStr.chars S)).
    { apply Forall_forall. intros d Hd. apply list_elem_of_In in Hd.
      rewrite forallb_forall in Hascii. exact (Hascii d Hd). }
    apply slug_chars_ascii in Hin. rewrite Forall_forall in Hin, Hall.
    rewrite <- (ascii_slug_char_iff c (Hin c Hc)). exact (Hall c Hc).
  - unfold Slug.slug_chars. intros H. apply head_firstn in H.
    exact (trimmed_head _ H).
  - rewrite length_str. unfold Slug.slug_chars. rewrite length_take. lia.
  - destruct (le_lt_dec (length (Slug.trimmed (PyStr.chars S))) 50) as [Hle|Hgt].
    + left. unfold Slug.slug_chars. rewrite firstn_all2 by exact Hle.
      apply trimmed_last.
    + right. exact Hgt.
Qed.

Lemma slugify_shape_witness :
  forallb is_ascii (PyStr.chars "Fix: Login  page -- crashes (v2)!") = true
  /\ Slug.slugify "Fix: Login  page -- crashes (v2)!" = "fix-login-page-crashes-v2"
  /\ forallb ascii_slug_char
       (PyStr.chars (Slug.slugify "Fix: Login  page -- crashes (v2)!")) = true.
Proof.
  split; [reflexivity|]. split; [reflexivity|].
  destruct (slugify_shape "Fix: Login  page -- crashes (v2)!")
    as (_ & _ & H & _).
  apply H. reflexivity.
Defined.

(** C3 (as stated) fails: an underscore is a word character and stays in
    the slug. *)
Lemma slugify_keeps_underscore :
  ~ Spec.claimed_slug_shape (Slug.slugify "Fix user_id lookup").
Proof.
  intros (_ & H & _). vm_compute in H. discriminate.
Qed.

(** The text is trimmed before it is cut: a hyphen that lands on position
    50 ends the slug. *)
Example slugify_cut_at_hyphen :
  Slug.slugify "Add retry logic to the payment gateway client for slow networks"
  = "add-retry-logic-to-the-payment-gateway-client-for-".
Proof. vm_compute. reflexivity. Qed.

(** C4: [slugify] applied to its own result strips the hyphen the cut left
    at the end, so the second result differs from the first. *)
Theorem slugify_twice_differs :
  Slug.slugify (Slug.slugify
    "Add retry logic to the payment gateway client for slow networks")
  <> Slug.slugify
    "Add retry logic to the payment gateway client for slow networks".
Proof. vm_compute. discriminate. Qed.

(** ** When [slugify] is idempotent *)

Lemma no_runs_weaken (b : bool) (l : list ascii) :
  no_runs b l -> no_runs false l.
Proof.
  destruct l as [|c r]; simpl; [tauto|].
  destruct (Slug.separator c); tauto.
Qed.

Lemma no_runs_tail (b : bool) (c : ascii) (l : list ascii) :
  no_runs b (c :: l) -> no_runs false l.
Proof.
  simpl. destruct (Slug.separator c).
  - intros (_ & _ & H). exact (no_runs_weaken _ _ H).
  - exact (no_runs_weaken _ _).
Qed.

Lemma hyphenate_no_runs (b : bool) (l : list ascii) :
  no_runs b (PyStr.re_sub_runs Slug.separator PyStr.hyphen b l).
Proof.
  revert b. induction l as [|c l IH]; intros b; simpl; [exact I|].
  destruct (Slug.separator c) eqn:E.
  - destruct b; [apply IH|].
    simpl. repeat split. apply IH.
  - simpl. rewrite E. apply IH.
Qed.

Lemma no_runs_fixed (b : bool) (l : list ascii) :
  no_runs b l -> PyStr.re_sub_runs Slug.separator PyStr.hyphen b l = l.
Proof.
  revert b. induction l as [|c l IH]; intros b; simpl; [reflexivity|].
  destruct (Slug.separator c).
  - intros (-> & -> & H). rewrite (IH true H). reflexivity.
  - intros H. rewrite (IH false H). reflexivity.
Qed.

Lemma no_runs_lstrip (p : ascii -> bool) (l : list ascii) :
  no_runs false l -> no_runs false (PyStr.lstrip p l).
Proof.
  induction l as [|c l IH]; simpl PyStr.lstrip; [tauto|].
  destruct (p c); [|tauto].
  intros H. apply IH. exact (no_runs_tail _ _ _ H).
Qed.

Lemma no_runs_rstrip (p : ascii -> bool) (b : bool) (l : list ascii) :
  no_runs b l -> no_runs b (PyStr.rstrip p l).
Proof.
  revert b. induction l as [|c l IH]; intros b; simpl PyStr.rstrip; [tauto|].
  intros H. destruct (PyStr.rstrip p l) as [|d r] eqn:E.
  - destruct (p c); [exact I|].
    simpl in *. destruct (Slug.separator c); tauto.
  - simpl in H |- *. destruct (Slug.separator c).
    + destruct H as (? & ? & H). repeat split; try assumption. apply IH, H.
    + apply IH, H.
Qed.

Lemma no_runs_firstn (n : nat) (b : bool) (l : list ascii) :
  no_runs b l -> no_runs b (firstn n l).
Proof.
  revert b l. induction n as [|n IH]; intros b [|c l]; simpl; try tauto.
  destruct (Slug.separator c).
  - intros (? & ? & H). repeat split; try assumption. apply IH, H.
  - apply IH.
Qed.

Lemma slug_chars_no_runs (l : list ascii) : no_runs false (Slug.slug_chars l).
Proof.
  unfold Slug.slug_chars, Slug.trimmed, PyStr.strip, Slug.hyphenate.
  apply no_runs_firstn, no_runs_rstrip, no_runs_lstrip, hyphenate_no_runs.
Qed.

Lemma remove_special_fixed (l : list ascii) :
  Forall (fun c => slug_char c = true) l -> Slug.remove_special l = l.
Proof.
  intros H. unfold Slug.remove_special. rewrite (lower_slug_chars _ H).
  unfold PyStr.re_sub_delete_outside.
  induction H as [|c l Hc Hl IH]; simpl; [reflexivity|].
  rewrite (slug_char_kept c Hc), IH. reflexivity.
Qed.

Lemma length_lstrip (p : ascii -> bool) (l : list ascii) :
  (length (PyStr.lstrip p l) <= length l)%nat.
Proof. induction l as [|c l IH]; simpl; [lia|]. destruct (p c); simpl; lia. Qed.

Lemma length_rstrip (p : ascii -> bool) (l : list ascii) :
  (length (PyStr.rstrip p l) <= length l)%nat.
Proof.
  induction l as [|c l IH]; simpl; [lia|].
  destruct (PyStr.rstrip p l); [destruct (p c)|]; simpl in *; lia.
Qed.

(** A slug that does not end with a hyphen is a fixed point. *)
Lemma slug_chars_fixed (r : list ascii) :
  Forall (fun c => slug_char c = true) r ->
  no_runs false r ->
  head r <> Some PyStr.hyphen ->
  last r <> Some PyStr.hyphen ->
  (length r <= 50)%nat ->
  Slug.slug_chars r = r.
Proof.
  intros Hall Hruns Hhead Hlast Hlen.
  unfold Slug.slug_chars, Slug.trimmed, Slug.hyphenate, PyStr.strip.
  rewrite (remove_special_fixed _ Hall), (no_runs_fixed _ _ Hruns).
  rewrite lstrip_id, rstrip_id, firstn_all2; try reflexivity; try exact Hlen.
  - intros c Hc. destruct (PyStr.is_hyphen c) eqn:E; [|reflexivity].
    apply is_hyphen_true in E. congruence.
  - intros c Hc. destruct (PyStr.is_hyphen c) eqn:E; [|reflexivity].
    apply is_hyphen_true in E. congruence.
Qed.

(** [slugify] is idempotent at [S] exactly when the slug of [S] does not
    end with a hyphen. *)
Lemma slugify_idempotent_iff (S : string) :
  Slug.slugify (Slug.slugify S) = Slug.slugify S
  <-> last (PyStr.chars (Slug.slugify S)) <> Some PyStr.hyphen.
Proof.
  unfold Slug.slugify. rewrite !chars_str.
  set (r := Slug.slug_chars (PyStr.chars S)).
  assert (Hlen : (length r <= 50)%nat)
    by (unfold r, Slug.slug_chars; rewrite length_take; lia).
  split.
  - intros H Hlast.
    apply (f_equal PyStr.chars) in H. rewrite !chars_str in H.
    assert (Hcut : Slug.slug_chars r = Slug.trimmed r).
    { unfold Slug.slug_chars at 1. apply firstn_all2.
      unfold Slug.trimmed, PyStr.strip, Slug.hyphenate.
      etransitivity; [apply length_rstrip|].
      etransitivity; [apply length_lstrip|].
      rewrite (remove_special_fixed r (slug_chars_slug_chars _)).
      rewrite (no_runs_fixed false r (slug_chars_no_runs _)). exact Hlen. }
    rewrite Hcut in H. rewrite <- H in Hlast.
    exact (trimmed_last _ Hlast).
  - intros Hlast. f_equal. apply slug_chars_fixed; try assumption.
    + apply slug_chars_slug_chars.
    + apply slug_chars_no_runs.
    + unfold r, Slug.slug_chars. intros H. apply head_firstn in H.
      exact (trimmed_head _ H).
Qed.

(** ** [extract_text_from_adf] *)

Lemma start_work_extract_dict (kvs : list (string * json)) :
  StartWork.extract (JDict kvs) = visit_dict StartWork.extract kvs.
Proof.
  unfold visit_dict. simpl.
  destruct (is_text_type (assoc "type" kvs)); [reflexivity|].
  induction kvs as [|[k v] kvs IH]; [reflexivity|].
  simpl assoc. destruct (String.eqb k "content"); [|exact IH].
  destruct v as [| | | |children|]; try reflexivity.
  simpl. induction children as [|c r IHr]; [reflexivity|].
  simpl. rewrite IHr. reflexivity.
Qed.

Lemma fetch_ticket_extract_list (l : list json) :
  FetchTicket.extract (JList l) = extract_each FetchTicket.extract l.
Proof.
  simpl. induction l as [|c r IH]; [reflexivity|].
  simpl. rewrite IH. reflexivity.
Qed.

Lemma fetch_ticket_extract_dict (kvs : list (string * json)) :
  FetchTicket.extract (JDict kvs) = visit_dict FetchTicket.extract kvs.
Proof.
  unfold visit_dict. simpl.
  destruct (is_text_type (assoc "type" kvs)); [reflexivity|].
  induction kvs as [|[k v] kvs IH]; [reflexivity|].
  simpl assoc. destruct (String.eqb k "content"); [|exact IH].
  destruct v as [| | | |children|]; try reflexivity.
  simpl. induction children as [|c r IHr]; [reflexivity|].
  simpl. rewrite IHr. reflexivity.
Qed.

Lemma adf_induction (P : adf -> Prop) :
  (forall ty t extra, P (Node ty t None extra)) ->
  (forall ty t children extra,
      Forall P children -> P (Node ty t (Some children) extra)) ->
  forall n, P n.
Proof.
  intros Hleaf Hnode. fix IH 1. intros [ty t [children|] extra].
  - apply Hnode. induction children as [|c r IHr]; constructor.
    + apply IH.
    + exact IHr.
  - apply Hleaf.
Qed.

Lemma assoc_other_attributes (k : string) (extra : list (string * json)) :
  reserved k = true -> assoc k (other_attributes extra) = None.
Proof.
  intros Hk. unfold other_attributes.
  induction extra as [|[k' v] extra IH]; simpl; [reflexivity|].
  destruct (reserved k') eqn:E; simpl; [exact IH|].
  destruct (String.eqb_spec k' k) as [->|_]; [congruence | exact IH].
Qed.

Lemma assoc_app (k : string) (a b : list (string * json)) :
  assoc k (a ++ b) = match assoc k a with Some v => Some v | None => assoc k b end.
Proof.
  induction a as [|[k' v] a IH]; simpl; [reflexivity|].
  destruct (String.eqb k' k); [reflexivity | exact IH].
Qed.

Section NodeFields.
Variables (ty : string) (t : option string) (c : option json)
          (extra : list (string * json)).

Lemma node_type : assoc "type" (node_fields ty t c extra) = Some (JStr ty).
Proof. reflexivity. Qed.

Lemma node_text :
  default (JStr "") (assoc "text" (node_fields ty t c extra))
  = JStr (default "" t).
Proof.
  unfold node_fields. simpl assoc. rewrite !assoc_app.
  destruct t as [s|]; [reflexivity|]. simpl.
  rewrite assoc_other_attributes by reflexivity.
  destruct c; reflexivity.
Qed.

Lemma node_content : assoc "content" (node_fields ty t c extra) = c.
Proof.
  unfold node_fields. simpl assoc. rewrite !assoc_app.
  rewrite assoc_other_attributes by reflexivity.
  destruct t, c; reflexivity.
Qed.

End NodeFields.

Lemma visit_node (extract : json -> outcome (list json)) :
  (forall kvs, extract (JDict kvs) = visit_dict extract kvs) ->
  forall n, extract (adf_json n) = Ret (texts_of n).
Proof.
  intros Hdict. induction n as [ty t extra | ty t children extra IH]
    using adf_induction; cbn [adf_json]; rewrite Hdict; unfold visit_dict;
    rewrite node_type, node_text, node_content; unfold texts_of;
    cbn [is_text_type Spec.text_nodes]; destruct (String.eqb ty "text");
    try reflexivity.
  cbn [iterate_content].
  induction IH as [|c r Hc Hr IHr]; [reflexivity|].
  cbn [map extract_each concat]. rewrite Hc, IHr. cbn [o_bind].
  unfold texts_of. rewrite map_app. reflexivity.
Qed.

Lemma join_texts (ns : list adf) :
  py_join " " (map (fun m => JStr (Spec.own_text m)) ns)
  = Ret (String.concat " " (map Spec.own_text ns)).
Proof.
  unfold py_join.
  assert (H : all_str (map (fun m => JStr (Spec.own_text m)) ns)
              = Ret (map Spec.own_text ns)).
  { induction ns as [|m ns IH]; simpl; [reflexivity|]. rewrite IH. reflexivity. }
  rewrite H. reflexivity.
Qed.

Example sample_doc_text :
  StartWork.extract_text_from_adf (adf_json sample_doc)
  = Ret "Login fails on Safari ".
Proof. vm_compute. reflexivity. Qed.

(** C10: on every ADF document both copies of [extract_text_from_adf]
    return the texts of the text nodes met in depth-first document order,
    joined by single spaces; a text node gives its own text (the empty
    string when it has none) whatever stands below it; a document without
    text nodes gives the empty string. *)
Theorem extract_text_from_adf_text_nodes (n : adf) :
  StartWork.extract_text_from_adf (adf_json n) = Ret (Spec.document_text n)
  /\ FetchTicket.extract_text_from_adf (adf_json n)
     = Ret (FetchTicket.Joined (Spec.document_text n))
  /\ (forall t c extra,
        StartWork.extract_text_from_adf (adf_json (Node "text" t c extra))
        = Ret (default "" t))
  /\ (Spec.text_nodes n = [] ->
      StartWork.extract_text_from_adf (adf_json n) = Ret "").
Proof.
  assert (Hsw : forall m, StartWork.extract_text_from_adf (adf_json m)
                          = Ret (Spec.document_text m)).
  { intros m. unfold StartWork.extract_text_from_adf.
    rewrite (visit_node _ start_work_extract_dict). cbn [o_bind].
    apply join_texts. }
  repeat split.
  - apply Hsw.
  - destruct n as [ty t c extra]. cbn [adf_json].
    unfold FetchTicket.extract_text_from_adf.
    change (JDict _) with (adf_json (Node ty t c extra)).
    rewrite (visit_node _ fetch_ticket_extract_dict). cbn [o_bind].
    unfold texts_of. rewrite join_texts. reflexivity.
  - intros t c extra. rewrite Hsw. unfold Spec.document_text.
    cbn [Spec.text_nodes]. reflexivity.
  - intros Hnone. rewrite Hsw. unfold Spec.document_text.
    rewrite Hnone. reflexivity.
Qed.

Lemma extract_text_from_adf_text_nodes_witness :
  Spec.text_nodes blank_doc = []
  /\ StartWork.extract_text_from_adf (adf_json blank_doc) = Ret "".
Proof.
  split; [reflexivity|].
  apply (proj2 (proj2 (proj2 (extract_text_from_adf_text_nodes blank_doc)))).
  reflexivity.
Defined.

(** ** Running the monad *)

Lemma bind_Ret {A B} (m : M A) (k : A -> M B) (w w1 w2 : world) (a : A)
      (o : outcome B) (t t1 t2 : list event) :
  m w = (Ret a, w1, t1) -> k a w1 = (o, w2, t2) -> t = t1 ++ t2 ->
  bind m k w = (o, w2, t).
Proof. intros H1 H2 ->. unfold bind. rewrite H1, H2. reflexivity. Qed.

Lemma bind_Raise {A B} (m : M A) (k : A -> M B) (w w1 : world) (e : exn)
      (t1 : list event) :
  m w = (Raise e, w1, t1) -> bind m k w = (Raise e, w1, t1).
Proof. intros H. unfold bind. rewrite H. reflexivity. Qed.

Lemma bind_Exit {A B} (m : M A) (k : A -> M B) (w w1 : world) (c : Z)
      (t1 : list event) :
  m w = (Exit c, w1, t1) -> bind m k w = (Exit c, w1, t1).
Proof. intros H. unfold bind. rewrite H. reflexivity. Qed.

(** ** jira_config.py *)

Lemma interpolated_o_bind {A B} (o : outcome A) (k : A -> outcome B) :
  interpolated o -> (forall a, interpolated (k a)) -> interpolated (o_bind o k).
Proof. destruct o; simpl; auto. Qed.

Lemma scan_interpolated (deeper : list ascii -> outcome (list ascii))
      (map : string -> option string) :
  (forall l, interpolated (deeper l)) ->
  forall n rest key, (length rest <= n)%nat ->
                     interpolated (Interpolation.scan deeper map key rest).
Proof.
  intros Hd. induction n as [|n IH]; intros rest key Hlen.
  - destruct rest; [|simpl in Hlen; lia]. destruct key; exact eq_refl || exact I.
  - destruct rest as [|c r]; [destruct key; exact eq_refl || exact I|].
    simpl in Hlen. destruct key as [name|]; simpl.
    + destruct (Interpolation.is_close c); [|apply IH; lia].
      destruct name as [|n0 name]; [reflexivity|].
      destruct r as [|c2 r2]; [reflexivity|]. simpl in Hlen.
      destruct (Interpolation.is_s c2); [|reflexivity].
      destruct (map _) as [v|]; [|reflexivity].
      apply interpolated_o_bind.
      * destruct (Interpolation.has_percent v); [apply Hd | exact I].
      * intros a. apply interpolated_o_bind; [apply IH; lia | intros b; exact I].
    + destruct (Interpolation.is_percent c).
      * destruct r as [|c2 r2]; [reflexivity|]. simpl in Hlen.
        destruct (Interpolation.is_percent c2).
        -- apply interpolated_o_bind; [apply IH; lia | intros out; exact I].
        -- destruct (Interpolation.is_open c2); [apply IH; lia | reflexivity].
      * apply interpolated_o_bind; [apply IH; lia | intros out; exact I].
Qed.

Lemma interpolate_some_interpolated (map : string -> option string)
      (depths_left : nat) (rest : list ascii) :
  interpolated (Interpolation.interpolate_some map depths_left rest).
Proof.
  revert rest. induction depths_left as [|d IH]; intros rest; [reflexivity|].
  simpl. apply (scan_interpolated _ _ IH (length rest)). lia.
Qed.

Lemma config_get_interpolated (c : parsed_config) (name key : string) :
  interpolated (JiraConfig.config_get c name key).
Proof.
  unfold JiraConfig.config_get, Interpolation.before_get.
  destruct (JiraConfig.unify_values c name key); [|exact I].
  repeat (apply interpolated_o_bind; [|intros ?; exact I]).
  apply interpolate_some_interpolated.
Qed.

Lemma selected_interpolated (profile : option string) (w : world) :
  interpolated (selected profile w).
Proof.
  unfold selected. destruct (JiraConfig.chosen_file w) as [| |c]; try exact I.
  apply interpolated_o_bind.
  - unfold JiraConfig.wanted_profile, JiraConfig.get_default.
    destruct profile; [exact I|].
    apply interpolated_o_bind; [apply config_get_interpolated | intros v; exact I].
  - intros name. destruct (JiraConfig.has_profile c name); [|exact I].
    unfold JiraConfig.section_credentials, JiraConfig.section_get.
    repeat (apply interpolated_o_bind; [apply config_get_interpolated | intros ?]).
    exact I.
Qed.

(** A value without a percent sign is read as it is. *)
Lemma scan_plain (deeper : list ascii -> outcome (list ascii))
      (map : string -> option string) (l : list ascii) :
  existsb Interpolation.is_percent l = false ->
  Interpolation.scan deeper map None l = Ret l.
Proof.
  induction l as [|c r IH]; simpl; [reflexivity|].
  destruct (Interpolation.is_percent c); [discriminate|]. simpl.
  intros H. rewrite (IH H). reflexivity.
Qed.

Lemma before_get_plain (map : string -> option string) (value : string) :
  Interpolation.has_percent value = false ->
  Interpolation.before_get map value = Ret value.
Proof.
  intros H. unfold Interpolation.before_get. simpl.
  rewrite (scan_plain _ _ _ H). simpl. rewrite str_chars. reflexivity.
Qed.

Lemma init_runs (w : world) :
  JiraConfig.init w =
  match JiraConfig.chosen_file w with
  | Parsed c => (Ret (JiraConfig.mk (JiraConfig.chosen_location w) true c), w, [])
  | Malformed => (Raise ConfigParserError, w, [])
  | NoFile =>
      (Ret (JiraConfig.mk (JiraConfig.chosen_location w) false (mkConfig ∅ [])), w,
       [Print [Lit "⚠️  Config file not found: ";
               ConfigPath (JiraConfig.chosen_location w)];
        Print [Lit "    Using environment variables instead"]])
  end.
Proof.
  unfold JiraConfig.init, bind, get_world.
  destruct (JiraConfig.chosen_file w); reflexivity.
Qed.

Lemma validate_keys_runs (c : JiraConfig.credentials) (keys : list string)
      (w : world) :
  JiraConfig.validate_keys c keys w =
  match List.find (JiraConfig.is_missing c) keys with
  | Some key => (Ret false, w, [Print (JiraConfig.missing_line key)])
  | None => (Ret true, w, [])
  end.
Proof.
  induction keys as [|k keys IH]; simpl; [reflexivity|].
  destruct (JiraConfig.is_missing c k); [reflexivity | exact IH].
Qed.

(** [get_profile], started on what [init] built in the same world, ends as
    the selection does and leaves the world alone. *)
Lemma get_profile_selected (profile : option string) (w : world)
      (self : JiraConfig.t) (t0 : list event) :
  JiraConfig.init w = (Ret self, w, t0) ->
  exists t,
    JiraConfig.get_profile self profile w = (selected profile w, w, t)
    /\ Forall quiet (t0 ++ t).
Proof.
  rewrite init_runs. unfold selected, JiraConfig.get_profile.
  destruct (JiraConfig.chosen_file w) as [| |c]; intros [= <- <-]; simpl.
  - eexists. split; [reflexivity|].
    repeat constructor; intros [key [=]].
  - unfold bind, lift.
    destruct (JiraConfig.wanted_profile c profile) as [name|e|code]; simpl;
      try (eexists; split; [reflexivity | constructor]).
    destruct (JiraConfig.has_profile c name); eexists; (split; [reflexivity|]);
      repeat constructor; intros [key [=]].
Qed.

Lemma is_missing_complete (c : JiraConfig.credentials) :
  first_missing c = None -> complete c.
Proof.
  unfold first_missing, JiraConfig.is_missing. simpl.
  destruct c as [[u|] [e|] [t|]]; simpl; try discriminate;
    destruct (String.eqb_spec u ""); try discriminate;
    destruct (String.eqb_spec e ""); try discriminate;
    destruct (String.eqb_spec t ""); try discriminate.
  intros _. repeat split; eexists; split; try reflexivity; assumption.
Qed.

Lemma first_missing_key (c : JiraConfig.credentials) (key : string) :
  first_missing c = Some key ->
  JiraConfig.is_missing c key = true
  /\ (key = "url" \/ key = "email" \/ key = "token").
Proof.
  unfold first_missing. intros H.
  pose proof (find_some _ _ H) as [Hin Hm]. split; [exact Hm|].
  destruct Hin as [<-|[<-|[<-|[]]]]; auto.
Qed.

Lemma get_config_runs (profile : option string) (w : world) :
  exists t,
    Forall quiet t /\ JiraConfig.get_config profile w = resolved profile w t.
Proof.
  pose proof (init_runs w) as Hinit.
  pose proof (get_profile_selected profile w) as Hprof.
  unfold resolved, JiraConfig.get_config, JiraConfig.validate_profile.
  destruct (JiraConfig.chosen_file w) as [| |c] eqn:Hfile.
  2: { exists []. split; [apply Forall_nil_2 | apply bind_Raise; exact Hinit]. }
  all: destruct (Hprof _ _ Hinit) as (t & Ht & Hquiet);
    destruct (selected profile w) as [cr|e|code] eqn:Hsel;
    [ destruct (first_missing cr) as [key|] eqn:Hm | | ];
    eexists; (split; [exact Hquiet|]).
  all: try (eapply bind_Ret;
     [ exact Hinit
     | eapply bind_Ret;
       [ exact Ht
       | eapply bind_Ret;
         [ rewrite validate_keys_runs;
           fold (first_missing cr); rewrite Hm; reflexivity
         | reflexivity
         | reflexivity ]
       | reflexivity ]
     | ];
    simpl; rewrite ?app_nil_r, <- ?app_assoc; reflexivity).
  all: try (eapply bind_Ret; [exact Hinit | apply bind_Raise; exact Ht | reflexivity]).
  all: eapply bind_Ret; [exact Hinit | apply bind_Exit; exact Ht | reflexivity].
Qed.

Lemma missing_line_inj (k k' : string) :
  JiraConfig.missing_line k = JiraConfig.missing_line k' -> k = k'.
Proof. intros [= H]. exact H. Qed.

Lemma setup_help_quiet : Forall quiet setup_help.
Proof. repeat constructor; intros [key [=]]. Qed.

(** C8 (as amended): [get_config] takes all three fields from one source,
    the wanted section of the configuration file (with the values it
    inherits from [DEFAULT], each interpolated) when the file has that
    section, the environment otherwise. A file that cannot be parsed
    raises, and so does a value that cannot be interpolated; otherwise,
    when one of url, email, token is missing or empty [get_config] prints
    the first such field and exits with status 1, and when none is it
    returns the three, complete. *)
Theorem get_config_all_or_nothing (profile : option string) (w : world) :
  match JiraConfig.chosen_file w with
  | Malformed =>
      fst (fst (JiraConfig.get_config profile w)) = Raise ConfigParserError
  | _ =>
      match selected profile w with
      | Ret c =>
          match first_missing c with
          | None =>
              fst (fst (JiraConfig.get_config profile w)) = Ret c /\ complete c
          | Some key =>
              fst (fst (JiraConfig.get_config profile w)) = Exit 1
              /\ In (Print (JiraConfig.missing_line key))
                    (snd (JiraConfig.get_config profile w))
          end
      | Raise e =>
          fst (fst (JiraConfig.get_config profile w)) = Raise e
          /\ is_InterpolationError e = true
      | Exit _ => False
      end
  end.
Proof.
  destruct (get_config_runs profile w) as (t & _ & H).
  pose proof (selected_interpolated profile w) as Hsel.
  rewrite H. unfold resolved.
  destruct (JiraConfig.chosen_file w); [ | reflexivity | ];
    destruct (selected profile w) as [cr|e|code]; simpl in Hsel;
    try contradiction; try (split; [reflexivity | exact Hsel]);
    destruct (first_missing cr) as [key|] eqn:Hm; simpl;
    try (split; [reflexivity | apply is_missing_complete, Hm]);
    (split; [reflexivity | apply in_app_iff; right; left; reflexivity]).
Qed.

Example acme_section_read :
  JiraConfig.section_credentials acme_config "acme" = Ret acme_section.
Proof. vm_compute. reflexivity. Qed.

(** C8 (as stated) fails: the section has no token and the environment has
    one, so field by field nothing is missing, and [get_config] exits. *)
Lemma get_config_no_per_field_fallback :
  ~ Spec.resolves_per_field JiraConfig.get_config (Some "acme") acme_world
      acme_section
      (JiraConfig.environment_credentials (environ acme_world)).
Proof.
  unfold Spec.resolves_per_field.
  change (fst (fst (JiraConfig.get_config (Some "acme") acme_world)))
    with (@Exit JiraConfig.credentials 1).
  intros [_ H]. apply H.
  repeat split; eexists; (split; [vm_compute; reflexivity | discriminate]).
Qed.

Example acme_world_reports_token :
  In (Print (JiraConfig.missing_line "token"))
     (snd (JiraConfig.get_config (Some "acme") acme_world)).
Proof. vm_compute. tauto. Qed.

(** A token with a lone percent sign: the file parses, and [get_config]
    raises. *)
Example percent_in_token_raises :
  let c := mkConfig ∅ [("acme", {[ "url" := "https://acme.atlassian.net";
                                   "email" := "dev@acme.example";
                                   "token" := "s3%cr3t" ]})] in
  fst (fst (JiraConfig.get_config (Some "acme")
              (mkWorld ∅ (Parsed c) NoFile no_tracker [] no_repository)))
  = Raise InterpolationSyntaxError.
Proof. vm_compute. reflexivity. Qed.

(** C9: when the credentials come from the environment (no configuration
    file, or no section of the wanted name in it) and JIRA_URL is not set,
    [get_profile] returns the built-in address as the url; the url is then
    never the missing field, and the field [get_config] reports before it
    exits can only be email or token. *)
Theorem environment_url_default (profile : option string) (w : world) :
  from_environment profile w = true ->
  environ w !! "JIRA_URL" = None ->
  (exists self t0 t,
      JiraConfig.init w = (Ret self, w, t0)
      /\ JiraConfig.get_profile self profile w
         = (Ret (JiraConfig.environment_credentials (environ w)), w, t))
  /\ JiraConfig.url (JiraConfig.environment_credentials (environ w))
     = Some "https://ihkreddy.atlassian.net"
  /\ JiraConfig.is_missing (JiraConfig.environment_credentials (environ w)) "url"
     = false
  /\ forall key,
      In (Print (JiraConfig.missing_line key))
         (snd (JiraConfig.get_config profile w)) ->
      key = "email" \/ key = "token".
Proof.
  intros Henv Hurl.
  assert (Hsel : selected profile w
                 = Ret (JiraConfig.environment_credentials (environ w))).
  { unfold selected. unfold from_environment in Henv.
    destruct (JiraConfig.chosen_file w) as [| |c]; try reflexivity.
    destruct (JiraConfig.wanted_profile c profile) as [name| |];
      try discriminate. simpl.
    destruct (JiraConfig.has_profile c name); [discriminate | reflexivity]. }
  assert (Hfile : JiraConfig.chosen_file w <> Malformed).
  { unfold from_environment in Henv. intros E. rewrite E in Henv. discriminate. }
  assert (Hnot : JiraConfig.is_missing
                   (JiraConfig.environment_credentials (environ w)) "url" = false).
  { unfold JiraConfig.is_missing, JiraConfig.environment_credentials. simpl.
    rewrite Hurl. reflexivity. }
  repeat split.
  - pose proof (init_runs w) as Hinit.
    destruct (JiraConfig.chosen_file w) as [| |c] eqn:E; [ | congruence | ];
      destruct (get_profile_selected profile w _ _ Hinit) as (t & Ht & _);
      rewrite Hsel in Ht; eauto.
  - unfold JiraConfig.environment_credentials. simpl. rewrite Hurl. reflexivity.
  - exact Hnot.
  - intros key Hin.
    destruct (get_config_runs profile w) as (t & Hquiet & Hrun).
    rewrite Forall_forall in Hquiet.
    assert (Hno : ~ In (Print (JiraConfig.missing_line key)) t).
    { intros H. apply list_elem_of_In in H. apply (Hquiet _ H). exists key. reflexivity. }
    unfold resolved in Hrun. rewrite Hsel in Hrun.
    destruct (JiraConfig.chosen_file w) eqn:E; [ | congruence | ];
      destruct (first_missing (JiraConfig.environment_credentials (environ w)))
        as [k|] eqn:Hm;
      rewrite Hrun in Hin; simpl in Hin; try contradiction;
      apply in_app_iff in Hin; destruct Hin as [Hin|[Hin|Hin]];
      try contradiction;
      try (exfalso; pose proof setup_help_quiet as Hs;
           rewrite Forall_forall in Hs; apply list_elem_of_In in Hin;
           apply (Hs _ Hin); exists key; reflexivity);
      injection Hin as <-;
      destruct (first_missing_key _ _ Hm) as [Hmiss [ -> | [ -> | -> ] ] ];
      try congruence; auto.
Qed.

Lemma environment_url_default_witness :
  from_environment None bare_world = true
  /\ environ bare_world !! "JIRA_URL" = None
  /\ JiraConfig.url (JiraConfig.environment_credentials (environ bare_world))
     = Some "https://ihkreddy.atlassian.net".
Proof.
  split; [reflexivity|]. split; [reflexivity|].
  destruct (environment_url_default None bare_world eq_refl eq_refl)
    as (_ & H & _).
  exact H.
Defined.

(** On the same path the token is what is reported when only the e-mail
    address is set. *)
Example bare_world_reports_token :
  fst (fst (JiraConfig.get_config None bare_world)) = Exit 1
  /\ In (Print (JiraConfig.missing_line "token"))
        (snd (JiraConfig.get_config None bare_world)).
Proof. split; [vm_compute; reflexivity | vm_compute; tauto]. Qed.

(** With JIRA_URL set to the empty string the default does not apply. *)
Example empty_url_is_reported :
  let w := mkWorld {[ "JIRA_URL" := "" ]} NoFile NoFile no_tracker []
                   no_repository in
  In (Print (JiraConfig.missing_line "url")) (snd (JiraConfig.get_config None w)).
Proof. vm_compute. tauto. Qed.

(** ** The two clients *)

Lemma send_runs (r : request) (w : world) :
  send r w =
  (match tracker w (sent w) r with
   | Answer resp => Ret resp
   | NoAnswer => Raise ConnectionError
   end, after_request w r, [Http r]).
Proof. unfold send. destruct (tracker w (sent w) r); reflexivity. Qed.

Lemma get_json_runs (r : request) (w : world) :
  (let! response := send r in
   do! raise_for_status response in
   response_json response) w
  = (fetched (tracker w (sent w) r), after_request w r, [Http r]).
Proof.
  unfold bind. rewrite send_runs. unfold fetched, raise_for_status, response_json.
  destruct (tracker w (sent w) r) as [resp|]; [|reflexivity].
  destruct (is_error_status (status_code resp)); [reflexivity|].
  unfold ret, raise. destruct (body resp); reflexivity.
Qed.

Lemma start_work_get_issue_runs (self : client) (issue_key : string) (w : world) :
  StartWork.get_issue self issue_key w
  = (fetched (tracker w (sent w) (plain_get (issue_url self issue_key))),
     after_request w (plain_get (issue_url self issue_key)),
     [Http (plain_get (issue_url self issue_key))]).
Proof. apply get_json_runs. Qed.

Lemma fetch_ticket_get_issue_runs (self : client) (issue_key : string) (w : world) :
  FetchTicket.get_issue self issue_key w
  = (let req := mkRequest GET (issue_url self issue_key)
                  [("fields", FetchTicket.field_projection)] None in
     match tracker w (sent w) req with
     | NoAnswer =>
         (Exit 1, after_request w req,
          [Http req; Print [Lit "‚ùå Error connecting to Jira: "; Err ConnectionError]])
     | Answer r =>
         if is_error_status (status_code r) then
           (Exit 1, after_request w req,
            [Http req;
             Print (if (status_code r =? 401)%Z then
                      [Lit "‚ùå Authentication failed. Check your JIRA_EMAIL and JIRA_API_TOKEN"]
                    else if (status_code r =? 404)%Z then
                      [Lit "‚ùå Ticket "; Lit issue_key; Lit " not found"]
                    else [Lit "‚ùå HTTP Error: "; Err (HTTPError (status_code r))])])
         else
           match body r with
           | Some doc => (Ret doc, after_request w req, [Http req])
           | None =>
               (Exit 1, after_request w req,
                [Http req; Print [Lit "‚ùå Error connecting to Jira: "; Err JSONDecodeError]])
           end
     end).
Proof.
  unfold FetchTicket.get_issue, try_except, session_get.
  rewrite get_json_runs. unfold fetched. cbv zeta.
  destruct (tracker w (sent w) _) as [r|]; [|reflexivity].
  destruct (is_error_status (status_code r)); [reflexivity|].
  destruct (body r); reflexivity.
Qed.


Lemma fetch_ticket_get_issue_contract :
  Spec.get_issue_contract FetchTicket.get_issue.
Proof.
  exists FetchTicket.field_projection. intros self key w req.
  rewrite fetch_ticket_get_issue_runs.
  fold req. cbv zeta.
  destruct (tracker w (sent w) req) as [resp|]; [|split; [reflexivity | exact I]].
  destruct (is_error_status (status_code resp)).
  - split; [reflexivity|]. split.
    + exists 1%Z. split; [reflexivity | discriminate].
    + eexists. right. left. reflexivity.
  - destruct (body resp) as [doc|]; (split; [reflexivity|]).
    + intros doc' [= <-]. reflexivity.
    + discriminate.
Qed.


Example start_work_get_issue_raises :
  StartWork.get_issue acme "PROJ-7" (world_of (always 401))
  = (Raise (HTTPError 401),
     after_request (world_of (always 401))
       (mkRequest GET "https://acme.atlassian.net/rest/api/3/issue/PROJ-7" [] None),
     [Http (mkRequest GET "https://acme.atlassian.net/rest/api/3/issue/PROJ-7" [] None)]).
Proof. reflexivity. Qed.

Lemma fetched_failed (r : reply) :
  request_failed r = true -> fetched r = Raise (failure r).
Proof.
  destruct r as [resp|]; simpl; [|reflexivity].
  intros ->. reflexivity.
Qed.

Ltac by_reply w :=
  unfold session_get, try_except, bind, send, fetched, raise_for_status,
    response_json, lift, ret, raise, plain_get, after_request;
  destruct (tracker w (sent w) _) as [resp|]; [|reflexivity];
  destruct (is_error_status (status_code resp)); [reflexivity|];
  destruct (body resp) as [[| | | | |]|]; reflexivity.

Lemma fetch_ticket_get_transitions_runs (self : client) (key : string) (w : world) :
  FetchTicket.get_transitions self key w
  = (Ret match fetched (tracker w (sent w) (plain_get (transitions_url self key))) with
         | Ret (JDict kvs) => default (JList []) (assoc "transitions" kvs)
         | _ => JList []
         end,
     after_request w (plain_get (transitions_url self key)),
     [Http (plain_get (transitions_url self key))]).
Proof. unfold FetchTicket.get_transitions. by_reply w. Qed.

Lemma start_work_get_transitions_runs (self : client) (key : string) (w : world) :
  StartWork.get_transitions self key w
  = (o_bind (fetched (tracker w (sent w) (plain_get (transitions_url self key))))
            (fun doc => py_get doc "transitions" (JList [])),
     after_request w (plain_get (transitions_url self key)),
     [Http (plain_get (transitions_url self key))]).
Proof. unfold StartWork.get_transitions. by_reply w. Qed.

Lemma fetch_ticket_get_transitions_failed (self : client) (key : string) (w : world) :
  request_failed (tracker w (sent w) (plain_get (transitions_url self key))) = true ->
  FetchTicket.get_transitions self key w
  = (Ret (JList []), after_request w (plain_get (transitions_url self key)),
     [Http (plain_get (transitions_url self key))]).
Proof.
  intros Hfail.
  rewrite fetch_ticket_get_transitions_runs, (fetched_failed _ Hfail).
  reflexivity.
Qed.

Lemma start_work_get_transitions_failed (self : client) (key : string) (w : world) :
  request_failed (tracker w (sent w) (plain_get (transitions_url self key))) = true ->
  StartWork.get_transitions self key w
  = (Raise (failure (tracker w (sent w) (plain_get (transitions_url self key)))),
     after_request w (plain_get (transitions_url self key)),
     [Http (plain_get (transitions_url self key))]).
Proof.
  intros Hfail.
  rewrite start_work_get_transitions_runs, (fetched_failed _ Hfail).
  reflexivity.
Qed.



Lemma fetch_ticket_get_transitions_contract :
  Spec.get_transitions_contract FetchTicket.get_transitions.
Proof.
  intros self key w Hfail.
  rewrite (fetch_ticket_get_transitions_failed self key w Hfail). reflexivity.
Qed.

(** [get_transitions] of fetch-ticket.py never raises, whatever comes back. *)
Lemma fetch_ticket_get_transitions_total (self : client) (key : string) (w : world) :
  exists v, fst (fst (FetchTicket.get_transitions self key w)) = Ret v.
Proof. rewrite fetch_ticket_get_transitions_runs. eexists. reflexivity. Qed.


(** An empty list of transitions is no error for [transition_issue]: it
    warns and returns [False]. *)
Lemma transition_issue_no_transitions (self : client) (key name : string)
      (w : world) (resp : response) (kvs : list (string * json)) :
  tracker w (sent w) (plain_get (transitions_url self key)) = Answer resp ->
  is_error_status (status_code resp) = false ->
  body resp = Some (JDict kvs) ->
  default (JList []) (assoc "transitions" kvs) = JList [] ->
  StartWork.transition_issue self key name w
  = (Ret false, after_request w (plain_get (transitions_url self key)),
     [Http (plain_get (transitions_url self key));
      Print [Lit "⚠️  Transition '"; Lit name; Lit "' not available"]]).
Proof.
  intros Hr Hs Hb Ht. unfold StartWork.transition_issue.
  eapply bind_Ret.
  - rewrite start_work_get_transitions_runs, Hr. unfold fetched.
    rewrite Hs, Hb. simpl. rewrite Ht. reflexivity.
  - reflexivity.
  - reflexivity.
Qed.

(** ** A first run, computed *)

Example first_run_creates_branch :
  fst (fst (StartWork.prepare (work_on "PROJ-7") acme
              (office (serves_ticket 500) fresh_repo)))
  = Ret "bugfix/proj-7-login-page-crashes-on-safari".
Proof. vm_compute. reflexivity. Qed.

(** ** What the steps touch *)

Lemma bind_inv {A B} (m : M A) (k : A -> M B) (w w2 : world) (b : B)
      (t : list event) :
  bind m k w = (Ret b, w2, t) ->
  exists a w1 t1 t2,
    m w = (Ret a, w1, t1) /\ k a w1 = (Ret b, w2, t2) /\ t = t1 ++ t2.
Proof.
  unfold bind. destruct (m w) as [[[a| |] w1] t1]; try discriminate.
  destruct (k a w1) as [[o w'] t2] eqn:Hk. intros H.
  injection H as Ho Hw Ht. subst o w' t.
  exists a, w1, t1, t2. repeat split; first [exact Hk | reflexivity].
Qed.

Create HintDb calm.

Section Closure.
Context {A B : Type}.

Lemma calm_ret (a : A) : calm (ret a).
Proof. intros w. simpl. auto. Qed.

Lemma calm_raise (e : exn) : calm (@raise A e).
Proof. intros w. simpl. auto. Qed.

Lemma calm_lift (o : outcome A) : no_exit o -> calm (lift o).
Proof. intros H w. simpl. auto. Qed.

Lemma calm_bind (m : M A) (k : A -> M B) :
  calm m -> (forall a, calm (k a)) -> calm (bind m k).
Proof.
  intros Hm Hk w. unfold bind. specialize (Hm w).
  destruct (m w) as [[[a| |] w1] t1]; simpl in Hm; try exact Hm.
  specialize (Hk a w1). destruct (k a w1) as [[o w2] t2]. simpl in *.
  destruct Hm as (Hg & Ht & _), Hk as (Hg' & Ht' & Ho).
  repeat split; [congruence | apply Forall_app; auto | exact Ho].
Qed.

Lemma calm_try (m : M A) (handles : exn -> bool) (h : exn -> M A) :
  calm m -> (forall e, calm (h e)) -> calm (try_except m handles h).
Proof.
  intros Hm Hh w. unfold try_except. specialize (Hm w).
  destruct (m w) as [[[a|e|] w1] t1]; simpl in Hm; try exact Hm.
  destruct (handles e); [|exact Hm].
  specialize (Hh e w1). destruct (h e w1) as [[o w2] t2]. simpl in *.
  destruct Hm as (Hg & Ht & _), Hh as (Hg' & Ht' & Ho).
  repeat split; [congruence | apply Forall_app; auto | exact Ho].
Qed.

End Closure.

Lemma calm_print (line : list piece) : calm (print line).
Proof. intros w. simpl. repeat split; auto. Qed.

Lemma calm_send (r : request) : calm (send r).
Proof.
  intros w. rewrite send_runs. simpl.
  repeat split; auto. destruct (tracker w (sent w) r); exact I.
Qed.

Lemma calm_raise_for_status (r : response) : calm (raise_for_status r).
Proof.
  unfold raise_for_status. destruct (is_error_status (status_code r));
    [apply calm_raise | apply calm_ret].
Qed.

Lemma calm_response_json (r : response) : calm (response_json r).
Proof.
  unfold response_json. destruct (body r); [apply calm_ret | apply calm_raise].
Qed.

Lemma no_exit_o_bind {A B} (o : outcome A) (k : A -> outcome B) :
  no_exit o -> (forall a, no_exit (k a)) -> no_exit (o_bind o k).
Proof. destruct o; simpl; auto. Qed.

Lemma no_exit_py_getitem (v : json) (k : string) : no_exit (py_getitem v k).
Proof. destruct v; simpl; auto. destruct (assoc k fields); exact I. Qed.

Lemma no_exit_py_get (v : json) (k : string) (d : json) : no_exit (py_get v k d).
Proof. destruct v; exact I. Qed.

Lemma no_exit_py_lower (v : json) : no_exit (py_lower v).
Proof. destruct v; exact I. Qed.

Lemma no_exit_py_iter (v : json) : no_exit (py_iter v).
Proof. destruct v; exact I. Qed.

Lemma no_exit_find_transition (l : list json) (wanted : string) :
  no_exit (StartWork.find_transition l wanted).
Proof.
  induction l as [|trans r IH]; simpl; [exact I|].
  apply no_exit_o_bind; [apply no_exit_py_getitem|]. intros name.
  apply no_exit_o_bind; [apply no_exit_py_lower|]. intros lname.
  destruct (String.eqb lname wanted); [apply no_exit_py_getitem | exact IH].
Qed.

#[local] Hint Resolve calm_ret calm_raise calm_print calm_send
  calm_raise_for_status calm_response_json : calm.
#[local] Hint Resolve no_exit_py_getitem no_exit_py_get no_exit_py_lower
  no_exit_py_iter no_exit_find_transition : calm.

Ltac calm_steps :=
  repeat match goal with
    | |- calm (bind _ _) => apply calm_bind; [|intros ?]
    | |- calm (try_except _ _ _) => apply calm_try; [|intros ?]
    | |- calm (lift _) => apply calm_lift
    | |- calm (if ?b then _ else _) => destruct b
    end;
  auto with calm.

Lemma calm_get_transitions (self : client) (key : string) :
  calm (StartWork.get_transitions self key).
Proof. unfold StartWork.get_transitions, session_get. calm_steps. Qed.

Lemma calm_transition_issue (self : client) (key name : string) :
  calm (StartWork.transition_issue self key name).
Proof.
  unfold StartWork.transition_issue, session_post.
  apply calm_bind; [apply calm_get_transitions|]. intros transitions.
  calm_steps.
Qed.

Lemma calm_add_comment (self : client) (key comment : string) :
  calm (StartWork.add_comment self key comment).
Proof. unfold StartWork.add_comment, session_post. calm_steps. Qed.

#[local] Hint Resolve calm_transition_issue calm_add_comment : calm.

Lemma calm_update_status (args : StartWork.arguments) (self : client) :
  calm (StartWork.update_status args self).
Proof. unfold StartWork.update_status. calm_steps. Qed.

Lemma calm_post_comment (args : StartWork.arguments) (self : client)
      (branch : string) :
  calm (StartWork.post_comment args self branch).
Proof. unfold StartWork.post_comment. calm_steps. Qed.

Lemma calm_success_summary (args : StartWork.arguments) (branch : string) :
  calm (StartWork.success_summary args branch).
Proof. unfold StartWork.success_summary. calm_steps. Qed.

(** ** The steps of [main] *)

Lemma quiet_prints (t : list event) :
  Forall quiet t -> Forall (fun e => is_print e = true) t.
Proof. intros H. eapply Forall_impl; [exact H|]. intros e [Hp _]. exact Hp. Qed.

Lemma fetch_ticket_runs (args : StartWork.arguments) (self : client) (w : world) :
  StartWork.fetch_ticket args self w
  = match fetched (tracker w (sent w) (ticket_request self args)) with
    | Ret doc =>
        (Ret doc, after_request w (ticket_request self args),
         [Print [Lit "📥 Fetching ticket details..."];
          Http (ticket_request self args);
          Print [Lit "✓ Fetched ticket"]])
    | Raise e =>
        (Exit 1, after_request w (ticket_request self args),
         [Print [Lit "📥 Fetching ticket details..."];
          Http (ticket_request self args);
          Print [Lit "❌ Failed to fetch ticket: "; Err e]])
    | Exit c =>
        (Exit c, after_request w (ticket_request self args),
         [Print [Lit "📥 Fetching ticket details..."];
          Http (ticket_request self args)])
    end.
Proof.
  unfold StartWork.fetch_ticket, try_except, ticket_request.
  unfold bind at 1. unfold print at 1. unfold bind at 1.
  rewrite start_work_get_issue_runs.
  destruct (fetched _); reflexivity.
Qed.



Lemma update_status_runs (args : StartWork.arguments) (self : client) (w : world) :
  exists w' t,
    StartWork.update_status args self w = (Ret tt, w', t)
    /\ (StartWork.no_status_update args = false ->
        forall e wx tx,
          StartWork.transition_issue self (StartWork.ticket args) "In Progress" w
          = (Raise e, wx, tx) ->
          In (Print [Lit "⚠️  Status update failed: "; Err e]) t).
Proof.
  unfold StartWork.update_status.
  destruct (StartWork.no_status_update args); simpl.
  { exists w, []. split; [reflexivity | discriminate]. }
  pose proof (calm_transition_issue self (StartWork.ticket args) "In Progress" w)
    as (_ & _ & Hne).
  unfold try_except. unfold bind at 1. unfold print at 1. unfold bind at 1.
  destruct (StartWork.transition_issue self (StartWork.ticket args) "In Progress" w)
    as [[[moved|e|c] w1] t1]; simpl in Hne; [| |contradiction].
  - destruct moved; do 2 eexists; (split; [reflexivity|]);
      intros _ e wx tx [=].
  - do 2 eexists. split; [reflexivity|].
    intros _ e' wx tx [= <- _ _]. simpl.
    rewrite ?in_app_iff. simpl. auto 10.
Qed.

Lemma post_comment_runs (args : StartWork.arguments) (self : client)
      (branch : string) (w : world) :
  exists w' t,
    StartWork.post_comment args self branch w = (Ret tt, w', t)
    /\ (StartWork.no_comment args = false ->
        forall e wx tx,
          StartWork.add_comment self (StartWork.ticket args)
            (StartWork.started_comment branch) w
          = (Raise e, wx, tx) ->
          In (Print [Lit "⚠️  Failed to add comment: "; Err e]) t).
Proof.
  unfold StartWork.post_comment.
  destruct (StartWork.no_comment args); simpl.
  { exists w, []. split; [reflexivity | discriminate]. }
  pose proof (calm_add_comment self (StartWork.ticket args)
                (StartWork.started_comment branch) w) as (_ & _ & Hne).
  unfold try_except. unfold bind at 1. unfold print at 1. unfold bind at 1.
  destruct (StartWork.add_comment self (StartWork.ticket args)
              (StartWork.started_comment branch) w)
    as [[[posted|e|c] w1] t1]; simpl in Hne; [| |contradiction].
  - do 2 eexists. split; [reflexivity|]. intros _ e wx tx [=].
  - do 2 eexists. split; [reflexivity|].
    intros _ e' wx tx [= <- _ _]. simpl.
    rewrite ?in_app_iff. simpl. auto 10.
Qed.

Lemma success_summary_runs (args : StartWork.arguments) (branch : string) :
  exists t,
    In (Print (StartWork.ready_line args)) t
    /\ In (Print [Lit "Branch: "; Lit branch]) t
    /\ forall w, StartWork.success_summary args branch w = (Ret tt, w, t).
Proof.
  eexists. split; [|split; [|intros w; reflexivity]]; simpl; auto 10.
Qed.

Lemma calm_after_branch (args : StartWork.arguments) (self : client)
      (branch : string) :
  calm (StartWork.after_branch args self branch).
Proof.
  unfold StartWork.after_branch.
  apply calm_bind; [apply calm_update_status|]. intros _.
  apply calm_bind; [apply calm_post_comment|]. intros _.
  apply calm_success_summary.
Qed.

(** The steps after the branch always come to the summary. *)
Lemma after_branch_runs (args : StartWork.arguments) (self : client)
      (branch : string) (w : world) :
  exists w2 t2,
    StartWork.after_branch args self branch w = (Ret tt, w2, t2)
    /\ git w2 = git w
    /\ Forall (fun ev => is_subprocess ev = false) t2
    /\ In (Print (StartWork.ready_line args)) t2
    /\ In (Print [Lit "Branch: "; Lit branch]) t2
    /\ (StartWork.no_status_update args = false ->
        forall e wx tx,
          StartWork.transition_issue self (StartWork.ticket args) "In Progress" w
          = (Raise e, wx, tx) ->
          In (Print [Lit "⚠️  Status update failed: "; Err e]) t2)
    /\ (StartWork.no_comment args = false ->
        forall e wx tx,
          StartWork.add_comment self (StartWork.ticket args)
            (StartWork.started_comment branch)
            (snd (fst (StartWork.update_status args self w)))
          = (Raise e, wx, tx) ->
          In (Print [Lit "⚠️  Failed to add comment: "; Err e]) t2).
Proof.
  destruct (update_status_runs args self w) as (w1 & t1 & Hu & Hwarn1).
  destruct (post_comment_runs args self branch w1) as (w2 & t2 & Hc & Hwarn2).
  destruct (success_summary_runs args branch) as (t3 & Hready & Hbranch & Hs).
  assert (Hrun : StartWork.after_branch args self branch w
                 = (Ret tt, w2, t1 ++ t2 ++ t3)).
  { unfold StartWork.after_branch.
    eapply bind_Ret; [exact Hu | | reflexivity].
    eapply bind_Ret; [exact Hc | apply Hs | reflexivity]. }
  pose proof (calm_after_branch args self branch w) as (Hgit & Hsub & _).
  rewrite Hrun in Hgit, Hsub. simpl in Hgit, Hsub.
  exists w2, (t1 ++ t2 ++ t3). repeat split; try assumption.
  - rewrite !in_app_iff. auto.
  - rewrite !in_app_iff. auto.
  - intros Hflag e wx tx He. rewrite !in_app_iff. left. eauto.
  - intros Hflag e wx tx He. rewrite Hu in He. simpl in He.
    rewrite !in_app_iff. right. left. eauto.
Qed.



(** ** [create_branch] *)

Lemma chars_append (a b : string) :
  PyStr.chars (a +:+ b) = PyStr.chars a ++ PyStr.chars b.
Proof. induction a as [|c a IH]; simpl; [reflexivity|]. f_equal. exact IH. Qed.

Lemma strip_nonempty_iff (s : string) :
  strip_nonempty s = true <-> forallb PyStr.is_space (PyStr.chars s) = false.
Proof.
  unfold strip_nonempty.
  pose proof (strip_empty_iff PyStr.is_space (PyStr.chars s)) as H.
  destruct (PyStr.strip PyStr.is_space (PyStr.chars s));
    destruct (forallb PyStr.is_space (PyStr.chars s)); intuition congruence.
Qed.

Lemma branch_name_has_slash (key slug ty : string) :
  forallb PyStr.is_space (PyStr.chars (StartWork.branch_name_of key slug ty)) = false.
Proof.
  unfold StartWork.branch_name_of. rewrite !chars_append, !forallb_app.
  simpl. apply andb_false_r.
Qed.

Lemma branch_name_not_empty (key slug ty : string) :
  String.eqb (StartWork.branch_name_of key slug ty) "" = false.
Proof.
  apply String.eqb_neq. intros H.
  pose proof (branch_name_has_slash key slug ty) as Hs. rewrite H in Hs.
  discriminate.
Qed.

(** [create_branch] by what git answers. *)
Lemma create_branch_runs (key : string) (summary : json) (ty slug : string)
      (w : world) :
  StartWork.slugify_value summary = Ret slug ->
  StartWork.create_branch key summary ty w
  = created (StartWork.branch_name_of key slug ty) w.
Proof.
  intros Hslug. unfold StartWork.create_branch.
  unfold bind at 1. unfold lift at 1. rewrite Hslug. cbv zeta.
  set (b := StartWork.branch_name_of key slug ty).
  unfold created, checked_out_by, git_error, try_except, bind, subprocess_run.
  destruct (answer (git w) RevParseGitDir) as [rc0 out0|]; [|reflexivity].
  cbn [andb]. destruct (negb (rc0 =? 0)%Z); [reflexivity|].
  cbn [git with_git].
  destruct (answer (after_command (git w) RevParseGitDir) (BranchList b))
    as [rc1 out1|]; [|reflexivity].
  cbn [andb snd git with_git].
  destruct (strip_nonempty out1); unfold print; cbn [git with_git].
  - destruct (answer _ (Checkout b)) as [rc2 out2|]; [|reflexivity].
    cbn [andb]. destruct (negb (rc2 =? 0)%Z); reflexivity.
  - destruct (answer _ (CheckoutNew b)) as [rc2 out2|]; [|reflexivity].
    cbn [andb]. destruct (negb (rc2 =? 0)%Z); reflexivity.
Qed.

Lemma create_branch_no_slug (key : string) (summary : json) (ty : string)
      (w : world) (e : exn) :
  StartWork.slugify_value summary = Raise e ->
  StartWork.create_branch key summary ty w = (Raise e, w, []).
Proof.
  intros Hslug. unfold StartWork.create_branch, bind, lift.
  rewrite Hslug. reflexivity.
Qed.

Lemma slugify_value_cases (summary : json) :
  (exists slug, StartWork.slugify_value summary = Ret slug)
  \/ StartWork.slugify_value summary = Raise AttributeError.
Proof. destruct summary; simpl; eauto. Qed.

(** What [created] comes to, case by case. *)
Lemma checked_out_by_cases (c : git_command) (b : string) (w : world)
      (t done : list event) :
  sent (snd (fst (checked_out_by c b w t done))) = sent w
  /\ match fst (fst (checked_out_by c b w t done)) with
     | Ret (Some b') =>
         b' = b
         /\ git (snd (fst (checked_out_by c b w t done)))
            = after_command (git w) c
         /\ (exists out, answer (git w) c = Exited 0 out)
         /\ snd (checked_out_by c b w t done) = t ++ Subprocess (argv c) :: done
     | Ret None =>
         git (snd (fst (checked_out_by c b w t done))) = after_command (git w) c
         /\ exists rc out,
             answer (git w) c = Exited rc out /\ rc <> 0%Z
             /\ snd (checked_out_by c b w t done)
                = t ++ [Subprocess (argv c); git_error c rc]
     | Raise e =>
         e = OSError /\ answer (git w) c = NotStarted
         /\ snd (fst (checked_out_by c b w t done)) = w
     | Exit _ => False
     end.
Proof.
  unfold checked_out_by.
  destruct (answer (git w) c) as [rc out|]; [|simpl; auto].
  destruct (Z.eqb_spec rc 0) as [->|Hrc]; simpl.
  - repeat split; eauto.
  - repeat split; eauto.
Qed.

(** ** [display_ticket_info] only prints *)

Section Constant.
Context {A B : Type}.

Lemma constant_ret (a : A) : constant (ret a).
Proof. exists (Ret a), []. split; [constructor | reflexivity]. Qed.

Lemma constant_lift (o : outcome A) : constant (lift o).
Proof. exists o, []. split; [constructor | reflexivity]. Qed.

Lemma constant_bind (m : M A) (k : A -> M B) :
  constant m -> (forall a, constant (k a)) -> constant (bind m k).
Proof.
  intros (o & t & Hp & Hm) Hk. destruct o as [a|e|c].
  - destruct (Hk a) as (o' & t' & Hp' & Hk').
    exists o', (t ++ t'). split; [apply Forall_app; auto|].
    intros w. eapply bind_Ret; [apply Hm | apply Hk' | reflexivity].
  - exists (Raise e), t. split; [exact Hp|]. intros w. apply bind_Raise, Hm.
  - exists (Exit c), t. split; [exact Hp|]. intros w. apply bind_Exit, Hm.
Qed.

End Constant.

Lemma constant_print (line : list piece) : constant (print line).
Proof. exists (Ret tt), [Print line]. split; [repeat constructor | reflexivity]. Qed.

Ltac constant_steps :=
  repeat match goal with
    | |- constant (bind _ _) => apply constant_bind; [|intros ?]
    | |- constant (lift _) => apply constant_lift
    | |- constant (ret _) => apply constant_ret
    | |- constant (print _) => apply constant_print
    | |- constant (if ?b then _ else _) => destruct b
    | |- constant (match ?x with _ => _ end) => destruct x
    end.

Lemma display_ticket_info_constant (issue_data : json) :
  constant (StartWork.display_ticket_info issue_data).
Proof. unfold StartWork.display_ticket_info. constant_steps. Qed.

(** ** Git commands in a trace *)

Lemma git_commands_app (a b : list event) :
  git_commands (a ++ b) = git_commands a ++ git_commands b.
Proof.
  unfold git_commands. induction a as [|e a IH]; simpl; [reflexivity|].
  destruct (is_subprocess e); simpl; rewrite IH; reflexivity.
Qed.

Lemma git_commands_prints (t : list event) :
  Forall (fun e => is_print e = true) t -> git_commands t = [].
Proof.
  unfold git_commands. induction 1 as [|e t He Ht IH]; simpl; [reflexivity|].
  destruct e; try discriminate. exact IH.
Qed.

Lemma git_commands_calm (t : list event) :
  Forall (fun e => is_subprocess e = false) t -> git_commands t = [].
Proof.
  unfold git_commands. induction 1 as [|e t He Ht IH]; simpl; [reflexivity|].
  rewrite He. exact IH.
Qed.

(** ** "Create branch" in [main] *)

Lemma lift_inv {A} (o : outcome A) (a : A) (w w' : world) (t : list event) :
  lift o w = (Ret a, w', t) -> o = Ret a /\ w' = w /\ t = [].
Proof. unfold lift. intros [= -> <- <-]. auto. Qed.

Lemma created_cases (b : string) (w : world) :
  sent (snd (fst (created b w))) = sent w
  /\ match fst (fst (created b w)) with
     | Ret (Some b') =>
         b' = b /\ branch_checked_out (git w) (git (snd (fst (created b w)))) b
     | Ret None =>
         exists c rc h out,
           checked c = true /\ rc <> 0%Z
           /\ respond (git w) h c = Exited rc out
           /\ ran (git (snd (fst (created b w)))) = c :: h
           /\ last (snd (created b w)) = Some (git_error c rc)
     | Raise e => e = OSError
     | Exit _ => False
     end.
Proof.
  unfold created.
  destruct (answer (git w) RevParseGitDir) as [rc0 out0|] eqn:H0; [|simpl; auto].
  destruct (Z.eqb_spec rc0 0) as [->|Hrc0]; cbn [negb].
  2: { cbn [fst snd]. split; [reflexivity|].
       exists RevParseGitDir, rc0, (ran (git w)), out0. repeat split; auto. }
  cbn [git with_git].
  destruct (answer (after_command (git w) RevParseGitDir) (BranchList b))
    as [rc1 out1|] eqn:H1; [|simpl; auto].
  destruct (strip_nonempty out1).
  - match goal with
    | |- context [checked_out_by ?c b ?w2 ?t ?d] =>
        pose proof (checked_out_by_cases c b w2 t d) as (Hs & Hc);
        destruct (checked_out_by c b w2 t d) as [[[[b'|]|e|code] w'] tr]
    end; cbn [fst snd sent with_git git] in *; (split; [exact Hs|]).
    + destruct Hc as (-> & Hg & (out & Ha) & _). split; [reflexivity|].
      exists (Checkout b), out. repeat split; [left; reflexivity | exact Hg | exact Ha].
    + destruct Hc as (Hg & rc & out & Ha & Hrc & ->).
      exists (Checkout b), rc, (BranchList b :: RevParseGitDir :: ran (git w)), out.
      rewrite Hg. repeat split; auto.
    + destruct Hc as (-> & _). reflexivity.
    + contradiction.
  - match goal with
    | |- context [checked_out_by ?c b ?w2 ?t ?d] =>
        pose proof (checked_out_by_cases c b w2 t d) as (Hs & Hc);
        destruct (checked_out_by c b w2 t d) as [[[[b'|]|e|code] w'] tr]
    end; cbn [fst snd sent with_git git] in *; (split; [exact Hs|]).
    + destruct Hc as (-> & Hg & (out & Ha) & _). split; [reflexivity|].
      exists (CheckoutNew b), out.
      repeat split; [right; reflexivity | exact Hg | exact Ha].
    + destruct Hc as (Hg & rc & out & Ha & Hrc & ->).
      exists (CheckoutNew b), rc, (BranchList b :: RevParseGitDir :: ran (git w)), out.
      rewrite Hg. repeat split; auto.
    + destruct Hc as (-> & _). reflexivity.
    + contradiction.
Qed.

(** "Create branch" in [main], by what [create_branch] comes to. *)
Lemma branch_step_runs (args : StartWork.arguments) (doc : json) (w : world)
      (summary : json) (ty slug : string) :
  StartWork.branch_inputs args doc = Ret (summary, ty) ->
  StartWork.slugify_value summary = Ret slug ->
  StartWork.branch_step args doc w
  = (match fst (fst (created (StartWork.branch_name_of (StartWork.ticket args) slug ty) w)) with
     | Ret (Some _) => Ret (StartWork.branch_name_of (StartWork.ticket args) slug ty)
     | Ret None => Exit 1
     | Raise e => Raise e
     | Exit c => Exit c
     end,
     snd (fst (created (StartWork.branch_name_of (StartWork.ticket args) slug ty) w)),
     snd (created (StartWork.branch_name_of (StartWork.ticket args) slug ty) w)
     ++ match fst (fst (created (StartWork.branch_name_of (StartWork.ticket args) slug ty) w)) with
        | Ret None => [Print [Lit "❌ Failed to create branch"]]
        | _ => []
        end).
Proof.
  intros Hin Hslug. unfold StartWork.branch_step, bind, lift.
  rewrite Hin. cbn [fst snd].
  rewrite (create_branch_runs _ _ _ _ _ Hslug).
  pose proof (created_cases (StartWork.branch_name_of (StartWork.ticket args) slug ty) w)
    as (_ & Hc).
  destruct (created _ w) as [[[[b'|]|e|code] w'] tr]; cbn [fst snd] in *.
  - destruct Hc as (-> & _).
    rewrite (branch_name_not_empty (StartWork.ticket args) slug ty).
    unfold ret. cbn [app]. rewrite !app_nil_r. reflexivity.
  - reflexivity.
  - cbn [app]. rewrite app_nil_r. reflexivity.
  - contradiction.
Qed.

(** What a step that gave its branch leaves. *)
Lemma branch_step_inv (args : StartWork.arguments) (doc : json) (w w' : world)
      (b : string) (t : list event) :
  StartWork.branch_step args doc w = (Ret b, w', t) ->
  exists summary ty slug,
    StartWork.branch_inputs args doc = Ret (summary, ty)
    /\ StartWork.slugify_value summary = Ret slug
    /\ b = StartWork.branch_name_of (StartWork.ticket args) slug ty
    /\ branch_checked_out (git w) (git w') b
    /\ sent w' = sent w.
Proof.
  intros H.
  destruct (StartWork.branch_inputs args doc) as [[summary ty]|e|c] eqn:Hin;
    try (unfold StartWork.branch_step, bind, lift in H; rewrite Hin in H;
         discriminate H).
  destruct (slugify_value_cases summary) as [[slug Hslug]|Hslug].
  2: { unfold StartWork.branch_step, bind, lift in H. rewrite Hin in H.
       cbn [fst snd] in H.
       rewrite (create_branch_no_slug _ _ _ _ _ Hslug) in H. discriminate H. }
  rewrite (branch_step_runs args doc w summary ty slug Hin Hslug) in H.
  pose proof (created_cases (StartWork.branch_name_of (StartWork.ticket args) slug ty) w)
    as (Hs & Hc).
  destruct (created _ w) as [[[[b'|]|e|code] w0] tr]; cbn [fst snd] in *;
    try discriminate H.
  injection H as <- <- <-. destruct Hc as (_ & Hco).
  exists summary, ty, slug. repeat split; auto.
Qed.

(** ** [main] up to the branch *)

Lemma prints_are_harmless (t : list event) :
  Forall (fun e => is_print e = true) t ->
  Forall (fun e => is_subprocess e = false /\ is_post e = false) t.
Proof.
  intros H. eapply Forall_impl; [exact H|].
  intros [] He; try discriminate He. auto.
Qed.

(** [main] from "Fetch ticket" to "Create branch", whatever that step
    comes to. *)
Lemma prepare_reaches_branch (args : StartWork.arguments) (self : client)
      (w : world) (doc : json) :
  fetched (tracker w (sent w) (ticket_request self args)) = Ret doc ->
  fst (fst (StartWork.display_ticket_info doc w)) = Ret tt ->
  exists tpre,
    Forall (fun e => is_subprocess e = false /\ is_post e = false) tpre
    /\ forall o w' tB,
        StartWork.branch_step args doc (after_request w (ticket_request self args))
        = (o, w', tB) ->
        StartWork.prepare args self w = (o, w', tpre ++ tB).
Proof.
  intros Hdoc Hdisp.
  destruct (display_ticket_info_constant doc) as (o' & td & Hpd & Hconst).
  rewrite Hconst in Hdisp. simpl in Hdisp. subst o'.
  exists ([Print [Lit "📥 Fetching ticket details..."];
           Http (ticket_request self args);
           Print [Lit "✓ Fetched ticket"]] ++ td).
  split.
  - apply Forall_app. split; [repeat constructor | apply prints_are_harmless, Hpd].
  - intros o w' tB Hstep. unfold StartWork.prepare.
    eapply bind_Ret; [rewrite fetch_ticket_runs, Hdoc; reflexivity | | ].
    + eapply bind_Ret; [apply Hconst | exact Hstep | reflexivity].
    + rewrite <- app_assoc. reflexivity.
Qed.

Lemma prepare_inv (args : StartWork.arguments) (self : client) (w w' : world)
      (b : string) (t : list event) :
  StartWork.prepare args self w = (Ret b, w', t) ->
  exists doc tpre tB,
    fetched (tracker w (sent w) (ticket_request self args)) = Ret doc
    /\ StartWork.branch_step args doc (after_request w (ticket_request self args))
       = (Ret b, w', tB)
    /\ t = tpre ++ tB
    /\ Forall (fun e => is_subprocess e = false /\ is_post e = false) tpre.
Proof.
  unfold StartWork.prepare. intros H.
  apply bind_inv in H as (doc & wf & tf & tf' & Hfetch & H & ->).
  rewrite fetch_ticket_runs in Hfetch.
  destruct (fetched (tracker w (sent w) (ticket_request self args)))
    as [doc'| |] eqn:Hdoc; try discriminate.
  injection Hfetch as <- <- <-.
  apply bind_inv in H as ([] & wd & td & tB & Hdisp & Hstep & ->).
  destruct (display_ticket_info_constant doc') as (o & tdd & Hpd & Hconst).
  rewrite Hconst in Hdisp. injection Hdisp as _ <- <-.
  exists doc', ([Print [Lit "📥 Fetching ticket details..."];
                 Http (ticket_request self args);
                 Print [Lit "✓ Fetched ticket"]] ++ tdd), tB.
  split; [reflexivity|]. split; [exact Hstep|]. split.
  - rewrite <- app_assoc. reflexivity.
  - apply Forall_app. split; [repeat constructor | apply prints_are_harmless, Hpd].
Qed.

(** What [main] has done when the branch is there: one request, and a
    checkout of the branch that succeeded. *)
Lemma prepare_leaves (args : StartWork.arguments) (self : client) (w w1 : world)
      (b : string) (t1 : list event) :
  StartWork.prepare args self w = (Ret b, w1, t1) ->
  sent w1 = ticket_request self args :: sent w
  /\ branch_checked_out (git w) (git w1) b.
Proof.
  intros H. apply prepare_inv in H as (doc & tpre & tB & _ & Hstep & _).
  apply branch_step_inv in Hstep as (_ & _ & _ & _ & _ & _ & Hco & Hs).
  split; [rewrite Hs; reflexivity | exact Hco].
Qed.

(** ** Two calls of [create_branch] *)

(** C6 (as amended): [create_branch] computes the same branch name for the
    same key, summary and branch type. After a call that returned that
    name, a later call to which git lists a branch of that name says that
    the branch exists, runs [git checkout] on it (and no [checkout -b])
    and, when git answers that command with the return code 0, returns the
    same name. *)
Theorem second_run_checks_out_same_branch
        (key : string) (summary : json) (ty : string) (w w1 w2 : world)
        (t1 : list event) (b : string) (rc : Z) (out0 out out2 : string) :
  StartWork.create_branch key summary ty w = (Ret (Some b), w1, t1) ->
  answer (git w2) RevParseGitDir = Exited 0 out0 ->
  answer (after_command (git w2) RevParseGitDir) (BranchList b) = Exited rc out ->
  strip_nonempty out = true ->
  answer (after_command (after_command (git w2) RevParseGitDir) (BranchList b))
         (Checkout b)
  = Exited 0 out2 ->
  StartWork.create_branch key summary ty w2
  = (Ret (Some b),
     with_git w2
       (after_command
          (after_command (after_command (git w2) RevParseGitDir) (BranchList b))
          (Checkout b)),
     [Subprocess ["git"; "rev-parse"; "--git-dir"];
      Subprocess ["git"; "branch"; "--list"; b];
      Print [Lit "⚠️  Branch '"; Lit b; Lit "' already exists"];
      Subprocess ["git"; "checkout"; b]]).
Proof.
  intros Hfirst H0 H1 Hlisted H2.
  destruct (slugify_value_cases summary) as [[slug Hslug]|Hslug].
  2: { rewrite (create_branch_no_slug _ _ _ _ _ Hslug) in Hfirst.
       discriminate Hfirst. }
  assert (Hb : b = StartWork.branch_name_of key slug ty).
  { rewrite (create_branch_runs _ _ _ _ _ Hslug) in Hfirst.
    pose proof (created_cases (StartWork.branch_name_of key slug ty) w) as (_ & Hc).
    rewrite Hfirst in Hc. cbn [fst snd] in Hc. destruct Hc as (Hc & _).
    exact Hc. }
  rewrite (create_branch_runs _ _ _ _ _ Hslug), <- Hb.
  unfold created, checked_out_by. rewrite H0. cbn [negb Z.eqb git with_git].
  rewrite H1, Hlisted. cbn [git with_git]. rewrite H2. reflexivity.
Qed.

Lemma second_run_checks_out_same_branch_witness :
  exists w3,
    StartWork.create_branch "PROJ-7" (JStr "Login page crashes on Safari") "bugfix"
      (snd (fst (StartWork.create_branch "PROJ-7"
                   (JStr "Login page crashes on Safari") "bugfix"
                   (office no_tracker fresh_repo))))
    = (Ret (Some "bugfix/proj-7-login-page-crashes-on-safari"), w3,
       [Subprocess ["git"; "rev-parse"; "--git-dir"];
        Subprocess ["git"; "branch"; "--list";
                    "bugfix/proj-7-login-page-crashes-on-safari"];
        Print [Lit "⚠️  Branch '";
               Lit "bugfix/proj-7-login-page-crashes-on-safari";
               Lit "' already exists"];
        Subprocess ["git"; "checkout";
                    "bugfix/proj-7-login-page-crashes-on-safari"]]).
Proof.
  set (w := office no_tracker fresh_repo).
  set (summary := JStr "Login page crashes on Safari").
  set (b := "bugfix/proj-7-login-page-crashes-on-safari").
  set (w1 := snd (fst (StartWork.create_branch "PROJ-7" summary "bugfix" w))).
  assert (Hfirst : StartWork.create_branch "PROJ-7" summary "bugfix" w
                   = (Ret (Some b), w1,
                      snd (StartWork.create_branch "PROJ-7" summary "bugfix" w)))
    by (vm_compute; reflexivity).
  assert (H0 : answer (git w1) RevParseGitDir = Exited 0 ".git
") by (vm_compute; reflexivity).
  assert (H1 : answer (after_command (git w1) RevParseGitDir) (BranchList b)
               = Exited 0 ("* " +:+ b +:+ "
")) by (vm_compute; reflexivity).
  assert (H2 : answer (after_command (after_command (git w1) RevParseGitDir)
                         (BranchList b)) (Checkout b)
               = Exited 0 "") by (vm_compute; reflexivity).
  eexists.
  exact (second_run_checks_out_same_branch "PROJ-7" summary "bugfix" w w1 w1 _ b
           0 _ _ _ Hfirst H0 H1 eq_refl H2).
Defined.

(** C6 (as stated) fails in a repository without commits: the first call
    returns the name, [git checkout -b] has left no branch behind, and the
    second call does not find one: it neither says that the branch exists
    nor runs [git checkout] on it. *)
Lemma second_run_in_empty_repository :
  ~ Spec.finds_its_branch StartWork.create_branch
      "PROJ-7" (JStr "Login page crashes on Safari") "bugfix"
      (office no_tracker empty_repository).
Proof.
  intros H.
  set (w := office no_tracker empty_repository) in *.
  set (summary := JStr "Login page crashes on Safari") in *.
  set (b := "bugfix/proj-7-login-page-crashes-on-safari").
  assert (Hfirst : StartWork.create_branch "PROJ-7" summary "bugfix" w
                   = (Ret (Some b),
                      snd (fst (StartWork.create_branch "PROJ-7" summary "bugfix" w)),
                      snd (StartWork.create_branch "PROJ-7" summary "bugfix" w)))
    by (vm_compute; reflexivity).
  destruct (H _ _ _ Hfirst) as (w2 & t2 & Hsecond & Hwarn & _).
  assert (Ht2 : t2 = [Subprocess ["git"; "rev-parse"; "--git-dir"];
                      Subprocess ["git"; "branch"; "--list"; b];
                      Subprocess ["git"; "checkout"; "-b"; b];
                      Print [Lit "✓ Created and checked out branch: "; Lit b]]).
  { vm_compute in Hsecond. injection Hsecond as _ <-. reflexivity. }
  rewrite Ht2 in Hwarn. simpl in Hwarn.
  repeat (destruct Hwarn as [Hwarn|Hwarn]; [discriminate Hwarn|]).
  exact Hwarn.
Qed.

Example second_run_in_empty_repository_returns :
  fst (fst (StartWork.create_branch "PROJ-7" (JStr "Login page crashes on Safari")
              "bugfix"
              (snd (fst (StartWork.create_branch "PROJ-7"
                           (JStr "Login page crashes on Safari") "bugfix"
                           (office no_tracker empty_repository))))))
  = Ret (Some "bugfix/proj-7-login-page-crashes-on-safari").
Proof. vm_compute. reflexivity. Qed.

(** * Further properties *)

(** ** [slugify]: separators and word characters *)

Lemma slug_char_not_space (c : ascii) :
  slug_char c = true -> PyStr.is_space c = false.
Proof. each_char c. Qed.

Lemma word_not_separator (c : ascii) :
  PyStr.is_word c = true -> Slug.separator c = false.
Proof. each_char c. Qed.

Lemma word_kept (c : ascii) : PyStr.is_word c = true -> Slug.kept c = true.
Proof. each_char c. Qed.

Lemma is_word_lower (c : ascii) :
  PyStr.is_word (PyStr.lower_char c) = PyStr.is_word c.
Proof. each_char c. Qed.

Lemma slug_char_cases (c : ascii) :
  slug_char c = true -> PyStr.is_word c = false -> c = PyStr.hyphen.
Proof. each_char c. Qed.

Lemma no_runs_no_pair (b : bool) (pre post : list ascii) :
  ~ no_runs b (pre ++ PyStr.hyphen :: PyStr.hyphen :: post).
Proof.
  revert b. induction pre as [|c pre IH]; intros b H.
  - simpl in H. destruct H as (_ & _ & H). simpl in H.
    destruct H as (H & _). discriminate H.
  - apply no_runs_tail in H. exact (IH _ H).
Qed.

(** X1: a slug holds no whitespace and never two hyphens in a row. *)
Theorem slugify_single_separators (S : string) :
  forallb (fun c => negb (PyStr.is_space c)) (PyStr.chars (Slug.slugify S)) = true
  /\ forall pre post,
      PyStr.chars (Slug.slugify S)
      <> pre ++ PyStr.hyphen :: PyStr.hyphen :: post.
Proof.
  unfold Slug.slugify. rewrite chars_str. split.
  - apply forallb_forall. intros c Hc.
    pose proof (slug_chars_slug_chars (PyStr.chars S)) as Hall.
    rewrite Forall_forall in Hall. apply list_elem_of_In in Hc.
    rewrite (slug_char_not_space c (Hall c Hc)). reflexivity.
  - intros pre post H.
    pose proof (slug_chars_no_runs (PyStr.chars S)) as Hruns.
    rewrite H in Hruns. exact (no_runs_no_pair _ _ _ Hruns).
Qed.

Lemma filter_word_lstrip (l : list ascii) :
  List.filter PyStr.is_word (PyStr.lstrip PyStr.is_hyphen l)
  = List.filter PyStr.is_word l.
Proof.
  induction l as [|c l IH]; simpl; [reflexivity|].
  destruct (PyStr.is_hyphen c) eqn:E; [|reflexivity].
  apply is_hyphen_true in E. subst c. exact IH.
Qed.

Lemma filter_word_rstrip (l : list ascii) :
  List.filter PyStr.is_word (PyStr.rstrip PyStr.is_hyphen l)
  = List.filter PyStr.is_word l.
Proof.
  induction l as [|c l IH]; simpl PyStr.rstrip; [reflexivity|].
  destruct (PyStr.rstrip PyStr.is_hyphen l) as [|d r] eqn:Er.
  - simpl in IH. simpl. rewrite <- IH.
    destruct (PyStr.is_hyphen c) eqn:E.
    + apply is_hyphen_true in E. subst c. reflexivity.
    + simpl. destruct (PyStr.is_word c); reflexivity.
  - simpl in IH |- *. destruct (PyStr.is_word c); rewrite IH; reflexivity.
Qed.

Lemma filter_word_hyphenate (b : bool) (l : list ascii) :
  List.filter PyStr.is_word (PyStr.re_sub_runs Slug.separator PyStr.hyphen b l)
  = List.filter PyStr.is_word l.
Proof.
  revert b. induction l as [|c l IH]; intros b; simpl; [reflexivity|].
  destruct (Slug.separator c) eqn:Es.
  - assert (Hw : PyStr.is_word c = false).
    { destruct (PyStr.is_word c) eqn:Hw; [|reflexivity].
      rewrite (word_not_separator c Hw) in Es. discriminate. }
    rewrite Hw. destruct b; simpl; apply IH.
  - simpl. rewrite IH. reflexivity.
Qed.

Lemma filter_word_remove_special (l : list ascii) :
  List.filter PyStr.is_word (Slug.remove_special l)
  = List.filter PyStr.is_word (PyStr.lower l).
Proof.
  unfold Slug.remove_special, PyStr.re_sub_delete_outside.
  induction (PyStr.lower l) as [|c r IH]; simpl; [reflexivity|].
  destruct (PyStr.is_word c) eqn:Hw.
  - rewrite (word_kept c Hw). simpl. rewrite Hw, IH. reflexivity.
  - destruct (Slug.kept c); simpl; rewrite ?Hw; exact IH.
Qed.

Lemma filter_word_trimmed (l : list ascii) :
  List.filter PyStr.is_word (Slug.trimmed l)
  = List.filter PyStr.is_word (PyStr.lower l).
Proof.
  unfold Slug.trimmed, PyStr.strip, Slug.hyphenate.
  rewrite filter_word_rstrip, filter_word_lstrip, filter_word_hyphenate.
  apply filter_word_remove_special.
Qed.

Lemma filter_skipn_firstn (f : ascii -> bool) (n : nat) (l : list ascii) :
  List.filter f l = List.filter f (firstn n l) ++ List.filter f (skipn n l).
Proof.
  rewrite <- (firstn_skipn n l) at 1.
  induction (firstn n l) as [|c r IH]; simpl; [reflexivity|].
  destruct (f c); simpl; rewrite IH; reflexivity.
Qed.

(** X2: the word characters of a slug are the lowercased word characters of
    the text, in their order, from the first one on; none is missing unless
    the trimmed text was longer than 50 characters and was cut. *)
Theorem slugify_keeps_word_characters (S : string) :
  exists rest,
    List.filter PyStr.is_word (PyStr.chars (str_lower S))
    = List.filter PyStr.is_word (PyStr.chars (Slug.slugify S)) ++ rest
    /\ (rest = [] \/ (50 < length (Slug.trimmed (PyStr.chars S)))%nat).
Proof.
  unfold Slug.slugify, str_lower, Slug.slug_chars. rewrite !chars_str.
  exists (List.filter PyStr.is_word (skipn 50 (Slug.trimmed (PyStr.chars S)))).
  split.
  - rewrite <- filter_word_trimmed. apply filter_skipn_firstn.
  - destruct (le_lt_dec (length (Slug.trimmed (PyStr.chars S))) 50) as [Hle|Hgt].
    + left. rewrite skipn_all2 by exact Hle. reflexivity.
    + right. exact Hgt.
Qed.

Lemma filter_word_nil (l : list ascii) :
  List.filter PyStr.is_word l = []
  <-> forallb (fun c => negb (PyStr.is_word c)) l = true.
Proof.
  induction l as [|c l IH]; simpl; [tauto|].
  destruct (PyStr.is_word c); simpl; [split; discriminate | exact IH].
Qed.

Lemma filter_word_lower (l : list ascii) :
  List.filter PyStr.is_word (PyStr.lower l) = []
  <-> List.filter PyStr.is_word l = [].
Proof.
  rewrite !filter_word_nil. unfold PyStr.lower.
  induction l as [|c l IH]; simpl; [tauto|].
  rewrite is_word_lower. destruct (PyStr.is_word c); simpl; [tauto | exact IH].
Qed.

(** X3: the slug is empty exactly when the text has no letter, digit or
    underscore. *)
Theorem slugify_empty_iff (S : string) :
  Slug.slugify S = ""
  <-> forallb (fun c => negb (PyStr.is_word c)) (PyStr.chars S) = true.
Proof.
  rewrite <- filter_word_nil, <- filter_word_lower, <- filter_word_trimmed.
  unfold Slug.slugify, Slug.slug_chars.
  set (t := Slug.trimmed (PyStr.chars S)).
  pose proof (trimmed_slug_chars (PyStr.chars S)) as Hall. fold t in Hall.
  pose proof (trimmed_head (PyStr.chars S)) as Hhead. fold t in Hhead.
  split.
  - intros H. apply (f_equal PyStr.chars) in H. rewrite chars_str in H.
    destruct t as [|c r]; [reflexivity | discriminate H].
  - intros H. destruct t as [|c r]; [reflexivity|]. exfalso.
    apply Forall_cons in Hall as [Hc _].
    simpl in H. destruct (PyStr.is_word c) eqn:Hw; [discriminate|].
    apply Hhead. simpl. f_equal. exact (slug_char_cases c Hc Hw).
Qed.

(** ** [determine_branch_type], [display_ticket_info], [add_comment] *)

(** X4: [determine_branch_type] gives "bugfix" for the issue type "bug" in
    any letter case and "feature" for every other string (never "hotfix"
    or "refactor"); a type that is no string raises [AttributeError]. *)
Theorem determine_branch_type_cases (issue_type : json) :
  StartWork.determine_branch_type issue_type
  = match issue_type with
    | JStr t =>
        Ret (if String.eqb (str_lower t) "bug" then "bugfix" else "feature")
    | _ => Raise AttributeError
    end.
Proof.
  destruct issue_type as [| | |t| |]; try reflexivity.
  unfold StartWork.determine_branch_type, py_lower. cbn [o_bind].
  fold (str_lower t). generalize (str_lower t). intros k.
  unfold StartWork.type_map. cbn [StartWork.map_get].
  rewrite (String.eqb_sym k "bug").
  repeat match goal with
         | |- context [String.eqb ?a k] => destruct (String.eqb a k)
         end; reflexivity.
Qed.

Lemma length_chars (s : string) : length (PyStr.chars s) = String.length s.
Proof. induction s as [|c s IH]; simpl; congruence. Qed.

Lemma str_app (a b : list ascii) :
  PyStr.str (a ++ b) = PyStr.str a +:+ PyStr.str b.
Proof. induction a as [|c a IH]; simpl; [reflexivity|]. rewrite IH. reflexivity. Qed.

Lemma length_append (a b : string) :
  String.length (a +:+ b) = (String.length a + String.length b)%nat.
Proof.
  induction a as [|c a IH]; [reflexivity|].
  change (S (String.length (a +:+ b)) = S (String.length a + String.length b)).
  rewrite IH. reflexivity.
Qed.

Lemma append_empty_r (s : string) : s +:+ "" = s.
Proof.
  induction s as [|c s IH]; [reflexivity|].
  change (String c (s +:+ "") = String c s). rewrite IH. reflexivity.
Qed.

(** X5: the description [display_ticket_info] prints is the description
    itself when it has at most 200 characters, its first 200 characters
    followed by "..." otherwise; it is never longer than 203 characters. *)
Theorem shorten_bound (s : string) :
  exists r,
    StartWork.shorten (JStr s) = Ret r
    /\ (String.length r <= 203)%nat
    /\ r = if (200 <? String.length s)%nat
           then PyStr.str (firstn 200 (PyStr.chars s)) +:+ "..."
           else s.
Proof.
  unfold StartWork.shorten. eexists. split; [reflexivity|].
  destruct (Nat.ltb_spec 200 (String.length s)) as [Hlong|Hshort].
  - split; [|reflexivity].
    rewrite length_append, length_str, length_take.
    change (String.length "...") with 3%nat. lia.
  - rewrite firstn_all2 by (rewrite length_chars; exact Hshort).
    rewrite str_chars, append_empty_r. split; [lia | reflexivity].
Qed.

(** X6: the body [add_comment] posts is an ADF document from which both
    copies of [extract_text_from_adf] read back the comment. *)
Theorem comment_body_round_trip (comment : string) :
  exists body,
    py_getitem (StartWork.comment_body comment) "body" = Ret body
    /\ StartWork.extract_text_from_adf body = Ret comment
    /\ FetchTicket.extract_text_from_adf body = Ret (FetchTicket.Joined comment).
Proof.
  eexists. split; [reflexivity|]. split; reflexivity.
Qed.

(** ** The client's base address *)

Lemma rstrip_split (p : ascii -> bool) (l : list ascii) :
  exists rest, l = PyStr.rstrip p l ++ rest /\ forallb p rest = true.
Proof.
  induction l as [|c l (rest & Hl & Hrest)]; simpl.
  - exists []. auto.
  - destruct (PyStr.rstrip p l) as [|d r] eqn:E.
    + destruct (p c) eqn:Hc.
      * exists (c :: rest). split; [rewrite Hl; reflexivity|].
        simpl. rewrite Hc. exact Hrest.
      * exists rest. split; [rewrite Hl at 1; reflexivity | exact Hrest].
    + exists rest. split; [rewrite Hl at 1; reflexivity | exact Hrest].
Qed.

Lemma all_slashes (l : list ascii) :
  forallb is_slash l = true -> l = repeat "/"%char (length l).
Proof.
  induction l as [|c l IH]; simpl; [reflexivity|].
  intros H. apply andb_prop in H as [Hc Hl].
  apply Ascii.eqb_eq in Hc. subst c. f_equal. exact (IH Hl).
Qed.

(** X7: the base address of the client is the configured url without its
    trailing slashes: it does not end with a slash, and the url is the base
    address followed by slashes only. *)
Theorem base_url_has_no_trailing_slash (credentials : JiraConfig.credentials)
        (self : client) :
  client_of credentials = Ret self ->
  last (PyStr.chars (base_url self)) <> Some "/"%char
  /\ exists k,
      JiraConfig.url credentials
      = Some (base_url self +:+ PyStr.str (repeat "/"%char k)).
Proof.
  unfold client_of, rstrip_slash.
  destruct (JiraConfig.url credentials) as [u|]; [|discriminate].
  intros [= <-]. cbn [base_url]. rewrite chars_str. split.
  - intros H. apply last_rstrip in H. discriminate H.
  - destruct (rstrip_split is_slash (PyStr.chars u)) as (rest & Hu & Hrest).
    exists (length rest). rewrite <- (all_slashes rest Hrest), <- str_app, <- Hu.
    rewrite str_chars. reflexivity.
Qed.

Lemma base_url_has_no_trailing_slash_witness :
  exists k,
    Some "https://acme.atlassian.net//"
    = Some ("https://acme.atlassian.net" +:+ PyStr.str (repeat "/"%char k)).
Proof.
  destruct (base_url_has_no_trailing_slash
              (JiraConfig.mkCredentials (Some "https://acme.atlassian.net//")
                 (Some "dev@acme.example") (Some "s3cr3t"))
              acme eq_refl) as [_ H].
  exact H.
Defined.

(** ** [get_config]: one field is reported *)

(** X8: when [get_config] ends the process it has printed exactly one
    "Missing" line, for the first of url, email, token that is missing or
    empty, however many are. *)
Theorem get_config_reports_one_field (profile : option string) (w : world)
        (code : Z) :
  fst (fst (JiraConfig.get_config profile w)) = Exit code ->
  exists c key before after,
    snd (JiraConfig.get_config profile w)
    = before ++ Print (JiraConfig.missing_line key) :: after
    /\ selected profile w = Ret c
    /\ first_missing c = Some key
    /\ Forall (fun e => ~ reports_missing e) before
    /\ Forall (fun e => ~ reports_missing e) after.
Proof.
  destruct (get_config_runs profile w) as (t & Hq & Hrun). intros Hexit.
  pose proof (selected_interpolated profile w) as Hsel.
  assert (Hquiet : forall l, Forall quiet l -> Forall (fun e => ~ reports_missing e) l).
  { intros l Hl. eapply Forall_impl; [exact Hl|]. intros e [_ He]. exact He. }
  unfold resolved in Hrun.
  destruct (JiraConfig.chosen_file w);
    [ | rewrite Hrun in Hexit; discriminate | ];
    destruct (selected profile w) as [cr|e|x]; simpl in Hsel; try contradiction;
    try (rewrite Hrun in Hexit; discriminate);
    destruct (first_missing cr) as [key|] eqn:Hm;
    rewrite Hrun in Hexit |- *; try discriminate;
    exists cr, key, t, setup_help; repeat split; auto using setup_help_quiet.
Qed.

Lemma get_config_reports_one_field_witness :
  exists before after,
    snd (JiraConfig.get_config None (world_of no_tracker))
    = before ++ Print (JiraConfig.missing_line "email") :: after
    /\ Forall (fun e => ~ reports_missing e) before
    /\ Forall (fun e => ~ reports_missing e) after.
Proof.
  destruct (get_config_reports_one_field None (world_of no_tracker) 1 eq_refl)
    as (c & key & before & after & Ht & Hc & Hkey & Hb & Ha).
  assert (key = "email").
  { vm_compute in Hc. injection Hc as <-. vm_compute in Hkey. congruence. }
  subst key. exists before, after. auto.
Defined.

(** ** [create_branch] and git *)

(** X9: [create_branch] sends nothing to the tracker and never ends the
    process. It returns the name (the one computed from key, summary and
    branch type) only after the check for a repository, the listing of the
    branch and a [git checkout] or [git checkout -b] of that branch that
    git answered with the return code 0. It returns [None] only after a
    command run with [check=True] (never the listing) that git answered
    with another return code, and the last thing it printed is the git
    error with that code. It raises only for a summary that is no string,
    before any git command, or when git cannot be started. *)
Theorem create_branch_by_git_answers (key : string) (summary : json)
        (ty : string) (w : world) :
  sent (snd (fst (StartWork.create_branch key summary ty w))) = sent w
  /\ match fst (fst (StartWork.create_branch key summary ty w)) with
     | Ret (Some b) =>
         (exists slug, StartWork.slugify_value summary = Ret slug
                       /\ b = StartWork.branch_name_of key slug ty)
         /\ branch_checked_out
              (git w) (git (snd (fst (StartWork.create_branch key summary ty w)))) b
     | Ret None =>
         exists c rc h out,
           checked c = true /\ rc <> 0%Z
           /\ respond (git w) h c = Exited rc out
           /\ ran (git (snd (fst (StartWork.create_branch key summary ty w))))
              = c :: h
           /\ last (snd (StartWork.create_branch key summary ty w))
              = Some (git_error c rc)
     | Raise e =>
         (e = AttributeError
          /\ StartWork.create_branch key summary ty w = (Raise e, w, []))
         \/ e = OSError
     | Exit _ => False
     end.
Proof.
  destruct (slugify_value_cases summary) as [[slug Hslug]|Hslug].
  - rewrite (create_branch_runs key summary ty slug w Hslug).
    pose proof (created_cases (StartWork.branch_name_of key slug ty) w) as (Hs & Hc).
    split; [exact Hs|].
    destruct (fst (fst (created (StartWork.branch_name_of key slug ty) w)))
      as [[b|]|e|code]; auto.
    destruct Hc as (-> & Hco). split; [eauto | exact Hco].
  - rewrite (create_branch_no_slug key summary ty w _ Hslug). cbn [fst snd].
    split; [reflexivity | left; split; reflexivity].
Qed.

(** ** More on [main] *)

Lemma created_no_repository (b : string) (w : world) (rc : Z) (out : string) :
  answer (git w) RevParseGitDir = Exited rc out -> rc <> 0%Z ->
  created b w
  = (Ret None, with_git w (after_command (git w) RevParseGitDir),
     [Subprocess (argv RevParseGitDir); git_error RevParseGitDir rc]).
Proof.
  intros H Hrc. unfold created. rewrite H.
  destruct (Z.eqb_spec rc 0); [contradiction | reflexivity].
Qed.







Lemma add_comment_runs (self : client) (key comment : string) (w : world) :
  StartWork.add_comment self key comment w
  = (match tracker w (sent w)
             (mkRequest POST (comment_url self key) []
                (Some (StartWork.comment_body comment))) with
     | NoAnswer => Raise ConnectionError
     | Answer r =>
         if is_error_status (status_code r)
         then Raise (HTTPError (status_code r)) else Ret true
     end,
     after_request w (mkRequest POST (comment_url self key) []
                        (Some (StartWork.comment_body comment))),
     [Http (mkRequest POST (comment_url self key) []
              (Some (StartWork.comment_body comment)))]).
Proof.
  unfold StartWork.add_comment, session_post, bind, send, raise_for_status,
    after_request, ret, raise.
  destruct (tracker w (sent w) _) as [r|]; [|reflexivity].
  destruct (is_error_status (status_code r)); reflexivity.
Qed.



(** ** [transition_issue] *)

Lemma transition_issue_runs (self : client) (key name : string) (w : world) :
  StartWork.transition_issue self key name w
  = let get := plain_get (transitions_url self key) in
    let w1 := after_request w get in
    match o_bind (listed (tracker w (sent w) get))
                 (fun items => StartWork.find_transition items (str_lower name)) with
    | Ret id =>
        if truthy id then
          (match tracker w1 (sent w1) (transition_post self key id) with
           | NoAnswer => Raise ConnectionError
           | Answer r =>
               if is_error_status (status_code r)
               then Raise (HTTPError (status_code r)) else Ret true
           end,
           after_request w1 (transition_post self key id),
           [Http get; Http (transition_post self key id)])
        else
          (Ret false, w1,
           [Http get;
            Print [Lit "⚠️  Transition '"; Lit name; Lit "' not available"]])
    | Raise e => (Raise e, w1, [Http get])
    | Exit c => (Exit c, w1, [Http get])
    end.
Proof.
  cbv zeta. unfold StartWork.transition_issue, listed.
  unfold bind at 1. rewrite start_work_get_transitions_runs.
  destruct (fetched _) as [doc|e|c]; cbn [o_bind]; try reflexivity.
  destruct (py_get doc "transitions" (JList [])) as [ts|e|c]; cbn [o_bind];
    try reflexivity.
  unfold bind at 1. unfold lift at 1.
  destruct (py_iter ts) as [items|e|c]; cbn [o_bind]; try reflexivity.
  unfold bind at 1. unfold lift at 1.
  destruct (StartWork.find_transition items (str_lower name)) as [id|e|c];
    try reflexivity.
  destruct (truthy id); cbn [negb]; [|reflexivity].
  unfold session_post, bind, send, raise_for_status, transition_post,
    after_request, ret, raise.
  destruct (tracker _ _ _) as [r|]; [|reflexivity].
  destruct (is_error_status (status_code r)); reflexivity.
Qed.

(** X14: [transition_issue] returns [True] only after it has posted the id
    its search through the listed transitions came to, and that id is not
    empty; when it returns [False] it has sent the GET of the transitions
    and nothing else, and printed that the transition is not available. *)
Theorem transition_issue_posts_what_it_found (self : client) (key name : string)
        (w : world) :
  match fst (fst (StartWork.transition_issue self key name w)) with
  | Ret true =>
      exists items id,
        listed (tracker w (sent w) (plain_get (transitions_url self key)))
        = Ret items
        /\ StartWork.find_transition items (str_lower name) = Ret id
        /\ truthy id = true
        /\ snd (StartWork.transition_issue self key name w)
           = [Http (plain_get (transitions_url self key));
              Http (mkRequest POST (transitions_url self key) []
                      (Some (JDict [("transition", JDict [("id", id)])])))]
  | Ret false =>
      snd (StartWork.transition_issue self key name w)
      = [Http (plain_get (transitions_url self key));
         Print [Lit "⚠️  Transition '"; Lit name; Lit "' not available"]]
  | _ => True
  end.
Proof.
  rewrite transition_issue_runs. cbv zeta.
  destruct (listed _) as [items|e|c]; cbn [o_bind]; try exact I.
  destruct (StartWork.find_transition items (str_lower name)) as [id|e|c]
    eqn:Hfind; try exact I.
  destruct (truthy id) eqn:Hid; [|reflexivity].
  cbn [fst snd].
  destruct (tracker _ _ _) as [r|]; [|exact I].
  destruct (is_error_status (status_code r)); [exact I|].
  exists items, id. repeat split; first [assumption | reflexivity].
Qed.

(** X15: among well-formed transitions the search takes the first one whose
    name equals the wanted name up to letter case, and finds nothing
    ([None]) when there is none. *)
Theorem find_transition_first_match (items : list json)
        (described : list (string * json)) (wanted : string) :
  Forall2 (fun j p => is_transition j (fst p) (snd p)) items described ->
  StartWork.find_transition items wanted
  = Ret match List.find (fun p => String.eqb (str_lower (fst p)) wanted)
                        described with
        | Some p => snd p
        | None => JNull
        end.
Proof.
  induction 1 as [|j [n id] items described [Hname Hid] _ IH]; [reflexivity|].
  cbn [StartWork.find_transition List.find fst snd] in *.
  rewrite Hname. cbn [o_bind py_lower]. fold (str_lower n).
  destruct (String.eqb (str_lower n) wanted); [exact Hid | exact IH].
Qed.

Lemma find_transition_first_match_witness :
  StartWork.find_transition
    [JDict [("id", JStr "11"); ("name", JStr "To Do")];
     JDict [("id", JStr "21"); ("name", JStr "IN PROGRESS");
            ("to", JDict [("name", JStr "In Progress")])];
     JDict [("id", JStr "31"); ("name", JStr "In progress")]]
    (str_lower "In Progress")
  = Ret (JStr "21").
Proof.
  apply (find_transition_first_match _
           [("To Do", JStr "11"); ("IN PROGRESS", JStr "21");
            ("In progress", JStr "31")]).
  repeat constructor.
Defined.

(** ** [extract_acceptance_criteria] *)

Section Occurrences.
Import AcceptanceCriteria.

Lemma find_index_Some (needle hay : list ascii) (i : nat) :
  find_index needle hay = Some i ->
  starts_with needle (skipn i hay) = true
  /\ forall j, (j < i)%nat -> starts_with needle (skipn j hay) = false.
Proof.
  revert i. induction hay as [|c h IH]; intros i; simpl find_index.
  - destruct (starts_with needle []) eqn:E; [|discriminate].
    intros [= <-]. split; [exact E | intros j Hj; lia].
  - destruct (starts_with needle (c :: h)) eqn:E.
    + intros [= <-]. split; [exact E | intros j Hj; lia].
    + destruct (find_index needle h) as [k|]; [|discriminate].
      intros [= <-]. destruct (IH k eq_refl) as [Hk Hmin]. split; [exact Hk|].
      intros [|j] Hj; [exact E | apply Hmin; lia].
Qed.

Lemma find_index_None (needle hay : list ascii) :
  find_index needle hay = None ->
  forall j, starts_with needle (skipn j hay) = false.
Proof.
  induction hay as [|c h IH]; simpl find_index.
  - destruct (starts_with needle []) eqn:E; [discriminate|].
    intros _ [|j]; exact E.
  - destruct (starts_with needle (c :: h)) eqn:E; [discriminate|].
    destruct (find_index needle h); [discriminate|].
    intros _ [|j]; [exact E | apply IH; reflexivity].
Qed.

Lemma from_marker_Some (ms : list string) (d r : list ascii) :
  from_marker ms d = Some r ->
  exists earlier marker later idx,
    ms = earlier ++ marker :: later
    /\ (forall m j, In m earlier ->
          starts_with (PyStr.chars m) (skipn j (PyStr.lower d)) = false)
    /\ starts_with (PyStr.chars marker) (skipn idx (PyStr.lower d)) = true
    /\ (forall j, (j < idx)%nat ->
          starts_with (PyStr.chars marker) (skipn j (PyStr.lower d)) = false)
    /\ r = skipn idx d.
Proof.
  induction ms as [|m ms IH]; simpl; [discriminate|].
  destruct (find_index (PyStr.chars m) (PyStr.lower d)) as [i|] eqn:E.
  - intros [= <-]. destruct (find_index_Some _ _ _ E) as [Hi Hmin].
    exists [], m, ms, i. repeat split; auto. intros m' j [].
  - intros H. destruct (IH H) as (earlier & marker & later & idx & -> & Hno & Hi & Hmin & ->).
    exists (m :: earlier), marker, later, idx. repeat split; auto.
    intros m' j [<-|Hin]; [apply find_index_None, E | apply Hno, Hin].
Qed.

Lemma from_marker_None (ms : list string) (d : list ascii) :
  from_marker ms d = None <->
  forall m j, In m ms ->
    starts_with (PyStr.chars m) (skipn j (PyStr.lower d)) = false.
Proof.
  induction ms as [|m ms IH]; simpl.
  - split; [intros _ m j [] | reflexivity].
  - destruct (find_index (PyStr.chars m) (PyStr.lower d)) as [i|] eqn:E.
    + split; [discriminate|]. intros H.
      destruct (find_index_Some _ _ _ E) as [Hi _].
      rewrite (H m i (or_introl eq_refl)) in Hi. discriminate.
    + rewrite IH. split.
      * intros H m' j [<-|Hin]; [apply find_index_None, E | apply H, Hin].
      * intros H m' j Hin. apply H. right. exact Hin.
Qed.

End Occurrences.

(** X16: what [extract_acceptance_criteria] returns is the description from
    the first place where its lowercase has the marker on, for the first
    of the markers "acceptance criteria", "ac:", "acceptance:", "criteria:"
    that occurs at all; it returns [None] exactly when the lowercase of the
    description holds none of the markers (an empty description among
    them). *)
Theorem acceptance_criteria_from_first_marker (description : string) :
  match AcceptanceCriteria.extract_acceptance_criteria description with
  | Some ac =>
      exists earlier marker later idx,
        AcceptanceCriteria.markers = earlier ++ marker :: later
        /\ (forall m j, In m earlier ->
              AcceptanceCriteria.starts_with (PyStr.chars m)
                (skipn j (PyStr.chars (str_lower description))) = false)
        /\ AcceptanceCriteria.starts_with (PyStr.chars marker)
             (skipn idx (PyStr.chars (str_lower description))) = true
        /\ (forall j, (j < idx)%nat ->
              AcceptanceCriteria.starts_with (PyStr.chars marker)
                (skipn j (PyStr.chars (str_lower description))) = false)
        /\ ac = PyStr.str (skipn idx (PyStr.chars description))
  | None =>
      forall m j, In m AcceptanceCriteria.markers ->
        AcceptanceCriteria.starts_with (PyStr.chars m)
          (skipn j (PyStr.chars (str_lower description))) = false
  end.
Proof.
  unfold AcceptanceCriteria.extract_acceptance_criteria, str_lower.
  rewrite chars_str.
  destruct (String.eqb_spec description "") as [->|Hne].
  - intros m j Hin. simpl PyStr.lower. rewrite skipn_nil.
    simpl in Hin. destruct Hin as [<-|[<-|[<-|[<-|[]]]]]; reflexivity.
  - destruct (AcceptanceCriteria.from_marker AcceptanceCriteria.markers
                (PyStr.chars description)) as [r|] eqn:E; cbn [option_map].
    + destruct (from_marker_Some _ _ _ E)
        as (earlier & marker & later & idx & Hms & Hno & Hi & Hmin & ->).
      exists earlier, marker, later, idx. auto.
    + exact (proj1 (from_marker_None _ _) E).
Qed.

Example acceptance_criteria_sample :
  AcceptanceCriteria.extract_acceptance_criteria
    "Users cannot log in. AC: login works; Acceptance Criteria: as above"
  = Some "Acceptance Criteria: as above".
Proof. vm_compute. reflexivity. Qed.

(** ** create-ticket.py: [create_branch] *)

Lemma allowed_plain (c : ascii) :
  CreateTicket.allowed c = true -> PyStr.is_space c = false ->
  Spec.plain_slug_char c = true.
Proof. each_char c. Qed.

(** X17: the summary part of the branch name of create-ticket.py holds
    only [a-z], [0-9] and hyphens and has at most 50 characters. *)
Theorem create_ticket_sanitize_shape (summary : string) :
  forallb Spec.plain_slug_char (CreateTicket.sanitize (PyStr.chars summary)) = true
  /\ (length (CreateTicket.sanitize (PyStr.chars summary)) <= 50)%nat.
Proof.
  unfold CreateTicket.sanitize. split.
  - apply forallb_forall. intros c Hc. apply list_elem_of_In in Hc. revert c Hc.
    apply Forall_forall, Forall_take, re_sub_runs_Forall; [reflexivity|].
    unfold PyStr.re_sub_delete_outside.
    induction (PyStr.lower (PyStr.chars summary)) as [|c l IH]; simpl;
      [constructor|].
    destruct (CreateTicket.allowed c) eqn:E; [|exact IH].
    constructor; [|exact IH]. intros Hs. exact (allowed_plain c E Hs).
  - rewrite length_take. lia.
Qed.

Example create_ticket_sanitize_keeps_end_hyphens :
  PyStr.str (CreateTicket.sanitize (PyStr.chars " Fix  user_id - lookup! "))
  = "-fix-userid---lookup-".
Proof. vm_compute. reflexivity. Qed.

(** ** [list_profiles] *)

Lemma section_of_Some (c : parsed_config) (name : string) :
  is_Some (JiraConfig.section_of c name) <-> In name (map fst (sections c)).
Proof.
  unfold JiraConfig.section_of.
  induction (sections c) as [|[k v] l IH]; simpl.
  - split; [intros [x [=]] | intros []].
  - destruct (String.eqb_spec k name) as [->|Hne]; simpl.
    + split; [auto | eauto].
    + rewrite IH. split; [auto | intros [H|H]; [contradiction | exact H]].
Qed.

Lemma list_profiles_iff (self : JiraConfig.t) (name : string) :
  In name (Profiles.list_profiles self)
  <-> name <> "DEFAULT"
      /\ is_Some (JiraConfig.section_of (JiraConfig.config self) name).
Proof.
  unfold Profiles.list_profiles. rewrite filter_In, section_of_Some.
  rewrite negb_true_iff, String.eqb_neq. tauto.
Qed.

(** X19: the profiles [list_profiles] lists are the sections of the file
    other than [DEFAULT], and [get_profile] finds each of them: it ends as
    the reading of url, email and token of that section does (their
    values, interpolated, or the error of the first that cannot be
    interpolated), prints no warning and does not look at the
    environment. *)
Theorem listed_profiles_are_found (self : JiraConfig.t) (name : string) :
  JiraConfig.config_file_exists self = true ->
  In name (Profiles.list_profiles self) ->
  name <> "DEFAULT"
  /\ is_Some (JiraConfig.section_of (JiraConfig.config self) name)
  /\ interpolated (JiraConfig.section_credentials (JiraConfig.config self) name)
  /\ forall w,
      JiraConfig.get_profile self (Some name) w
      = (JiraConfig.section_credentials (JiraConfig.config self) name, w, []).
Proof.
  intros Hfile Hin. apply list_profiles_iff in Hin as [Hne Hsome].
  split; [exact Hne|]. split; [exact Hsome|]. split.
  - unfold JiraConfig.section_credentials, JiraConfig.section_get.
    repeat (apply interpolated_o_bind; [apply config_get_interpolated | intros ?]).
    exact I.
  - intros w. unfold JiraConfig.get_profile. rewrite Hfile.
    cbn [JiraConfig.wanted_profile]. unfold bind, lift, JiraConfig.has_profile.
    rewrite (bool_decide_eq_true_2 _ Hsome), orb_true_r.
    destruct (JiraConfig.section_credentials (JiraConfig.config self) name);
      reflexivity.
Qed.

Lemma listed_profiles_are_found_witness :
  In "acme" (Profiles.list_profiles (JiraConfig.mk InCwd true acme_config))
  /\ JiraConfig.get_profile (JiraConfig.mk InCwd true acme_config) (Some "acme")
       acme_world
     = (Ret acme_section, acme_world, []).
Proof.
  assert (Hin : In "acme" (Profiles.list_profiles (JiraConfig.mk InCwd true acme_config)))
    by (vm_compute; auto).
  split; [exact Hin|].
  destruct (listed_profiles_are_found (JiraConfig.mk InCwd true acme_config)
              "acme" eq_refl Hin) as (_ & _ & _ & H).
  apply H.
Defined.

(** The names come in the order of the file. *)
Example list_profiles_in_file_order :
  Profiles.list_profiles
    (JiraConfig.mk InCwd true
       (mkConfig ∅ [("zeta", ∅); ("acme", ∅); ("mid", ∅)]))
  = ["zeta"; "acme"; "mid"].
Proof. reflexivity. Qed.

(** ** test-connection.py *)

Lemma no_exit_py_len (v : json) : no_exit (py_len v).
Proof. destruct v; exact I. Qed.

#[local] Hint Resolve no_exit_py_len : calm.

Lemma calm_for_each (items : list json) (body : json -> M unit) :
  (forall x, calm (body x)) -> calm (for_each items body).
Proof.
  intros Hb. induction items as [|x r IH]; simpl.
  - apply calm_ret.
  - apply calm_bind; [apply Hb | intros _; exact IH].
Qed.

Lemma constant_for_each (items : list json) (body : json -> M unit) :
  (forall x, constant (body x)) -> constant (for_each items body).
Proof.
  intros Hb. induction items as [|x r IH]; simpl.
  - apply constant_ret.
  - apply constant_bind; [apply Hb | intros _; exact IH].
Qed.

Lemma constant_raise_for_status (r : response) : constant (raise_for_status r).
Proof.
  unfold raise_for_status. destruct (is_error_status (status_code r)).
  - apply (constant_lift (Raise (HTTPError (status_code r)))).
  - apply constant_ret.
Qed.

Lemma constant_response_json (r : response) : constant (response_json r).
Proof.
  unfold response_json. destruct (body r).
  - apply constant_ret.
  - apply (constant_lift (Raise JSONDecodeError)).
Qed.

(** A request inside [try ... except Exception] whose handler only prints:
    whatever the answer, and whatever the rest of the block makes of it, the
    statement ends normally after that one request. *)
Lemma guarded_request (r : request) (rest : response -> M unit)
      (h : exn -> M unit) (w : world) :
  (forall resp, constant (rest resp)) ->
  (forall resp, calm (rest resp)) ->
  (forall e, exists t, Forall (fun ev => is_print ev = true) t
                       /\ forall w1, h e w1 = (Ret tt, w1, t)) ->
  exists t,
    Forall (fun ev => is_print ev = true) t
    /\ try_except (let! response := send r in rest response) Exception h w
       = (Ret tt, after_request w r, Http r :: t).
Proof.
  intros Hconst Hcalm Hh. unfold try_except, bind. rewrite send_runs.
  destruct (tracker w (sent w) r) as [resp|].
  - destruct (Hconst resp) as (o & t & Hp & Hrun).
    pose proof (Hcalm resp (after_request w r)) as (_ & _ & Hno).
    rewrite Hrun in *. simpl in Hno. destruct o as [[]|e|c]; [| |contradiction].
    + exists t. split; [exact Hp | reflexivity].
    + simpl. destruct (Hh e) as (t' & Hp' & Hrun'). rewrite Hrun'.
      exists (t ++ t'). split; [apply Forall_app; auto | reflexivity].
  - simpl. destruct (Hh ConnectionError) as (t' & Hp' & Hrun'). rewrite Hrun'.
    exists t'. split; [exact Hp' | reflexivity].
Qed.

Lemma test_1_runs (base_url : string) (w : world) :
  exists t,
    Forall (fun ev => is_print ev = true) t
    /\ TestConnection.test_1 base_url w
       = ((if authenticated (tracker w (sent w) (myself base_url))
           then Ret tt else Exit 1),
          after_request w (myself base_url),
          Print [Lit "Test 1: Authenticating..."]
            :: Http (myself base_url) :: t).
Proof.
  unfold TestConnection.test_1, TestConnection.requests_get, authenticated,
    fetched, myself, plain_get.
  set (r := mkRequest GET _ [] None).
  unfold bind at 1. unfold print at 1. unfold try_except, bind at 1.
  rewrite send_runs.
  destruct (tracker w (sent w) r) as [[code [j|]]|];
    unfold bind, raise_for_status, response_json, print, lift, ret, raise,
      sys_exit;
    cbn [status_code body];
    try destruct (is_error_status code); try destruct j; cbn;
    eexists; (split; [|reflexivity]); repeat constructor.
Qed.

Ltac constant_block :=
  repeat first
    [ progress constant_steps
    | apply constant_raise_for_status
    | apply constant_response_json
    | match goal with
      | |- constant (for_each _ _) => apply constant_for_each; intros ?
      end ].

Ltac calm_block :=
  repeat first
    [ progress calm_steps
    | match goal with
      | |- calm (for_each _ _) => apply calm_for_each; intros ?
      | |- no_exit (o_bind _ _) => apply no_exit_o_bind; [|intros ?]
      end ].

Lemma test_2_runs (base_url : string) (w : world) :
  exists t,
    Forall (fun ev => is_print ev = true) t
    /\ TestConnection.test_2 base_url w
       = (Ret tt, after_request w (projects base_url),
          Print [Lit "Test 2: Fetching projects..."]
            :: Http (projects base_url) :: t).
Proof.
  unfold TestConnection.test_2, TestConnection.requests_get, projects, plain_get.
  set (r := mkRequest GET _ [] None).
  match goal with
  | |- context [try_except (bind (send r) ?rest) Exception ?h] =>
      destruct (guarded_request r rest h w) as (t & Hp & Hrun)
  end.
  - intros resp. constant_block.
  - intros resp. calm_block.
  - intros e. eexists. split; [|intros w1; reflexivity]. repeat constructor.
  - exists t. split; [exact Hp|].
    unfold bind at 1. unfold print at 1. rewrite Hrun. reflexivity.
Qed.

Lemma test_3_runs (base_url : string) (w : world) :
  exists t,
    Forall (fun ev => is_print ev = true) t
    /\ TestConnection.test_3 base_url w
       = (Ret tt, after_request w (search base_url),
          Print [Lit "Test 3: Searching for recent issues..."]
            :: Http (search base_url) :: t).
Proof.
  unfold TestConnection.test_3, TestConnection.requests_get, search.
  set (r := mkRequest GET _ TestConnection.search_params None).
  match goal with
  | |- context [try_except (bind (send r) ?rest) Exception ?h] =>
      destruct (guarded_request r rest h w) as (t & Hp & Hrun)
  end.
  - intros resp. constant_block.
  - intros resp. calm_block.
  - intros e. eexists. split; [|intros w1; reflexivity]. repeat constructor.
  - exists t. split; [exact Hp|].
    unfold bind at 1. unfold print at 1. rewrite Hrun. reflexivity.
Qed.

Lemma get_config_keeps_world (profile : option string) (w : world) :
  snd (fst (JiraConfig.get_config profile w)) = w
  /\ Forall (fun ev => is_print ev = true) (snd (JiraConfig.get_config profile w))
  /\ match fst (fst (JiraConfig.get_config profile w)) with
     | Exit code => code = 1%Z
     | _ => True
     end.
Proof.
  destruct (get_config_runs profile w) as (t & Hq & Hrun).
  apply quiet_prints in Hq. pose proof (quiet_prints _ setup_help_quiet) as Hs.
  pose proof (selected_interpolated profile w) as Hsel.
  rewrite Hrun. unfold resolved.
  destruct (JiraConfig.chosen_file w);
    destruct (selected profile w) as [cr|e|x]; simpl in Hsel;
    try contradiction;
    try destruct (first_missing cr);
    simpl; repeat split; auto;
    apply Forall_app; split; auto; constructor; auto.
Qed.

Lemma requests_in_app (a b : list event) :
  requests_in (a ++ b) = requests_in a ++ requests_in b.
Proof.
  unfold requests_in. induction a as [|e a IH]; simpl; [reflexivity|].
  destruct (is_http e); simpl; rewrite IH; reflexivity.
Qed.

Lemma requests_in_prints (t : list event) :
  Forall (fun ev => is_print ev = true) t -> requests_in t = [].
Proof.
  unfold requests_in. induction 1 as [|e t He Ht IH]; simpl; [reflexivity|].
  destruct e; try discriminate. exact IH.
Qed.

(** The script once the configuration is there. *)
Lemma script_runs (w w0 : world) (c : JiraConfig.credentials) (t0 : list event) :
  JiraConfig.get_config None w = (Ret c, w0, t0) ->
  exists w' t,
    TestConnection.script w
    = ((if authenticated
             (tracker w (sent w) (myself (format_value (JiraConfig.url c))))
        then Ret tt else Exit 1), w', t)
    /\ requests_in t
       = map Http
           (probes (format_value (JiraConfig.url c))
              (authenticated
                 (tracker w (sent w) (myself (format_value (JiraConfig.url c))))))
    /\ sent w'
       = rev (probes (format_value (JiraConfig.url c))
                (authenticated
                   (tracker w (sent w) (myself (format_value (JiraConfig.url c))))))
         ++ sent w
    /\ git w' = git w
    /\ Forall (fun ev => is_subprocess ev = false /\ is_post ev = false) t.
Proof.
  intros Hcfg.
  destruct (get_config_keeps_world None w) as (Hw & Hp0 & _).
  rewrite Hcfg in Hw, Hp0. simpl in Hw, Hp0. subst w0.
  set (base := format_value (JiraConfig.url c)).
  destruct (test_1_runs base w) as (t1 & Hp1 & H1).
  set (w1 := after_request w (myself base)) in *.
  destruct (test_2_runs base w1) as (t2 & Hp2 & H2).
  set (w2 := after_request w1 (projects base)) in *.
  destruct (test_3_runs base w2) as (t3 & Hp3 & H3).
  unfold TestConnection.script. fold base.
  destruct (authenticated (tracker w (sent w) (myself base))).
  - eexists _, _. split; [|split; [|split; [|split]]].
    + eapply bind_Ret; [exact Hcfg | | reflexivity].
      eapply bind_Ret; [reflexivity | | reflexivity].
      eapply bind_Ret; [reflexivity | | reflexivity].
      eapply bind_Ret; [exact H1 | | reflexivity].
      eapply bind_Ret; [exact H2 | | reflexivity].
      eapply bind_Ret; [exact H3 | | reflexivity].
      eapply bind_Ret; [reflexivity | | reflexivity].
      eapply bind_Ret; [reflexivity | | reflexivity].
      reflexivity.
    + rewrite requests_in_app, (requests_in_prints _ Hp0). simpl.
      rewrite requests_in_app, (requests_in_prints _ Hp1). simpl.
      rewrite requests_in_app, (requests_in_prints _ Hp2). simpl.
      rewrite requests_in_app, (requests_in_prints _ Hp3). reflexivity.
    + reflexivity.
    + reflexivity.
    + apply Forall_app. split; [apply prints_are_harmless, Hp0|].
      repeat first
        [ apply Forall_cons; split; [split; reflexivity|]
        | apply Forall_app; split
        | apply prints_are_harmless; assumption
        | apply Forall_nil
        | exact I ].
  - eexists _, _. split; [|split; [|split; [|split]]].
    + eapply bind_Ret; [exact Hcfg | | reflexivity].
      eapply bind_Ret; [reflexivity | | reflexivity].
      eapply bind_Ret; [reflexivity | | reflexivity].
      eapply bind_Exit. exact H1.
    + rewrite requests_in_app, (requests_in_prints _ Hp0). simpl.
      rewrite (requests_in_prints _ Hp1). reflexivity.
    + reflexivity.
    + reflexivity.
    + apply Forall_app. split; [apply prints_are_harmless, Hp0|].
      repeat first
        [ apply Forall_cons; split; [split; reflexivity|]
        | apply Forall_app; split
        | apply prints_are_harmless; assumption
        | apply Forall_nil
        | exact I ].
Qed.

(** X20: once [get_config] has returned the credentials, the connection
    test sends GET requests only, to [/rest/api/3/myself] first. When that
    request fails, or its answer is no JSON object, the script stops there
    with exit status 1; otherwise it goes on to [/rest/api/3/project] and
    [/rest/api/3/search], in this order, and runs to its end whatever these
    two come to. The addresses are built on the configured url as it is. *)
Theorem connection_test_verdict (w w0 : world) (c : JiraConfig.credentials)
        (t0 : list event) :
  JiraConfig.get_config None w = (Ret c, w0, t0) ->
  exists w' t,
    TestConnection.script w
    = ((if authenticated
             (tracker w (sent w) (myself (format_value (JiraConfig.url c))))
        then Ret tt else Exit 1), w', t)
    /\ requests_in t
       = map Http
           (probes (format_value (JiraConfig.url c))
              (authenticated
                 (tracker w (sent w) (myself (format_value (JiraConfig.url c))))))
    /\ sent w'
       = rev (probes (format_value (JiraConfig.url c))
                (authenticated
                   (tracker w (sent w) (myself (format_value (JiraConfig.url c))))))
         ++ sent w
    /\ git w' = git w
    /\ Forall (fun ev => is_subprocess ev = false /\ is_post ev = false) t.
Proof. apply script_runs. Qed.

Lemma connection_test_verdict_witness :
  exists w' t,
    TestConnection.script (office knows_user fresh_repo) = (Ret tt, w', t)
    /\ requests_in t
       = [Http (myself "https://acme.atlassian.net/");
          Http (projects "https://acme.atlassian.net/");
          Http (search "https://acme.atlassian.net/")].
Proof.
  destruct (connection_test_verdict (office knows_user fresh_repo)
              (snd (fst (JiraConfig.get_config None (office knows_user fresh_repo))))
              (JiraConfig.mkCredentials (Some "https://acme.atlassian.net/")
                 (Some "dev@acme.example") (Some "s3cr3t"))
              (snd (JiraConfig.get_config None (office knows_user fresh_repo)))
              eq_refl)
    as (w' & t & Hrun & Hreq & _).
  exists w', t. split; [exact Hrun | exact Hreq].
Defined.

(** X21: the connection test only reads: whatever the configuration and
    the tracker, it never posts, runs no subprocess and leaves the
    repository alone. Its exit status is 0 or 1, and it is 0 exactly when
    [get_config] returned the credentials and the request to
    [/rest/api/3/myself] was answered with a JSON object and a status
    below 400. *)
Theorem connection_test_only_reads (w : world) :
  git (snd (fst (TestConnection.script w))) = git w
  /\ Forall (fun ev => is_subprocess ev = false /\ is_post ev = false)
            (snd (TestConnection.script w))
  /\ (exit_status (fst (fst (TestConnection.script w))) = 0%Z
      \/ exit_status (fst (fst (TestConnection.script w))) = 1%Z)
  /\ (exit_status (fst (fst (TestConnection.script w))) = 0%Z
      <-> exists c,
            fst (fst (JiraConfig.get_config None w)) = Ret c
            /\ authenticated
                 (tracker w (sent w) (myself (format_value (JiraConfig.url c))))
               = true).
Proof.
  destruct (get_config_keeps_world None w) as (Hw & Hp0 & Hcode).
  destruct (JiraConfig.get_config None w) as [[o w0] t0] eqn:Hcfg.
  simpl in Hw, Hp0, Hcode. subst w0. destruct o as [c|e|code].
  - destruct (script_runs w w c t0 Hcfg) as (w' & t & Hrun & _ & _ & Hg & Hf).
    rewrite Hrun. simpl.
    destruct (authenticated
                (tracker w (sent w) (myself (format_value (JiraConfig.url c)))))
      eqn:Hauth; simpl.
    + repeat split; auto. intros _. exists c. split; [reflexivity | exact Hauth].
    + repeat split; auto; [discriminate|].
      intros (c' & [= <-] & Hc'). congruence.
  - assert (Hrun : TestConnection.script w = (Raise e, w, t0))
      by (apply bind_Raise; exact Hcfg).
    rewrite Hrun. simpl. repeat split; auto using prints_are_harmless.
    + discriminate.
    + intros (c' & [=] & _).
  - subst code.
    assert (Hrun : TestConnection.script w = (Exit 1, w, t0))
      by (apply bind_Exit; exact Hcfg).
    rewrite Hrun. simpl. repeat split; auto using prints_are_harmless.
    + discriminate.
    + intros (c' & [=] & _).
Qed.
